(** * gas-date-fns: calendar arithmetic over the JavaScript [Date] object

    A shallow embedding of [src/main.ts] (namespace [DateFns]) and of the
    parts of the ECMAScript built-ins the namespace calls ([Number],
    [Math.floor], [Math.ceil] and [Date], after ECMA-262), followed by the
    properties of the specification and by further properties of the
    functions.

    - JavaScript Numbers are IEEE 754 binary64 values ([spec_float] of the
      Standard Library at precision 53, exponent bound 1024), with their
      rounding, infinities, signed zeros and NaN.
    - A [Date] holds its time value: an integral number of milliseconds
      within +-8.64e15, or NaN ([None]).
    - The host time zone is a parameter ([LocalTZA], as in ECMA-262), so
      that daylight-saving transitions are in scope.
    - A function of the source that can throw returns a [result]. *)

From Stdlib Require Import ZArith Lia Bool List String.
From Stdlib Require Import Floats.SpecFloat.
From Stdlib Require Import DecimalString.
Import ListNotations.

Local Open Scope Z_scope.

(* ================================================================== *)
(** ** JavaScript Numbers *)
(* ================================================================== *)

(** A Number is a binary64 value. *)
Definition number : Type := spec_float.

Module Num.

Definition prec : Z := 53.
Definition emax : Z := 1024.

Definition NaN : number := S754_nan.
Definition Infinity : number := S754_infinity false.

(** The Number nearest to an integer; exact below [2^53]. *)
Definition ofZ (z : Z) : number := binary_normalize prec emax z 0 false.

Definition add (x y : number) : number := SFadd prec emax x y.
Definition sub (x y : number) : number := SFsub prec emax x y.
Definition div (x y : number) : number := SFdiv prec emax x y.

(** [x < y], [x <= y], [x > y], [x >= y]: false as soon as one side is NaN. *)
Definition ltb (x y : number) : bool := SFltb x y.
Definition leb (x y : number) : bool := SFleb x y.
Definition gtb (x y : number) : bool := SFltb y x.
Definition geb (x y : number) : bool := SFleb y x.

(** The global [isNaN] on a Number. *)
Definition isNaN (x : number) : bool :=
  match x with S754_nan => true | _ => false end.

Definition isFinite (x : number) : bool :=
  match x with S754_nan | S754_infinity _ => false | _ => true end.

Definition isZero (x : number) : bool :=
  match x with S754_zero _ => true | _ => false end.

(** [!x] on a Number: true for [+0], [-0] and NaN. *)
Definition not (x : number) : bool :=
  match x with S754_zero _ | S754_nan => true | _ => false end.

(** Integer part and fraction bits of [m * 2^e] for [e < 0]. *)
Definition ipart (m : positive) (e : Z) : Z := Z.pos m / 2 ^ (- e).
Definition fpart (m : positive) (e : Z) : Z := Z.pos m mod 2 ^ (- e).

(** [Math.floor]. *)
Definition floor (x : number) : number :=
  match x with
  | S754_finite s m e =>
      if 0 <=? e then x
      else if s then
        binary_normalize prec emax
          (if fpart m e =? 0 then - ipart m e else - (ipart m e + 1)) 0 true
      else binary_normalize prec emax (ipart m e) 0 false
  | _ => x
  end.

(** [Math.ceil]; [Math.ceil(-0.5)] is [-0]. *)
Definition ceil (x : number) : number :=
  match x with
  | S754_finite s m e =>
      if 0 <=? e then x
      else if s then binary_normalize prec emax (- ipart m e) 0 true
      else
        binary_normalize prec emax
          (if fpart m e =? 0 then ipart m e else ipart m e + 1) 0 false
  | _ => x
  end.

(** Truncation toward zero, as the words "drop the fraction, keep the sign"
    say it; the reference the two-branch rounding of the source is
    compared with. *)
Definition trunc (x : number) : number :=
  match x with
  | S754_finite s m e =>
      if 0 <=? e then x
      else binary_normalize prec emax (cond_Zopp s (ipart m e)) 0 s
  | _ => x
  end.

(** [ToIntegerOrInfinity] on a finite Number; [None] when the Number is
    NaN or infinite (every caller below tests finiteness first). *)
Definition toZ (x : number) : option Z :=
  match x with
  | S754_zero _ => Some 0
  | S754_finite s m e =>
      Some (cond_Zopp s (if 0 <=? e then Z.pos m * 2 ^ e else ipart m e))
  | _ => None
  end.

(** The binary64 form of a positive integer below [2^53]: the mantissa is
    shifted to 53 digits and the exponent set accordingly. *)
Definition mant (p : positive) : positive :=
  match (53 - Z.pos (digits2_pos p))%Z with
  | Z.pos k => Pos.iter xO p k
  | _ => p
  end.

Definition expo (p : positive) : Z := Z.pos (digits2_pos p) - 53.

Definition pabs (z : Z) : positive := Z.to_pos (Z.abs z).

End Num.

(* ================================================================== *)
(** ** Exceptions *)
(* ================================================================== *)

Inductive exn : Type :=
| TypeError (message : string)
| RangeError (message : string).

Inductive result (A : Type) : Type :=
| Return (a : A)
| Throw (e : exn).

Arguments Return {A} a.
Arguments Throw {A} e.

Definition bind {A B : Type} (c : result A) (k : A -> result B) : result B :=
  match c with
  | Return a => k a
  | Throw e => Throw e
  end.

Notation "x <- c ;; k" := (bind c (fun x => k))
  (at level 61, c at next level, right associativity).
Notation "c ;;; k" := (bind c (fun _ => k))
  (at level 61, right associativity).

(* ================================================================== *)
(** ** ECMA-262 time values: days, years, months (section 21.4.1)

    Quantities that are integral by construction are kept in [Z]; a value
    that may be NaN is an [option Z].  The final [TimeClip] confines every
    stored time value to +-8.64e15 < 2^53, where binary64 arithmetic on
    integers is exact, so nothing is lost by computing the intermediate
    sums exactly. *)
(* ================================================================== *)

Module TimeValues.

Definition msPerSecond : Z := 1000.
Definition msPerMinute : Z := 60000.
Definition msPerHour : Z := 3600000.
Definition msPerDay : Z := 86400000.
Definition maxTime : Z := 8640000000000000.

Definition Day (t : Z) : Z := t / msPerDay.
Definition TimeWithinDay (t : Z) : Z := t mod msPerDay.

Definition DaysInYear (y : Z) : Z :=
  if negb (y mod 4 =? 0) then 365
  else if negb (y mod 100 =? 0) then 366
  else if negb (y mod 400 =? 0) then 365
  else 366.

Definition DayFromYear (y : Z) : Z :=
  365 * (y - 1970) + (y - 1969) / 4 - (y - 1901) / 100 + (y - 1601) / 400.

Definition TimeFromYear (y : Z) : Z := msPerDay * DayFromYear y.

(** The largest [y] with [TimeFromYear y <= t]: an estimate from the mean
    year length, corrected by at most one year. *)
Definition YearFromTime (t : Z) : Z :=
  let d := Day t in
  let y := 1970 + (400 * d) / 146097 in
  if d <? DayFromYear y then y - 1
  else if DayFromYear (y + 1) <=? d then y + 1
  else y.

Definition InLeapYear (t : Z) : Z :=
  if DaysInYear (YearFromTime t) =? 366 then 1 else 0.

Definition DayWithinYear (t : Z) : Z := Day t - DayFromYear (YearFromTime t).

Definition MonthFromTime (t : Z) : Z :=
  let d := DayWithinYear t in
  let l := InLeapYear t in
  if d <? 31 then 0
  else if d <? 59 + l then 1
  else if d <? 90 + l then 2
  else if d <? 120 + l then 3
  else if d <? 151 + l then 4
  else if d <? 181 + l then 5
  else if d <? 212 + l then 6
  else if d <? 243 + l then 7
  else if d <? 273 + l then 8
  else if d <? 304 + l then 9
  else if d <? 334 + l then 10
  else 11.

Definition DateFromTime (t : Z) : Z :=
  let d := DayWithinYear t in
  let l := InLeapYear t in
  match MonthFromTime t with
  | 0 => d + 1
  | 1 => d - 30
  | 2 => d - 58 - l
  | 3 => d - 89 - l
  | 4 => d - 119 - l
  | 5 => d - 150 - l
  | 6 => d - 180 - l
  | 7 => d - 211 - l
  | 8 => d - 242 - l
  | 9 => d - 272 - l
  | 10 => d - 303 - l
  | _ => d - 333 - l
  end.

Definition WeekDay (t : Z) : Z := (Day t + 4) mod 7.

Definition HourFromTime (t : Z) : Z := (t / msPerHour) mod 24.
Definition MinFromTime (t : Z) : Z := (t / msPerMinute) mod 60.
Definition SecFromTime (t : Z) : Z := (t / msPerSecond) mod 60.
Definition msFromTime (t : Z) : Z := t mod msPerSecond.

(** Days from the start of a year to the first of month [mn] (0..11). *)
Definition DaysBeforeMonth (leap : Z) (mn : Z) : Z :=
  match mn with
  | 0 => 0
  | 1 => 31
  | 2 => 59 + leap
  | 3 => 90 + leap
  | 4 => 120 + leap
  | 5 => 151 + leap
  | 6 => 181 + leap
  | 7 => 212 + leap
  | 8 => 243 + leap
  | 9 => 273 + leap
  | 10 => 304 + leap
  | _ => 334 + leap
  end.

Definition leapDays (y : Z) : Z := DaysInYear y - 365.

(** [MakeDay] on integral arguments: the day number of the first of month
    [m mod 12] in year [y + floor (m / 12)], moved by [dt - 1] days.  The
    day number is given in closed form, for every year. *)
Definition MakeDayZ (y m dt : Z) : Z :=
  let ym := y + m / 12 in
  let mn := m mod 12 in
  DayFromYear ym + DaysBeforeMonth (leapDays ym) mn + dt - 1.

(** [MakeDay (year, month, date)]: NaN as soon as an argument is not finite. *)
Definition MakeDay (year month date : option Z) : option Z :=
  match year, month, date with
  | Some y, Some m, Some dt => Some (MakeDayZ y m dt)
  | _, _, _ => None
  end.

(** [MakeTime (hour, min, sec, ms)]. *)
Definition MakeTime (hour min sec ms : option Z) : option Z :=
  match hour, min, sec, ms with
  | Some h, Some m, Some s, Some milli =>
      Some (h * msPerHour + m * msPerMinute + s * msPerSecond + milli)
  | _, _, _, _ => None
  end.

(** [MakeDate (day, time)]. *)
Definition MakeDate (day time : option Z) : option Z :=
  match day, time with
  | Some d, Some t => Some (d * msPerDay + t)
  | _, _ => None
  end.

(** [TimeClip (time)]. *)
Definition TimeClip (time : option Z) : option Z :=
  match time with
  | Some t => if maxTime <? Z.abs t then None else Some t
  | None => None
  end.

(** Number of days of month [mn] (0..11) of year [y]. *)
Definition DaysInMonth (y mn : Z) : Z :=
  match mn with
  | 1 => 28 + leapDays y
  | 3 | 5 | 8 | 10 => 30
  | _ => 31
  end.

End TimeValues.

Import TimeValues.

(* ================================================================== *)
(** ** The host time zone and the [Date] object *)
(* ================================================================== *)

(** [LocalTZA t isUTC]: the offset of local time from UTC in milliseconds, at
    the UTC instant [t] ([isUTC = true]) or at the local time [t]
    ([isUTC = false]; a local time that a transition skips or repeats is
    read with the offset in force before the transition).  An offset is
    less than a day. *)
Class HostTimeZone : Type := {
  LocalTZA : Z -> bool -> Z;
  LocalTZA_bound : forall t isUTC, Z.abs (LocalTZA t isUTC) < msPerDay
}.

(** A [Date] object is its [[DateValue]] slot; [None] is NaN (Invalid Date).
    The setters below return the updated object. *)
Record Date : Type := mkDate { DateValue : option Z }.

Definition InvalidDate : Date := mkDate None.

Module JSDate.
Section Host.

Context {tz : HostTimeZone}.

Definition LocalTime (t : Z) : Z := t + LocalTZA t true.
Definition UTC (t : Z) : Z := t - LocalTZA t false.

(** [TimeClip (UTC (newDate))], the last step of every setter. *)
Definition store (local : option Z) : Date :=
  mkDate (TimeClip (option_map UTC local)).

(** [new Date(value)] for a Number [value]. *)
Definition ofNumber (value : number) : Date :=
  mkDate (TimeClip (Num.toZ value)).

Definition getTime (d : Date) : number :=
  match DateValue d with
  | Some t => Num.ofZ t
  | None => Num.NaN
  end.

(** The getters of local fields: NaN on an invalid date. *)
Definition localField (f : Z -> Z) (d : Date) : number :=
  match DateValue d with
  | Some t => Num.ofZ (f (LocalTime t))
  | None => Num.NaN
  end.

Definition getFullYear : Date -> number := localField YearFromTime.
Definition getMonth : Date -> number := localField MonthFromTime.
Definition getDate : Date -> number := localField DateFromTime.
Definition getDay : Date -> number := localField WeekDay.
Definition getHours : Date -> number := localField HourFromTime.
Definition getMinutes : Date -> number := localField MinFromTime.
Definition getSeconds : Date -> number := localField SecFromTime.
Definition getMilliseconds : Date -> number := localField msFromTime.

(** [d.setDate(date)]. *)
Definition setDate (d : Date) (date : number) : Date :=
  match DateValue d with
  | None => d
  | Some t0 =>
      let t := LocalTime t0 in
      store (MakeDate
               (MakeDay (Some (YearFromTime t)) (Some (MonthFromTime t)) (Num.toZ date))
               (Some (TimeWithinDay t)))
  end.

(** [d.setMonth(month, date)]. *)
Definition setMonth (d : Date) (month date : number) : Date :=
  match DateValue d with
  | None => d
  | Some t0 =>
      let t := LocalTime t0 in
      store (MakeDate
               (MakeDay (Some (YearFromTime t)) (Num.toZ month) (Num.toZ date))
               (Some (TimeWithinDay t)))
  end.

(** [d.setFullYear(year, month, date)]: an invalid date is first reset to
    time value [+0]. *)
Definition setFullYear (d : Date) (year month date : number) : Date :=
  let t :=
    match DateValue d with
    | None => 0
    | Some t0 => LocalTime t0
    end in
  store (MakeDate (MakeDay (Num.toZ year) (Num.toZ month) (Num.toZ date))
                  (Some (TimeWithinDay t))).

(** [d.setHours(hour, min, sec, ms)]. *)
Definition setHours (d : Date) (hour min sec ms : number) : Date :=
  match DateValue d with
  | None => d
  | Some t0 =>
      let t := LocalTime t0 in
      store (MakeDate (Some (Day t))
                      (MakeTime (Num.toZ hour) (Num.toZ min) (Num.toZ sec) (Num.toZ ms)))
  end.

End Host.
End JSDate.

(* ================================================================== *)
(** ** The functions of [src/main.ts] *)
(* ================================================================== *)

(** What a caller may pass where a date is expected. *)
Inductive RawInput : Type :=
| VDate (d : Date)            (* a Date object *)
| VNumber (n : number)        (* a Number, primitive or boxed *)
| VString (s : string)        (* a String, primitive or boxed *)
| VOther.                     (* undefined, null, a boolean, any other object *)

(** What a caller may pass where an amount is expected. *)
Inductive DirtyNumber : Type :=
| NNumber (n : number)
| NBoolean (b : bool)
| NNull
| NUndefined.

Record Interval : Type := mkInterval { start : RawInput; end_ : RawInput }.

Module DateFns.
Section Host.

Context {tz : HostTimeZone}.

Import JSDate.

Definition MILLISECONDS_IN_MINUTE : number := Num.ofZ 60000.

Definition decimal (n : nat) : string := NilEmpty.string_of_uint (Nat.to_uint n).

(** [args] is [arguments.length] of the calling function. *)
Definition requiredArgs (required : nat) (args : nat) : result unit :=
  if (args <? required)%nat then
    Throw (TypeError
             (decimal required ++ " argument"
                ++ (if (1 <? required)%nat then "s" else "")
                ++ " required, but only " ++ decimal args ++ " present"))
  else Return tt.

Definition toDate (argument : RawInput) : result Date :=
  requiredArgs 1 1 ;;;
  match argument with
  | VDate d => Return (ofNumber (getTime d))
  | VNumber n => Return (ofNumber n)
  | VString _ | VOther => Return (ofNumber Num.NaN)
  end.

(** Whether [toDate] writes its deprecation warning to the console: for
    string arguments only. *)
Definition toDate_warns (argument : RawInput) : bool :=
  match argument with
  | VString _ => true
  | _ => false
  end.

(** The conversion [Number(v)]. *)
Definition Number (v : DirtyNumber) : number :=
  match v with
  | NNumber n => n
  | NBoolean true => Num.ofZ 1
  | NBoolean false => Num.ofZ 0
  | NNull => Num.ofZ 0
  | NUndefined => Num.NaN
  end.

Definition toInteger (dirtyNumber : DirtyNumber) : number :=
  match dirtyNumber with
  | NNull | NBoolean _ => Num.NaN
  | _ =>
      let number := Number dirtyNumber in
      if Num.isNaN number then number
      else if Num.ltb number (Num.ofZ 0) then Num.ceil number
      else Num.floor number
  end.

Definition differenceInMilliseconds (dirtyDateLeft dirtyDateRight : RawInput)
  : result number :=
  requiredArgs 2 2 ;;;
  dateLeft <- toDate dirtyDateLeft ;;
  dateRight <- toDate dirtyDateRight ;;
  Return (Num.sub (getTime dateLeft) (getTime dateRight)).

Definition differenceInMinutes (dirtyDateLeft dirtyDateRight : RawInput)
  : result number :=
  requiredArgs 2 2 ;;;
  ms <- differenceInMilliseconds dirtyDateLeft dirtyDateRight ;;
  let diff := Num.div ms MILLISECONDS_IN_MINUTE in
  Return (if Num.gtb diff (Num.ofZ 0) then Num.floor diff else Num.ceil diff).

Definition getMonth (dirtyDate : RawInput) : result number :=
  requiredArgs 1 1 ;;;
  date <- toDate dirtyDate ;;
  let month := JSDate.getMonth date in
  Return month.

(** [dirtyInterval] is [None] when the caller passes a falsy value, which
    the source replaces by the empty object. *)
Definition isWithinInterval (dirtyDate : RawInput) (dirtyInterval : option Interval)
  : result bool :=
  requiredArgs 2 2 ;;;
  let interval :=
    match dirtyInterval with
    | Some i => i
    | None => mkInterval VOther VOther
    end in
  date <- toDate dirtyDate ;;
  let time := getTime date in
  startDate <- toDate (start interval) ;;
  let startTime := getTime startDate in
  endDate <- toDate (end_ interval) ;;
  let endTime := getTime endDate in
  if negb (Num.leb startTime endTime) then
    Throw (RangeError "Invalid interval")
  else Return (Num.geb time startTime && Num.leb time endTime).

Definition getDaysInMonth (dirtyDate : RawInput) : result number :=
  requiredArgs 1 1 ;;;
  date <- toDate dirtyDate ;;
  let year := getFullYear date in
  let monthIndex := JSDate.getMonth date in
  let lastDayOfMonth := ofNumber (Num.ofZ 0) in
  let lastDayOfMonth :=
    setFullYear lastDayOfMonth year (Num.add monthIndex (Num.ofZ 1)) (Num.ofZ 0) in
  let lastDayOfMonth :=
    setHours lastDayOfMonth (Num.ofZ 0) (Num.ofZ 0) (Num.ofZ 0) (Num.ofZ 0) in
  Return (getDate lastDayOfMonth).

Definition getDay (dirtyDate : RawInput) : result number :=
  requiredArgs 1 1 ;;;
  date <- toDate dirtyDate ;;
  let day := JSDate.getDay date in
  Return day.

Definition isBefore (dirtyDate dirtyDateToCompare : RawInput) : result bool :=
  requiredArgs 2 2 ;;;
  date <- toDate dirtyDate ;;
  dateToCompare <- toDate dirtyDateToCompare ;;
  Return (Num.ltb (getTime date) (getTime dateToCompare)).

Definition startOfMonth (dirtyDate : RawInput) : result Date :=
  requiredArgs 1 1 ;;;
  date <- toDate dirtyDate ;;
  let date := setDate date (Num.ofZ 1) in
  let date := setHours date (Num.ofZ 0) (Num.ofZ 0) (Num.ofZ 0) (Num.ofZ 0) in
  Return date.

Definition endOfMonth (dirtyDate : RawInput) : result Date :=
  requiredArgs 1 1 ;;;
  date <- toDate dirtyDate ;;
  let month := JSDate.getMonth date in
  let date :=
    setFullYear date (getFullYear date) (Num.add month (Num.ofZ 1)) (Num.ofZ 0) in
  let date :=
    setHours date (Num.ofZ 23) (Num.ofZ 59) (Num.ofZ 59) (Num.ofZ 999) in
  Return date.

Definition addMonths (dirtyDate : RawInput) (dirtyAmount : DirtyNumber)
  : result Date :=
  requiredArgs 2 2 ;;;
  date <- toDate dirtyDate ;;
  let amount := toInteger dirtyAmount in
  if Num.isNaN amount then Return (ofNumber Num.NaN)
  else if Num.not amount then Return date
  else
    let dayOfMonth := getDate date in
    let endOfDesiredMonth := ofNumber (getTime date) in
    let endOfDesiredMonth :=
      setMonth endOfDesiredMonth
        (Num.add (Num.add (JSDate.getMonth date) amount) (Num.ofZ 1)) (Num.ofZ 0) in
    let daysInMonth := getDate endOfDesiredMonth in
    if Num.geb dayOfMonth daysInMonth then Return endOfDesiredMonth
    else
      Return (setFullYear date (getFullYear endOfDesiredMonth)
                (JSDate.getMonth endOfDesiredMonth) dayOfMonth).

End Host.
End DateFns.

(* ================================================================== *)
(** ** Vocabulary of the properties *)
(* ================================================================== *)

Module Notions.

Import JSDate DateFns.

(** The epoch-millisecond value of the canonical instant of an input;
    [None] when the instant is invalid. *)
Definition epoch (x : RawInput) : option Z :=
  match toDate x with
  | Return d => DateValue d
  | Throw _ => None
  end.

(** [a <= b] on epoch values: false as soon as one side is NaN. *)
Definition epoch_le (a b : option Z) : bool :=
  match a, b with
  | Some x, Some y => x <=? y
  | _, _ => false
  end.

(** The epoch value as the Number [getTime] returns. *)
Definition epochNumber (x : RawInput) : number := getTime (mkDate (epoch x)).

(** The valid date with time value [t], as an input. *)
Definition instant (t : Z) : RawInput := VDate (mkDate (Some t)).

(** The instant [h]:[m]:[s] on the day that starts at time value [midnight]. *)
Definition clock (midnight h m s : Z) : RawInput :=
  instant (midnight + h * msPerHour + m * msPerMinute + s * msPerSecond).

Definition notDateNorNumber (x : RawInput) : bool :=
  match x with
  | VString _ | VOther => true
  | VDate _ | VNumber _ => false
  end.

(** The local time of day [tod] on day [dt] of month [mn] of year [y]. *)
Definition wallClock (y mn dt tod : Z) : Z := MakeDayZ y mn dt * msPerDay + tod.

(** 23:59:59.999 *)
Definition endOfDay : Z := 23 * msPerHour + 59 * msPerMinute + 59 * msPerSecond + 999.

(** The target of [addMonths]: year and month [k] months after month
    [mn] of year [y]. *)
Definition targetYear (y mn k : Z) : Z := y + (mn + k) / 12.
Definition targetMonth (mn k : Z) : Z := (mn + k) mod 12.

(** The last day of the target month, at the time of day of the local
    time [tl]. *)
Definition clamped (tl k : Z) : Z :=
  let y' := targetYear (YearFromTime tl) (MonthFromTime tl) k in
  let mn' := targetMonth (MonthFromTime tl) k in
  wallClock y' mn' (DaysInMonth y' mn') (TimeWithinDay tl).

(** A local time that exists on the wall clock of the host zone and whose
    instant a [Date] can hold: [UTC] followed by [LocalTime] gives it back. *)
Definition representable {tz : HostTimeZone} (local : Z) : Prop :=
  Z.abs (UTC local) <= maxTime /\ LocalTime (UTC local) = local.

(** A local time whose instant a [Date] can hold and reads back, in the
    host zone, as a local time of the same calendar day: the time itself
    when it exists on the wall clock, a later time of that day when a
    transition skips it. *)
Definition keepsDay {tz : HostTimeZone} (local : Z) : Prop :=
  Z.abs (UTC local) <= maxTime /\ Day (LocalTime (UTC local)) = Day local.

End Notions.

(* ================================================================== *)
(** ** Host zones *)
(* ================================================================== *)

Module Zones.

(** Coordinated universal time: no offset. *)
Definition UTCzone : HostTimeZone :=
  {| LocalTZA := fun _ _ => 0; LocalTZA_bound := fun _ _ => eq_refl |}.

(** Central European time around the start of summer time in 2019: one
    hour ahead of UTC before 31 March 2019, 01:00 UTC, two hours ahead
    from then on.  The local times from 02:00 to 03:00 of that day do not
    exist; they are read with the offset before the transition. *)
Definition summerTime2019 : Z := 1553994000000.

Definition CET_offset (t : Z) (isUTC : bool) : Z :=
  if isUTC then (if t <? summerTime2019 then msPerHour else 2 * msPerHour)
  else (if t <? summerTime2019 + 2 * msPerHour then msPerHour else 2 * msPerHour).

Definition CETzone : HostTimeZone.
Proof.
  refine {| LocalTZA := CET_offset |}.
  intros t isUTC. unfold CET_offset.
  destruct isUTC; [destruct (t <? _) | destruct (t <? _)]; reflexivity.
Defined.

(** Kiritimati (Line Islands): ten hours behind UTC until the end of
    30 December 1994, fourteen hours ahead from then on.  The local day
    31 December 1994 does not exist; its times are read with the offset
    before the change, and fall on 1 January 1995. *)
Definition dateLineChange1994 : Z := 788868000000.

Definition Kiritimati_offset (t : Z) (isUTC : bool) : Z :=
  if isUTC then (if t <? dateLineChange1994 then - (10 * msPerHour) else 14 * msPerHour)
  else (if t <? dateLineChange1994 + 14 * msPerHour
        then - (10 * msPerHour) else 14 * msPerHour).

Definition KiritimatiZone : HostTimeZone.
Proof.
  refine {| LocalTZA := Kiritimati_offset |}.
  intros t isUTC. unfold Kiritimati_offset.
  destruct isUTC; [destruct (t <? _) | destruct (t <? _)]; reflexivity.
Defined.

(** Paraguay around the start of summer time in 2017: four hours behind
    UTC before 1 October 2017, 04:00 UTC, three hours behind from then
    on.  The local times from 00:00 to 01:00 of 1 October 2017 do not
    exist; they are read with the offset before the transition. *)
Definition summerTime2017 : Z := 1506830400000.

Definition Asuncion_offset (t : Z) (isUTC : bool) : Z :=
  if isUTC then (if t <? summerTime2017 then - (4 * msPerHour) else - (3 * msPerHour))
  else (if t <? summerTime2017 - 3 * msPerHour
        then - (4 * msPerHour) else - (3 * msPerHour)).

Definition AsuncionZone : HostTimeZone.
Proof.
  refine {| LocalTZA := Asuncion_offset |}.
  intros t isUTC. unfold Asuncion_offset.
  destruct isUTC; [destruct (t <? _) | destruct (t <? _)]; reflexivity.
Defined.

(** A zone with a constant offset from UTC: no summer time. *)
Definition fixedZone (offset : Z) (H : Z.abs offset < msPerDay) : HostTimeZone :=
  {| LocalTZA := fun _ _ => offset; LocalTZA_bound := fun _ _ => H |}.

End Zones.

(* ================================================================== *)
(** ** The calendar: years, months and days *)
(* ================================================================== *)

Module Calendar.

Lemma DaysInYear_cases y : DaysInYear y = 365 \/ DaysInYear y = 366.
Proof.
  unfold DaysInYear.
  destruct (y mod 4 =? 0), (y mod 100 =? 0), (y mod 400 =? 0); simpl; auto.
Qed.

Lemma leapDays_cases y : leapDays y = 0 \/ leapDays y = 1.
Proof. unfold leapDays. destruct (DaysInYear_cases y); lia. Qed.

Lemma DayFromYear_succ y : DayFromYear (y + 1) = DayFromYear y + DaysInYear y.
Proof.
  unfold DayFromYear, DaysInYear.
  destruct (Z.eqb_spec (y mod 4) 0), (Z.eqb_spec (y mod 100) 0),
    (Z.eqb_spec (y mod 400) 0); cbn [negb];
    Z.to_euclidean_division_equations; lia.
Qed.

Lemma DayFromYear_mono a b : a <= b -> DayFromYear a <= DayFromYear b.
Proof. intros. unfold DayFromYear. Z.to_euclidean_division_equations. lia. Qed.

Lemma YearFromTime_bracket t :
  DayFromYear (YearFromTime t) <= Day t < DayFromYear (YearFromTime t + 1).
Proof.
  unfold YearFromTime.
  set (d := Day t).
  set (y := 1970 + 400 * d / 146097).
  assert (Hlo : DayFromYear (y - 1) <= d)
    by (subst y; unfold DayFromYear; Z.to_euclidean_division_equations; lia).
  assert (Hhi : d < DayFromYear (y + 2))
    by (subst y; unfold DayFromYear; Z.to_euclidean_division_equations; lia).
  destruct (Z.ltb_spec d (DayFromYear y)).
  - replace (y - 1 + 1) with y by lia. lia.
  - destruct (Z.leb_spec (DayFromYear (y + 1)) d).
    + replace (y + 1 + 1) with (y + 2) by lia. lia.
    + lia.
Qed.

(** [YearFromTime t] is the only year whose days contain [Day t]. *)
Lemma YearFromTime_unique t y :
  DayFromYear y <= Day t < DayFromYear (y + 1) -> YearFromTime t = y.
Proof.
  intros Hy.
  pose proof (YearFromTime_bracket t) as HY.
  destruct (Z.lt_trichotomy (YearFromTime t) y) as [Hlt | [Heq | Hgt]]; auto.
  - pose proof (DayFromYear_mono (YearFromTime t + 1) y ltac:(lia)). lia.
  - pose proof (DayFromYear_mono (y + 1) (YearFromTime t) ltac:(lia)). lia.
Qed.

Lemma Day_MakeDate d tod :
  0 <= tod < msPerDay ->
  Day (d * msPerDay + tod) = d /\ TimeWithinDay (d * msPerDay + tod) = tod.
Proof.
  intros. unfold Day, TimeWithinDay, msPerDay in *.
  Z.to_euclidean_division_equations; lia.
Qed.

Lemma TimeWithinDay_range t : 0 <= TimeWithinDay t < msPerDay.
Proof. unfold TimeWithinDay, msPerDay. apply Z.mod_pos_bound. lia. Qed.

Lemma month_cases mn :
  0 <= mn <= 11 ->
  mn = 0 \/ mn = 1 \/ mn = 2 \/ mn = 3 \/ mn = 4 \/ mn = 5 \/ mn = 6 \/
  mn = 7 \/ mn = 8 \/ mn = 9 \/ mn = 10 \/ mn = 11.
Proof. lia. Qed.

Ltac each_month H :=
  apply month_cases in H;
  repeat (destruct H as [H | H]); subst.

Lemma DaysInMonth_range y mn : 28 <= DaysInMonth y mn <= 31.
Proof.
  unfold DaysInMonth. pose proof (leapDays_cases y).
  destruct mn as [ | p | p ]; try lia.
  do 4 (try destruct p as [ p | p | ]); lia.
Qed.

(** A month index is normalised into [0..11] with a carry into the year. *)
Lemma MakeDayZ_normal y m dt :
  MakeDayZ y m dt = MakeDayZ (y + m / 12) (m mod 12) dt.
Proof.
  unfold MakeDayZ.
  rewrite (Z.mod_small (m mod 12) 12) by (apply Z.mod_pos_bound; lia).
  rewrite (Z.div_small (m mod 12) 12) by (apply Z.mod_pos_bound; lia).
  rewrite Z.add_0_r. reflexivity.
Qed.

Ltac tables := cbv beta iota delta [DaysBeforeMonth DaysInMonth] in *.

(** Day 0 of the next month is the last day of this month. *)
Lemma MakeDayZ_day0 y mn :
  0 <= mn <= 11 ->
  MakeDayZ y (mn + 1) 0 = MakeDayZ y mn (DaysInMonth y mn).
Proof.
  intros H.
  pose proof (DayFromYear_succ y) as Hs.
  pose proof (leapDays_cases y) as Hl.
  assert (HDY : DaysInYear y = 365 + leapDays y) by (unfold leapDays; lia).
  rewrite HDY in Hs. clear HDY.
  unfold MakeDayZ.
  rewrite (Z.mod_small mn), (Z.div_small mn) by lia.
  destruct (Z.eq_dec mn 11) as [-> | Hne].
  - change ((11 + 1) mod 12) with 0. change ((11 + 1) / 12) with 1.
    tables. rewrite ?Z.add_0_r. lia.
  - rewrite (Z.mod_small (mn + 1)), (Z.div_small (mn + 1)), !Z.add_0_r by lia.
    each_month H; try lia;
      match goal with
      | |- context [DaysBeforeMonth _ (?a + 1)] =>
          let b := eval vm_compute in (a + 1) in change (a + 1) with b
      end; tables; lia.
Qed.

(** The fields read back from a time value built from a civil date. *)
Lemma fields_of_MakeDayZ y mn dt tod :
  0 <= mn <= 11 -> 1 <= dt <= DaysInMonth y mn -> 0 <= tod < msPerDay ->
  let t := MakeDayZ y mn dt * msPerDay + tod in
  YearFromTime t = y /\ MonthFromTime t = mn /\ DateFromTime t = dt.
Proof.
  intros Hm Hd Ht t.
  destruct (Day_MakeDate (MakeDayZ y mn dt) tod Ht) as [HD _]. fold t in HD.
  clearbody t.
  pose proof (DayFromYear_succ y) as Hs.
  pose proof (leapDays_cases y) as Hl.
  assert (HDY : DaysInYear y = 365 + leapDays y) by (unfold leapDays; lia).
  rewrite HDY in Hs.
  assert (HB : DaysBeforeMonth (leapDays y) mn + dt - 1 < 365 + leapDays y
               /\ 0 <= DaysBeforeMonth (leapDays y) mn).
  { each_month Hm; tables; lia. }
  assert (HDay : Day t = DayFromYear y + DaysBeforeMonth (leapDays y) mn + dt - 1).
  { rewrite HD. unfold MakeDayZ.
    rewrite Z.mod_small, Z.div_small, Z.add_0_r by lia. reflexivity. }
  assert (HY : YearFromTime t = y).
  { apply YearFromTime_unique. lia. }
  assert (HL : InLeapYear t = leapDays y).
  { unfold InLeapYear. rewrite HY, HDY.
    destruct Hl as [-> | ->]; reflexivity. }
  assert (HW : DayWithinYear t = DaysBeforeMonth (leapDays y) mn + dt - 1).
  { unfold DayWithinYear. rewrite HDay, HY. lia. }
  assert (HM : MonthFromTime t = mn).
  { unfold MonthFromTime. rewrite HW, HL.
    each_month Hm; tables;
      repeat match goal with
             | |- context [?a <? ?b] => destruct (Z.ltb_spec a b); try lia
             end. }
  split; [exact HY | split; [exact HM | ]].
  unfold DateFromTime. rewrite HM, HW, HL.
  each_month Hm; tables; lia.
Qed.

End Calendar.

(* ================================================================== *)
(** ** Numbers: integers in binary64 *)
(* ================================================================== *)

Module NumFacts.
Import Num.

(** *** Digits and shifts of positive numbers *)

Lemma digits2_size p : digits2_pos p = Pos.size p.
Proof. induction p; simpl; congruence. Qed.

Lemma digits2_bounds p :
  2 ^ (Z.pos (digits2_pos p) - 1) <= Z.pos p < 2 ^ Z.pos (digits2_pos p).
Proof.
  rewrite digits2_size. split.
  - pose proof (Pos.size_le p) as H.
    apply Pos2Z.pos_le_pos in H.
    rewrite Pos2Z.inj_pow in H.
    replace (Z.pos (Pos.size p)) with (Z.succ (Z.pos (Pos.size p) - 1)) in H by lia.
    rewrite Z.pow_succ_r in H by lia. lia.
  - pose proof (Pos.size_gt p) as H.
    apply Pos2Z.pos_lt_pos in H. rewrite Pos2Z.inj_pow in H. exact H.
Qed.

Lemma iter_xO p k : Z.pos (Pos.iter xO p k) = Z.pos p * 2 ^ Z.pos k.
Proof.
  revert p. induction k using Pos.peano_ind; intros p.
  - simpl. lia.
  - rewrite Pos.iter_succ, Pos2Z.inj_succ, Z.pow_succ_r by lia.
    rewrite Pos2Z.inj_xO, IHk. lia.
Qed.

Lemma digits2_iter_xO p k :
  Z.pos (digits2_pos (Pos.iter xO p k)) = Z.pos (digits2_pos p) + Z.pos k.
Proof.
  induction k using Pos.peano_ind.
  - simpl. lia.
  - rewrite Pos.iter_succ. simpl. lia.
Qed.

(** A number of [d] digits is determined up to its digits by its size. *)
Lemma digits2_unique p d :
  2 ^ (d - 1) <= Z.pos p < 2 ^ d -> Z.pos (digits2_pos p) = d.
Proof.
  intros [Hlo Hhi]. pose proof (digits2_bounds p) as [Hl Hh].
  assert (0 < d).
  { destruct (Z.ltb_spec 0 d); auto.
    destruct (Z.eq_dec d 0) as [-> | ]; [simpl in Hhi; lia | ].
    rewrite Z.pow_neg_r in Hhi by lia. lia. }
  destruct (Z.lt_trichotomy (Z.pos (digits2_pos p)) d) as [Hc | [Hc | Hc]]; auto.
  - assert (2 ^ Z.pos (digits2_pos p) <= 2 ^ (d - 1))
      by (apply Z.pow_le_mono_r; lia). lia.
  - assert (2 ^ d <= 2 ^ (Z.pos (digits2_pos p) - 1))
      by (apply Z.pow_le_mono_r; lia). lia.
Qed.

(** *** Right shifts that drop only zero bits *)

Lemma iter_pos_nat {A} (f : A -> A) p x :
  iter_pos f p x = Nat.iter (Pos.to_nat p) f x.
Proof.
  revert x. induction p; intros x; simpl iter_pos.
  - rewrite !IHp, Pos2Nat.inj_xI, <- Nat.iter_add.
    replace (2 * Pos.to_nat p)%nat with (Pos.to_nat p + Pos.to_nat p)%nat by lia.
    now rewrite Nat.iter_succ_r.
  - rewrite !IHp, Pos2Nat.inj_xO, <- Nat.iter_add.
    now replace (2 * Pos.to_nat p)%nat with (Pos.to_nat p + Pos.to_nat p)%nat by lia.
  - reflexivity.
Qed.

Lemma shr_exact q k :
  iter_pos shr_1 k (Build_shr_record (Z.pos (Pos.iter xO q k)) false false)
  = Build_shr_record (Z.pos q) false false.
Proof.
  rewrite iter_pos_nat, Pos2Nat.inj_iter.
  change (nat_rect (fun _ => positive) q (fun _ => xO) (Pos.to_nat k))
    with (Nat.iter (Pos.to_nat k) xO q).
  induction (Pos.to_nat k) as [ | n IH].
  - reflexivity.
  - rewrite Nat.iter_succ_r. simpl. exact IH.
Qed.

(** *** Rounding a mantissa that needs no rounding *)

Lemma fexp_normal d : -1021 <= d -> fexp prec emax d = d - 53.
Proof. unfold fexp, emin, prec, emax. lia. Qed.

Lemma round_aux_53 s q e :
  Z.pos (digits2_pos q) = 53 -> -1074 <= e <= 971 ->
  binary_round_aux prec emax s (Z.pos q) e loc_Exact = S754_finite s q e.
Proof.
  intros Hd He.
  assert (Hs : shr_fexp prec emax (Z.pos q) e loc_Exact
               = (Build_shr_record (Z.pos q) false false, e)).
  { unfold shr_fexp. cbn [Zdigits2]. rewrite Hd, fexp_normal by lia.
    replace (53 + e - 53 - e) with 0 by lia. reflexivity. }
  unfold binary_round_aux. rewrite Hs.
  cbn [shr_m loc_of_shr_record round_nearest_even]. rewrite Hs.
  cbn [shr_m]. unfold emax, prec.
  destruct (Z.leb_spec e (1024 - 53)); [reflexivity | lia].
Qed.

Lemma round_aux_shift s q k e :
  Z.pos (digits2_pos q) = 53 -> -1074 <= e + Z.pos k <= 971 ->
  binary_round_aux prec emax s (Z.pos (Pos.iter xO q k)) e loc_Exact
  = S754_finite s q (e + Z.pos k).
Proof.
  intros Hd He.
  assert (Hs : shr_fexp prec emax (Z.pos (Pos.iter xO q k)) e loc_Exact
               = (Build_shr_record (Z.pos q) false false, e + Z.pos k)).
  { unfold shr_fexp. cbn [Zdigits2].
    rewrite digits2_iter_xO, Hd, fexp_normal by lia.
    replace (53 + Z.pos k + e - 53 - e) with (Z.pos k) by lia.
    cbn [shr shr_record_of_loc]. now rewrite shr_exact. }
  assert (Hs' : shr_fexp prec emax (Z.pos q) (e + Z.pos k) loc_Exact
               = (Build_shr_record (Z.pos q) false false, e + Z.pos k)).
  { unfold shr_fexp. cbn [Zdigits2]. rewrite Hd, fexp_normal by lia.
    replace (53 + (e + Z.pos k) - 53 - (e + Z.pos k)) with 0 by lia.
    reflexivity. }
  unfold binary_round_aux. rewrite Hs.
  cbn [shr_m loc_of_shr_record round_nearest_even]. rewrite Hs'.
  cbn [shr_m]. unfold emax, prec.
  destruct (Z.leb_spec (e + Z.pos k) (1024 - 53)); [reflexivity | lia].
Qed.

Lemma mant_value p :
  Z.pos p < 2 ^ 53 -> Z.pos (mant p) = Z.pos p * 2 ^ (- expo p) /\ expo p <= 0.
Proof.
  intros Hp. unfold mant, expo.
  pose proof (digits2_bounds p) as [Hlo _].
  assert (Z.pos (digits2_pos p) <= 53).
  { destruct (Z.leb_spec (Z.pos (digits2_pos p)) 53); auto.
    assert (2 ^ 53 <= 2 ^ (Z.pos (digits2_pos p) - 1))
      by (apply Z.pow_le_mono_r; lia). lia. }
  split; [ | lia].
  replace (- (Z.pos (digits2_pos p) - 53)) with (53 - Z.pos (digits2_pos p)) by lia.
  destruct (53 - Z.pos (digits2_pos p)) eqn:E; try lia.
  apply iter_xO.
Qed.

Lemma mant_digits p : Z.pos p < 2 ^ 53 -> Z.pos (digits2_pos (mant p)) = 53.
Proof.
  intros Hp. destruct (mant_value p Hp) as [_ He]. unfold mant, expo in *.
  destruct (53 - Z.pos (digits2_pos p)) eqn:E; try lia.
  rewrite digits2_iter_xO. lia.
Qed.

(** Rounding [p * 2^c] at exponent [-c] gives the form of [p]. *)
Lemma round_scaled s p c :
  Z.pos p < 2 ^ 53 -> 0 <= c <= 1000 ->
  binary_round prec emax s
    (match c with Z.pos k => Pos.iter xO p k | _ => p end) (- c)
  = S754_finite s (mant p) (expo p).
Proof.
  intros Hp Hc.
  destruct (mant_value p Hp) as [Hm He]. pose proof (mant_digits p Hp) as Hd.
  set (P := match c with Z.pos k => Pos.iter xO p k | _ => p end).
  assert (HP : Z.pos (digits2_pos P) = Z.pos (digits2_pos p) + c).
  { subst P. destruct c; try lia. apply digits2_iter_xO. }
  unfold binary_round. rewrite HP, fexp_normal by (unfold expo in *; lia).
  unfold shl_align.
  replace (Z.pos (digits2_pos p) + c + - c - 53 - - c) with (c + expo p)
    by (unfold expo; lia).
  destruct (c + expo p) eqn:E.
  - (* exactly 53 digits *)
    assert (P = mant p) as ->.
    { subst P. unfold mant. replace (53 - Z.pos (digits2_pos p)) with c
        by (unfold expo in *; lia). reflexivity. }
    rewrite round_aux_53 by (unfold expo in *; lia).
    f_equal. unfold expo in *; lia.
  - (* more than 53 digits: the low bits are zero *)
    assert (P = Pos.iter xO (mant p) p0) as ->.
    { apply Pos2Z.inj. rewrite iter_xO, Hm. subst P.
      replace (Z.pos p0) with (c + expo p) by lia.
      destruct c as [ | k | k]; try lia.
      rewrite iter_xO, <- Z.mul_assoc, <- Z.pow_add_r by lia.
      do 2 f_equal. lia. }
    rewrite round_aux_shift by (unfold expo in *; lia).
    f_equal. lia.
  - (* fewer than 53 digits: shift left *)
    assert (Pos.iter xO P p0 = mant p) as ->.
    { apply Pos2Z.inj. rewrite iter_xO, Hm. subst P.
      replace (Z.pos p0) with (- expo p - c) by lia.
      destruct c as [ | k | k]; try lia.
      - f_equal. f_equal. lia.
      - rewrite iter_xO, <- Z.mul_assoc, <- Z.pow_add_r by lia.
        do 2 f_equal. lia. }
    rewrite round_aux_53 by (unfold expo in *; lia).
    f_equal. unfold expo in *; lia.
Qed.

Lemma round_value s P p c :
  Z.pos p < 2 ^ 53 -> 0 <= c <= 1000 -> Z.pos P = Z.pos p * 2 ^ c ->
  binary_round prec emax s P (- c) = S754_finite s (mant p) (expo p).
Proof.
  intros Hp Hc HP. rewrite <- (round_scaled s p c Hp Hc). f_equal.
  apply Pos2Z.inj. rewrite HP.
  destruct c as [ | k | k]; try lia. now rewrite iter_xO.
Qed.

(** *** Integers as Numbers *)

Lemma ofZ_form z :
  z <> 0 -> Z.abs z < 2 ^ 53 ->
  ofZ z = S754_finite (z <? 0) (mant (pabs z)) (expo (pabs z)).
Proof.
  intros Hz Hb. unfold ofZ, binary_normalize, pabs.
  destruct z as [ | p | p]; try congruence; cbn [Z.abs Z.to_pos Z.ltb Z.compare];
    apply (round_value _ p p 0); simpl in *; lia.
Qed.

Lemma ofZ_0 : ofZ 0 = S754_zero false.
Proof. reflexivity. Qed.

Lemma pabs_value z : z <> 0 -> Z.pos (pabs z) = Z.abs z.
Proof. intros. unfold pabs. rewrite Z2Pos.id; lia. Qed.

Lemma cond_Zopp_sign z : z <> 0 -> cond_Zopp (z <? 0) (Z.pos (pabs z)) = z.
Proof.
  intros Hz. rewrite pabs_value by assumption. unfold cond_Zopp.
  destruct (Z.ltb_spec z 0); lia.
Qed.

Lemma ipart_mant p :
  Z.pos p < 2 ^ 53 -> expo p < 0 ->
  ipart (mant p) (expo p) = Z.pos p /\ fpart (mant p) (expo p) = 0.
Proof.
  intros Hp He. destruct (mant_value p Hp) as [Hm _].
  unfold ipart, fpart. rewrite Hm.
  assert (0 < 2 ^ (- expo p)) by (apply Z.pow_pos_nonneg; lia).
  split; [apply Z.div_mul | apply Z.mod_mul]; lia.
Qed.

(** [ToIntegerOrInfinity] undoes [ofZ] on the safe integers. *)
Lemma toZ_ofZ z : Z.abs z < 2 ^ 53 -> toZ (ofZ z) = Some z.
Proof.
  intros Hb. destruct (Z.eq_dec z 0) as [-> | Hz]; [reflexivity | ].
  rewrite ofZ_form by assumption. cbn [toZ].
  assert (Hp : Z.pos (pabs z) < 2 ^ 53) by (rewrite pabs_value; lia).
  destruct (mant_value _ Hp) as [Hm He].
  assert (Hv : (if 0 <=? expo (pabs z)
                then Z.pos (mant (pabs z)) * 2 ^ expo (pabs z)
                else ipart (mant (pabs z)) (expo (pabs z))) = Z.pos (pabs z)).
  { destruct (Z.leb_spec 0 (expo (pabs z))).
    - rewrite Hm. replace (expo (pabs z)) with 0 by lia. simpl. lia.
    - now apply ipart_mant. }
  now rewrite Hv, cond_Zopp_sign.
Qed.

(** An integer Number is its own floor and ceiling. *)
Lemma floor_ofZ z : Z.abs z < 2 ^ 53 -> floor (ofZ z) = ofZ z.
Proof.
  intros Hb. destruct (Z.eq_dec z 0) as [-> | Hz]; [reflexivity | ].
  rewrite ofZ_form by assumption. cbn [floor].
  assert (Hp : Z.pos (pabs z) < 2 ^ 53) by (rewrite pabs_value; lia).
  destruct (Z.leb_spec 0 (expo (pabs z))); [reflexivity | ].
  destruct (ipart_mant _ Hp ltac:(lia)) as [-> ->]. cbn [Z.eqb].
  destruct z as [ | p | p]; try congruence; cbn [Z.ltb Z.compare];
    unfold pabs; cbn [Z.abs Z.to_pos Z.opp binary_normalize];
    apply (round_value _ p p 0); simpl in *; lia.
Qed.

Lemma ceil_ofZ z : Z.abs z < 2 ^ 53 -> ceil (ofZ z) = ofZ z.
Proof.
  intros Hb. destruct (Z.eq_dec z 0) as [-> | Hz]; [reflexivity | ].
  rewrite ofZ_form by assumption. cbn [ceil].
  assert (Hp : Z.pos (pabs z) < 2 ^ 53) by (rewrite pabs_value; lia).
  destruct (Z.leb_spec 0 (expo (pabs z))); [reflexivity | ].
  destruct (ipart_mant _ Hp ltac:(lia)) as [-> ->]. cbn [Z.eqb].
  destruct z as [ | p | p]; try congruence; cbn [Z.ltb Z.compare];
    unfold pabs; cbn [Z.abs Z.to_pos Z.opp binary_normalize];
    apply (round_value _ p p 0); simpl in *; lia.
Qed.

(** *** Order *)

Lemma expo_lt p q : expo p < expo q -> Z.pos p < Z.pos q.
Proof.
  unfold expo. intros H.
  pose proof (digits2_bounds p) as [_ Hp]. pose proof (digits2_bounds q) as [Hq _].
  assert (2 ^ Z.pos (digits2_pos p) <= 2 ^ (Z.pos (digits2_pos q) - 1))
    by (apply Z.pow_le_mono_r; lia).
  lia.
Qed.

Lemma compare_mant p q :
  Z.pos p < 2 ^ 53 -> Z.pos q < 2 ^ 53 ->
  match expo p ?= expo q with
  | Lt => Lt
  | Gt => Gt
  | Eq => Pos.compare_cont Eq (mant p) (mant q)
  end = (Z.pos p ?= Z.pos q).
Proof.
  intros Hp Hq. symmetry.
  destruct (Z.compare_spec (expo p) (expo q)) as [He | He | He].
  - destruct (mant_value p Hp) as [Hmp _]. destruct (mant_value q Hq) as [Hmq _].
    change (Pos.compare_cont Eq (mant p) (mant q)) with (Z.pos (mant p) ?= Z.pos (mant q)).
    rewrite Hmp, Hmq, He.
    assert (0 < 2 ^ (- expo q))
      by (apply Z.pow_pos_nonneg; pose proof (mant_value q Hq); lia).
    destruct (Z.compare_spec (Z.pos p) (Z.pos q)) as [Hc | Hc | Hc]; symmetry;
      [apply Z.compare_eq_iff | apply Z.compare_lt_iff | apply Z.compare_gt_iff];
      nia.
  - apply Z.compare_lt_iff. now apply expo_lt.
  - apply Z.compare_gt_iff. now apply expo_lt.
Qed.

Lemma SFcompare_ofZ a b :
  Z.abs a < 2 ^ 53 -> Z.abs b < 2 ^ 53 ->
  SFcompare (ofZ a) (ofZ b) = Some (a ?= b).
Proof.
  intros Ha Hb.
  destruct (Z.eq_dec a 0) as [-> | Hza]; destruct (Z.eq_dec b 0) as [-> | Hzb];
    rewrite ?ofZ_0, ?ofZ_form by assumption; cbn [SFcompare].
  - reflexivity.
  - destruct b; try congruence; reflexivity.
  - destruct a; try congruence; reflexivity.
  - assert (Hpa : Z.pos (pabs a) < 2 ^ 53) by (rewrite pabs_value; lia).
    assert (Hpb : Z.pos (pabs b) < 2 ^ 53) by (rewrite pabs_value; lia).
    pose proof (compare_mant _ _ Hpa Hpb) as Hc.
    destruct a as [ | p | p], b as [ | q | q]; try congruence;
      cbn [Z.ltb Z.compare] in *; unfold pabs in *; cbn [Z.abs Z.to_pos] in *;
      try reflexivity.
    + f_equal. exact Hc.
    + f_equal. rewrite <- Hc.
      destruct (expo p ?= expo q); reflexivity.
Qed.

Lemma leb_ofZ a b :
  Z.abs a < 2 ^ 53 -> Z.abs b < 2 ^ 53 -> leb (ofZ a) (ofZ b) = (a <=? b).
Proof.
  intros Ha Hb. unfold leb, SFleb. rewrite SFcompare_ofZ by assumption.
  unfold Z.leb. destruct (a ?= b); reflexivity.
Qed.

(** *** Sums and differences of integers *)

Lemma normalize_scaled n e :
  Z.abs n < 2 ^ 53 -> -1000 <= e <= 0 ->
  binary_normalize prec emax (n * 2 ^ (- e)) e false = ofZ n.
Proof.
  intros Hn He.
  rewrite <- (Z.opp_involutive e) at 2. set (c := - e) in *.
  assert (Hc : 0 <= c <= 1000) by lia. clearbody c. clear He.
  assert (Hpow : 0 < 2 ^ c) by (apply Z.pow_pos_nonneg; lia).
  destruct (Z.eq_dec n 0) as [-> | Hz]; [reflexivity | ].
  rewrite ofZ_form by assumption.
  assert (Hp : Z.pos (pabs n) < 2 ^ 53) by (rewrite pabs_value; lia).
  pose proof (pabs_value n Hz) as Hv.
  unfold binary_normalize.
  destruct (n * 2 ^ c) as [ | P | P] eqn:E.
  - nia.
  - replace (n <? 0) with false by (symmetry; apply Z.ltb_ge; nia).
    apply round_value; try assumption. rewrite Hv. nia.
  - replace (n <? 0) with true by (symmetry; apply Z.ltb_lt; nia).
    apply round_value; try assumption. rewrite Hv. nia.
Qed.

Lemma align_mant p ez :
  Z.pos p < 2 ^ 53 -> ez <= expo p ->
  Z.pos (fst (shl_align (mant p) (expo p) ez)) = Z.pos p * 2 ^ (- ez).
Proof.
  intros Hp He. destruct (mant_value p Hp) as [Hm Hneg].
  unfold shl_align. destruct (ez - expo p) eqn:E; cbn [fst]; try lia.
  - rewrite Hm. do 2 f_equal. lia.
  - rewrite iter_xO, Hm, <- Z.mul_assoc, <- Z.pow_add_r by lia.
    do 2 f_equal. lia.
Qed.

Lemma aligned_value z ez :
  z <> 0 -> Z.abs z < 2 ^ 53 -> ez <= expo (pabs z) ->
  cond_Zopp (z <? 0) (Z.pos (fst (shl_align (mant (pabs z)) (expo (pabs z)) ez)))
  = z * 2 ^ (- ez).
Proof.
  intros Hz Hb He.
  rewrite align_mant by (rewrite ?pabs_value; lia).
  rewrite pabs_value by assumption.
  unfold cond_Zopp. destruct (Z.ltb_spec z 0); lia.
Qed.

Lemma expo_range z : z <> 0 -> Z.abs z < 2 ^ 53 -> -52 <= expo (pabs z) <= 0.
Proof.
  intros Hz Hb.
  assert (Hp : Z.pos (pabs z) < 2 ^ 53) by (rewrite pabs_value; lia).
  destruct (mant_value _ Hp) as [_ He]. unfold expo in *. lia.
Qed.

Theorem add_ofZ a b :
  Z.abs a < 2 ^ 53 -> Z.abs b < 2 ^ 53 -> Z.abs (a + b) < 2 ^ 53 ->
  add (ofZ a) (ofZ b) = ofZ (a + b).
Proof.
  intros Ha Hb Hab.
  destruct (Z.eq_dec a 0) as [-> | Hza]; destruct (Z.eq_dec b 0) as [-> | Hzb];
    rewrite ?ofZ_0.
  - reflexivity.
  - rewrite Z.add_0_l, ofZ_form by assumption. reflexivity.
  - rewrite Z.add_0_r, ofZ_form by assumption. reflexivity.
  - rewrite (ofZ_form a), (ofZ_form b) by assumption.
    unfold add. cbn [SFadd].
    pose proof (expo_range a Hza Ha). pose proof (expo_range b Hzb Hb).
    set (ez := Z.min (expo (pabs a)) (expo (pabs b))).
    rewrite !aligned_value by (subst ez; lia).
    rewrite <- Z.mul_add_distr_r.
    apply normalize_scaled; subst ez; lia.
Qed.

Theorem sub_ofZ a b :
  Z.abs a < 2 ^ 53 -> Z.abs b < 2 ^ 53 -> Z.abs (a - b) < 2 ^ 53 ->
  sub (ofZ a) (ofZ b) = ofZ (a - b).
Proof.
  intros Ha Hb Hab.
  destruct (Z.eq_dec a 0) as [-> | Hza]; destruct (Z.eq_dec b 0) as [-> | Hzb];
    rewrite ?ofZ_0.
  - reflexivity.
  - rewrite Z.sub_0_l, (ofZ_form b), (ofZ_form (- b)) by lia.
    unfold sub. cbn [SFsub]. f_equal.
    + destruct b; try congruence; reflexivity.
    + unfold pabs. now rewrite Z.abs_opp.
    + unfold pabs. now rewrite Z.abs_opp.
  - rewrite Z.sub_0_r, ofZ_form by assumption. reflexivity.
  - rewrite (ofZ_form a), (ofZ_form b) by assumption.
    unfold sub. cbn [SFsub].
    pose proof (expo_range a Hza Ha). pose proof (expo_range b Hzb Hb).
    set (ez := Z.min (expo (pabs a)) (expo (pabs b))).
    rewrite !aligned_value by (subst ez; lia).
    rewrite <- Z.mul_sub_distr_r.
    apply normalize_scaled; subst ez; lia.
Qed.

End NumFacts.

(* ================================================================== *)
(** ** Numbers: division by the milliseconds of a minute *)
(* ================================================================== *)

Module DivFacts.
Import Num NumFacts.

(** *** Rounding a quotient mantissa of 53 or 54 digits

    The rounded mantissa is the mantissa cut to 53 digits, or its
    successor. *)

Lemma loc_of_record_of_loc m l :
  loc_of_shr_record (shr_record_of_loc m l) = l.
Proof. destruct l as [ | [ | | ]]; reflexivity. Qed.

Lemma shr_m_record_of_loc m l : shr_m (shr_record_of_loc m l) = m.
Proof. destruct l as [ | [ | | ]]; reflexivity. Qed.

Lemma round_nearest_even_near m l :
  round_nearest_even m l = m \/ round_nearest_even m l = m + 1.
Proof.
  destruct l as [ | [ | | ]]; cbn [round_nearest_even]; auto.
  destruct (Z.even m); auto.
Qed.

Lemma shr_fexp_none m e l :
  2 ^ 52 <= m < 2 ^ 53 -> -1074 <= e ->
  shr_fexp prec emax m e l = (shr_record_of_loc m l, e).
Proof.
  intros Hm He. unfold shr_fexp.
  destruct m as [ | p | p]; try (simpl in Hm; lia).
  cbn [Zdigits2]. rewrite (digits2_unique p 53) by (simpl; lia).
  rewrite fexp_normal by lia.
  replace (53 + e - 53 - e) with 0 by lia. reflexivity.
Qed.

(** The second rounding step: nothing to round, a carry at most. *)
Lemma round_aux_exact_tail s m e :
  2 ^ 52 <= m <= 2 ^ 53 -> -1074 <= e <= 900 ->
  exists m' j,
    (let '(mrs, e') := shr_fexp prec emax m e loc_Exact in
     match shr_m mrs with
     | Z0 => S754_zero s
     | Z.pos m0 => if e' <=? emax - prec then S754_finite s m0 e' else S754_infinity s
     | Z.neg _ => S754_nan
     end) = S754_finite s m' (e + j)
    /\ 0 <= j <= 1 /\ Z.pos m' * 2 ^ j = m.
Proof.
  intros Hm He.
  destruct (Z.eq_dec m (2 ^ 53)) as [-> | Hne].
  - exists (Z.to_pos (2 ^ 52)), 1. 
    unfold shr_fexp. cbn [Zdigits2]. 
    change (Z.pos (digits2_pos (Z.to_pos (2 ^ 53)))) with 54.
    change (Zdigits2 (2 ^ 53)) with 54.
    rewrite fexp_normal by lia.
    replace (54 + e - 53 - e) with 1 by lia.
    cbn. destruct (Z.leb_spec (e + 1) 971); [ | lia].
    repeat split; try lia; reflexivity.
  - rewrite shr_fexp_none by lia.
    destruct m as [ | p | p]; try (simpl in Hm; lia).
    exists p, 0. cbn [shr_record_of_loc shr_m]. unfold emax, prec.
    destruct (Z.leb_spec e (1024 - 53)); [ | lia].
    rewrite Z.add_0_r. repeat split; lia.
Qed.

Lemma shr_1_half p l :
  shr_m (shr_1 (shr_record_of_loc (Z.pos p) l)) = Z.pos p / 2.
Proof.
  assert (H : shr_m (shr_1 (shr_record_of_loc (Z.pos p) l))
              = match p with xH => 0 | xO p' | xI p' => Z.pos p' end)
    by (destruct l as [ | [ | | ]], p; reflexivity).
  rewrite H. destruct p as [p' | p' | ].
  - rewrite Pos2Z.inj_xI. apply Z.div_unique with (r := 1); lia.
  - rewrite Pos2Z.inj_xO. apply Z.div_unique with (r := 0); lia.
  - reflexivity.
Qed.

Lemma shr_fexp_one p e l :
  2 ^ 53 <= Z.pos p < 2 ^ 54 -> -1074 <= e ->
  shr_fexp prec emax (Z.pos p) e l = (shr_1 (shr_record_of_loc (Z.pos p) l), e + 1).
Proof.
  intros Hm He. unfold shr_fexp. cbn [Zdigits2].
  rewrite (digits2_unique p 54) by (simpl; lia).
  rewrite fexp_normal by lia.
  replace (54 + e - 53 - e) with 1 by lia. reflexivity.
Qed.

Lemma round_aux_near s q e l :
  2 ^ 52 <= q < 2 ^ 54 -> -1074 <= e <= 800 ->
  exists m' j j' delta,
    binary_round_aux prec emax s q e l = S754_finite s m' (e + j)
    /\ 0 <= j <= 2 /\ 0 <= j' <= 1 /\ 0 <= delta <= 1
    /\ Z.pos m' * 2 ^ j = 2 ^ j' * (q / 2 ^ j' + delta).
Proof.
  intros Hq He. unfold binary_round_aux.
  change (2 ^ 52) with 4503599627370496 in *.
  change (2 ^ 54) with 18014398509481984 in *.
  destruct (Z.ltb_spec q (2 ^ 53)) as [Hlt | Hge];
    change (2 ^ 53) with 9007199254740992 in *.
  - (* 53 digits: no shift *)
    rewrite shr_fexp_none
      by (change (2 ^ 52) with 4503599627370496;
          change (2 ^ 53) with 9007199254740992; lia).
    rewrite loc_of_record_of_loc, shr_m_record_of_loc.
    destruct (round_aux_exact_tail s (round_nearest_even q l) e) as (m' & j & Heq & Hj & Hv).
    { change (2 ^ 52) with 4503599627370496;
        change (2 ^ 53) with 9007199254740992.
      destruct (round_nearest_even_near q l) as [-> | ->]; lia. }
    { lia. }
    exists m', j, 0, (round_nearest_even q l - q).
    rewrite Heq, Hv. change (2 ^ 0) with 1. rewrite Z.div_1_r.
    destruct (round_nearest_even_near q l) as [E | E]; rewrite E;
      repeat split; lia.
  - (* 54 digits: one shift *)
    destruct q as [ | p | p]; try lia.
    rewrite shr_fexp_one
      by (change (2 ^ 53) with 9007199254740992;
          change (2 ^ 54) with 18014398509481984; lia).
    set (mrs := shr_1 (shr_record_of_loc (Z.pos p) l)).
    assert (Hm : shr_m mrs = Z.pos p / 2) by apply shr_1_half.
    rewrite Hm.
    set (r := round_nearest_even (Z.pos p / 2) (loc_of_shr_record mrs)).
    assert (Hr : r = Z.pos p / 2 \/ r = Z.pos p / 2 + 1)
      by apply round_nearest_even_near.
    assert (Hh : 4503599627370496 <= Z.pos p / 2 < 9007199254740992)
      by (Z.to_euclidean_division_equations; lia).
    destruct (round_aux_exact_tail s r (e + 1)) as (m' & j & Heq & Hj & Hv).
    { change (2 ^ 52) with 4503599627370496;
        change (2 ^ 53) with 9007199254740992. lia. }
    { lia. }
    exists m', (1 + j), 1, (r - Z.pos p / 2).
    rewrite Heq. change (2 ^ 1) with 2.
    rewrite Z.pow_add_r, Z.mul_assoc by lia. change (2 ^ 1) with 2.
    replace (e + 1 + j) with (e + (1 + j)) by lia.
    repeat split; try lia.
Qed.

(** *** Whole minutes in a number of milliseconds *)

Lemma toZ_normalize z sz :
  Z.abs z < 2 ^ 53 -> toZ (binary_normalize prec emax z 0 sz) = Some z.
Proof.
  intros Hz. destruct z as [ | p | p].
  - reflexivity.
  - apply (toZ_ofZ (Z.pos p) Hz).
  - apply (toZ_ofZ (Z.neg p) Hz).
Qed.

Lemma ofZ_minute : ofZ 60000 = S754_finite false 8246337208320000 (-37).
Proof. reflexivity. Qed.

(** The quotient mantissa of [SFdiv] for a divisor of 60000. *)
Lemma div_minute_form n :
  n <> 0 -> Z.abs n < 2 ^ 52 ->
  exists q l,
    div (ofZ n) (ofZ 60000)
    = binary_round_aux prec emax (n <? 0) q (expo (pabs n) - 16) l
    /\ q = Z.abs n * 2 ^ (16 - expo (pabs n)) / 60000.
Proof.
  intros Hn Hb.
  assert (Hb' : Z.abs n < 2 ^ 53)
    by (change (2 ^ 52) with 4503599627370496 in Hb;
        change (2 ^ 53) with 9007199254740992; lia).
  assert (Hp : Z.pos (pabs n) < 2 ^ 53) by (rewrite pabs_value; lia).
  destruct (mant_value _ Hp) as [Hm He].
  pose proof (mant_digits _ Hp) as Hd.
  pose proof (expo_range n Hn Hb') as Hex.
  rewrite ofZ_minute, ofZ_form by assumption.
  unfold div. cbn [SFdiv]. unfold SFdiv_core_binary. cbn [Zdigits2].
  rewrite Hd. change (Z.pos (digits2_pos 8246337208320000)) with 53.
  replace (53 + expo (pabs n) - (53 + -37)) with (expo (pabs n) + 37) by lia.
  rewrite fexp_normal by lia.
  replace (Z.min (expo (pabs n) + 37 - 53) (expo (pabs n) - -37))
    with (expo (pabs n) - 16) by lia.
  replace (expo (pabs n) - -37 - (expo (pabs n) - 16)) with 53 by lia.
  cbv iota. rewrite Z.shiftl_mul_pow2 by lia.
  pose proof (Z_div_mod (Z.pos (mant (pabs n)) * 2 ^ 53) 8246337208320000 eq_refl)
    as Hdiv.
  unfold Z.div.
  destruct (Z.div_eucl (Z.pos (mant (pabs n)) * 2 ^ 53) 8246337208320000)
    as [q r] eqn:Hqr.
  exists q, (new_location 8246337208320000 r).
  rewrite xorb_false_r. split; [reflexivity | ].
  rewrite Hm, (pabs_value n Hn) in Hqr.
  replace (16 - expo (pabs n)) with (- expo (pabs n) + 16) by lia.
  rewrite Z.pow_add_r by lia.
  change 8246337208320000 with (60000 * 2 ^ 37) in Hqr.
  replace (Z.abs n * 2 ^ (- expo (pabs n)) * 2 ^ 53)
    with (Z.abs n * (2 ^ (- expo (pabs n)) * 2 ^ 16) * 2 ^ 37) in Hqr
    by (change (2 ^ 53) with (2 ^ 16 * 2 ^ 37); ring).
  assert (Hq : q = Z.abs n * (2 ^ (- expo (pabs n)) * 2 ^ 16) * 2 ^ 37 / (60000 * 2 ^ 37))
    by (unfold Z.div; now rewrite Hqr).
  rewrite Hq, Z.div_mul_cancel_r by (vm_compute; congruence).
  reflexivity.
Qed.

(** A mantissa within one unit of a quotient scaled by [P] has the integer
    part of the quotient: a unit is less than the gap [P / 60000]. *)
Lemma quotient_gap a P q V j' delta :
  0 <= a -> 131072 <= P -> P mod 2 = 0 ->
  q = a * P / 60000 ->
  0 <= j' <= 1 -> 0 <= delta <= 1 ->
  V = 2 ^ j' * (q / 2 ^ j' + delta) ->
  V / P = a / 60000.
Proof.
  intros Ha HP Heven Hq Hj Hd HV.
  set (Q := a / 60000). set (rho := a mod 60000).
  assert (Hrho : 0 <= rho < 60000) by (apply Z.mod_pos_bound; lia).
  assert (Hadiv : a = 60000 * Q + rho) by (apply Z.div_mod; lia).
  assert (HQ : 0 <= Q) by (apply Z.div_pos; lia).
  assert (HX : 0 <= Q * P) by (apply Z.mul_nonneg_nonneg; lia).
  assert (HrP : 0 <= rho * P <= 59999 * P).
  { split; [apply Z.mul_nonneg_nonneg; lia | ].
    apply Z.mul_le_mono_nonneg_r; lia. }
  assert (HaP : a * P = 60000 * (Q * P) + rho * P) by (rewrite Hadiv at 1; ring).
  assert (Hq1 : 60000 * q <= a * P < 60000 * (q + 1)).
  { rewrite Hq. split.
    - apply Z.mul_div_le; lia.
    - pose proof (Z.mul_succ_div_gt (a * P) 60000 ltac:(lia)). lia. }
  assert (HPe : P = 2 * (P / 2)) by (apply Z.div_exact in Heven; lia).
  assert (HXe : Q * P = 2 * (Q * (P / 2))) by (rewrite HPe at 1; ring).
  assert (HVr : Q * P <= V < Q * P + P).
  { assert (Hj' : j' = 0 \/ j' = 1) by lia.
    destruct Hj' as [-> | ->].
    - change (2 ^ 0) with 1 in HV. rewrite Z.div_1_r in HV. lia.
    - change (2 ^ 1) with 2 in HV.
      pose proof (Z.div_mod q 2 ltac:(lia)) as Hq2.
      pose proof (Z.mod_pos_bound q 2 ltac:(lia)) as Hq3.
      lia. }
  symmetry. apply Z.div_unique with (r := V - Q * P). 
  - left. lia.
  - fold Q. lia.
Qed.

(** [trunc (n / 60000)] on Numbers is the integer quotient of [n] by 60000,
    rounded toward zero. *)
Theorem toZ_trunc_div_minute n :
  Z.abs n < 2 ^ 52 ->
  toZ (trunc (div (ofZ n) (ofZ 60000))) = Some (Z.quot n 60000).
Proof.
  intros Hb.
  destruct (Z.eq_dec n 0) as [-> | Hn]; [reflexivity | ].
  assert (Hb' : Z.abs n < 2 ^ 53)
    by (change (2 ^ 52) with 4503599627370496 in Hb;
        change (2 ^ 53) with 9007199254740992; lia).
  assert (Hp : Z.pos (pabs n) < 2 ^ 53) by (rewrite pabs_value; lia).
  destruct (mant_value _ Hp) as [Hm _].
  pose proof (mant_digits _ Hp) as Hd.
  pose proof (digits2_bounds (mant (pabs n))) as Hmb. rewrite Hd in Hmb.
  rewrite Hm, (pabs_value n Hn) in Hmb.
  change (2 ^ (53 - 1)) with 4503599627370496 in Hmb.
  change (2 ^ 53) with 9007199254740992 in Hmb.
  (* the exponent: at most 52 digits *)
  assert (Hex : -52 <= expo (pabs n) <= -1).
  { pose proof (expo_range n Hn Hb') as Hr. split; [lia | ].
    destruct (Z.eq_dec (expo (pabs n)) 0) as [E0 | ]; [ | lia].
    rewrite E0 in Hmb. change (2 ^ (- 0)) with 1 in Hmb.
    change (2 ^ 52) with 4503599627370496 in Hb. lia. }
  destruct (div_minute_form n Hn Hb) as (q & l & Heq & Hq).
  set (E := 16 - expo (pabs n)) in *.
  assert (HE : 17 <= E <= 68) by (subst E; lia).
  assert (HP : 2 ^ E = 2 ^ (- expo (pabs n)) * 65536)
    by (subst E; replace (16 - expo (pabs n)) with (- expo (pabs n) + 16) by lia;
        rewrite Z.pow_add_r by lia; reflexivity).
  assert (HPlow : 131072 <= 2 ^ E)
    by (change 131072 with (2 ^ 17); apply Z.pow_le_mono_r; lia).
  assert (HPeven : 2 ^ E mod 2 = 0).
  { replace E with (1 + (E - 1)) by lia. rewrite Z.pow_add_r by lia.
    change (2 ^ 1) with 2. rewrite Z.mul_comm. apply Z.mod_mul. lia. }
  assert (Hqb : 2 ^ 52 <= q < 2 ^ 54).
  { change (2 ^ 52) with 4503599627370496. change (2 ^ 54) with 18014398509481984.
    rewrite Hq, HP, Z.mul_assoc.
    revert Hmb. generalize (Z.abs n * 2 ^ (- expo (pabs n))). intros z Hz.
    Z.to_euclidean_division_equations. lia. }
  destruct (round_aux_near (n <? 0) q (expo (pabs n) - 16) l Hqb ltac:(lia))
    as (m' & j & j' & delta & Hr & Hj & Hj' & Hdelta & HV).
  rewrite Heq, Hr. cbn [trunc].
  destruct (Z.leb_spec 0 (expo (pabs n) - 16 + j)); [lia | ].
  assert (Hip : ipart m' (expo (pabs n) - 16 + j) = Z.abs n / 60000).
  { unfold ipart.
    replace (- (expo (pabs n) - 16 + j)) with (E - j) by (subst E; lia).
    rewrite <- (Z.div_mul_cancel_r (Z.pos m') (2 ^ (E - j)) (2 ^ j))
      by (apply Z.pow_nonzero; lia).
    rewrite <- Z.pow_add_r by lia. replace (E - j + j) with E by lia.
    apply (quotient_gap (Z.abs n) (2 ^ E) q _ j' delta); try assumption; lia. }
  rewrite Hip.
  assert (Hquot : cond_Zopp (n <? 0) (Z.abs n / 60000) = Z.quot n 60000).
  { unfold cond_Zopp. destruct (Z.ltb_spec n 0).
    - replace n with (- Z.abs n) at 2 by lia.
      rewrite Z.quot_opp_l by lia. rewrite Z.quot_div_nonneg by lia. reflexivity.
    - rewrite Z.abs_eq by lia. rewrite Z.quot_div_nonneg by lia. reflexivity. }
  rewrite Hquot. apply toZ_normalize.
  change (2 ^ 53) with 9007199254740992. change (2 ^ 52) with 4503599627370496 in Hb.
  pose proof (Z.quot_le_mono 0 (Z.abs n) 60000). 
  assert (Z.abs (Z.quot n 60000) <= Z.abs n).
  { rewrite <- Hquot. unfold cond_Zopp.
    assert (0 <= Z.abs n / 60000 <= Z.abs n).
    { split; [apply Z.div_pos; lia | ].
      apply Z.div_le_upper_bound; lia. }
    destruct (n <? 0); lia. }
  lia.
Qed.

(** After a shift by one digit the mantissa is rounded up only when the
    digit dropped is a one. *)
Lemma round_up_odd p l :
  round_nearest_even (Z.pos p / 2)
    (loc_of_shr_record (shr_1 (shr_record_of_loc (Z.pos p) l)))
  = Z.pos p / 2 + 1 ->
  Z.pos p mod 2 = 1.
Proof.
  destruct p as [p' | p' | ].
  - intros _. rewrite Pos2Z.inj_xI. Z.to_euclidean_division_equations; lia.
  - assert (H : loc_of_shr_record (shr_1 (shr_record_of_loc (Z.pos p'~0) l)) = loc_Exact
                \/ loc_of_shr_record (shr_1 (shr_record_of_loc (Z.pos p'~0) l))
                   = loc_Inexact Lt)
      by (destruct l as [ | [ | | ]]; cbn; auto).
    destruct H as [-> | ->]; cbn [round_nearest_even]; lia.
  - intros _. reflexivity.
Qed.

Lemma round_aux_near_odd s q e l :
  2 ^ 52 <= q < 2 ^ 54 -> -1074 <= e <= 800 ->
  exists m' j j' delta,
    binary_round_aux prec emax s q e l = S754_finite s m' (e + j)
    /\ 0 <= j <= 2 /\ 0 <= j' <= 1 /\ 0 <= delta <= 1
    /\ Z.pos m' * 2 ^ j = 2 ^ j' * (q / 2 ^ j' + delta)
    /\ (j' = 1 -> delta = 1 -> q mod 2 = 1).
Proof.
  intros Hq He. unfold binary_round_aux.
  change (2 ^ 52) with 4503599627370496 in *.
  change (2 ^ 54) with 18014398509481984 in *.
  destruct (Z.ltb_spec q (2 ^ 53)) as [Hlt | Hge];
    change (2 ^ 53) with 9007199254740992 in *.
  - (* 53 digits: no shift *)
    rewrite shr_fexp_none
      by (change (2 ^ 52) with 4503599627370496;
          change (2 ^ 53) with 9007199254740992; lia).
    rewrite loc_of_record_of_loc, shr_m_record_of_loc.
    destruct (round_aux_exact_tail s (round_nearest_even q l) e) as (m' & j & Heq & Hj & Hv).
    { change (2 ^ 52) with 4503599627370496;
        change (2 ^ 53) with 9007199254740992.
      destruct (round_nearest_even_near q l) as [-> | ->]; lia. }
    { lia. }
    exists m', j, 0, (round_nearest_even q l - q).
    rewrite Heq, Hv. change (2 ^ 0) with 1. rewrite Z.div_1_r.
    destruct (round_nearest_even_near q l) as [E | E]; rewrite E;
      repeat split; lia.
  - (* 54 digits: one shift *)
    destruct q as [ | p | p]; try lia.
    rewrite shr_fexp_one
      by (change (2 ^ 53) with 9007199254740992;
          change (2 ^ 54) with 18014398509481984; lia).
    pose proof (round_up_odd p l) as Hodd.
    set (mrs := shr_1 (shr_record_of_loc (Z.pos p) l)) in *.
    assert (Hm : shr_m mrs = Z.pos p / 2) by apply shr_1_half.
    rewrite Hm.
    set (r := round_nearest_even (Z.pos p / 2) (loc_of_shr_record mrs)) in *.
    assert (Hr : r = Z.pos p / 2 \/ r = Z.pos p / 2 + 1)
      by apply round_nearest_even_near.
    assert (Hh : 4503599627370496 <= Z.pos p / 2 < 9007199254740992)
      by (Z.to_euclidean_division_equations; lia).
    destruct (round_aux_exact_tail s r (e + 1)) as (m' & j & Heq & Hj & Hv).
    { change (2 ^ 52) with 4503599627370496;
        change (2 ^ 53) with 9007199254740992. lia. }
    { lia. }
    exists m', (1 + j), 1, (r - Z.pos p / 2).
    rewrite Heq. change (2 ^ 1) with 2.
    rewrite Z.pow_add_r, Z.mul_assoc by lia. change (2 ^ 1) with 2.
    replace (e + 1 + j) with (e + (1 + j)) by lia.
    repeat split; lia.
Qed.

(** As [quotient_gap], for a scale down to [2^16]: a mantissa is rounded
    up only from an odd quotient. *)
Lemma quotient_gap_tight a P q V j' delta :
  0 <= a -> 65536 <= P -> P mod 2 = 0 ->
  q = a * P / 60000 ->
  0 <= j' <= 1 -> 0 <= delta <= 1 ->
  (j' = 1 -> delta = 1 -> q mod 2 = 1) ->
  V = 2 ^ j' * (q / 2 ^ j' + delta) ->
  V / P = a / 60000.
Proof.
  intros Ha HP Heven Hq Hj Hd Hodd HV.
  set (Q := a / 60000). set (rho := a mod 60000).
  assert (Hrho : 0 <= rho < 60000) by (apply Z.mod_pos_bound; lia).
  assert (Hadiv : a = 60000 * Q + rho) by (apply Z.div_mod; lia).
  assert (HQ : 0 <= Q) by (apply Z.div_pos; lia).
  assert (HX : 0 <= Q * P) by (apply Z.mul_nonneg_nonneg; lia).
  assert (HrP : 0 <= rho * P <= 59999 * P).
  { split; [apply Z.mul_nonneg_nonneg; lia | ].
    apply Z.mul_le_mono_nonneg_r; lia. }
  assert (HaP : a * P = 60000 * (Q * P) + rho * P) by (rewrite Hadiv at 1; ring).
  assert (Hq1 : 60000 * q <= a * P < 60000 * (q + 1)).
  { rewrite Hq. split.
    - apply Z.mul_div_le; lia.
    - pose proof (Z.mul_succ_div_gt (a * P) 60000 ltac:(lia)). lia. }
  assert (HPe : P = 2 * (P / 2)) by (apply Z.div_exact in Heven; lia).
  assert (HXe : Q * P = 2 * (Q * (P / 2))) by (rewrite HPe at 1; ring).
  assert (HVr : Q * P <= V < Q * P + P).
  { assert (Hj' : j' = 0 \/ j' = 1) by lia.
    destruct Hj' as [-> | ->].
    - change (2 ^ 0) with 1 in HV. rewrite Z.div_1_r in HV. lia.
    - change (2 ^ 1) with 2 in HV.
      pose proof (Z.div_mod q 2 ltac:(lia)) as Hq2.
      pose proof (Z.mod_pos_bound q 2 ltac:(lia)) as Hq3.
      assert (Hd' : delta = 0 \/ delta = 1) by lia.
      destruct Hd' as [-> | ->].
      + lia.
      + specialize (Hodd eq_refl eq_refl). lia. }
  symmetry. apply Z.div_unique with (r := V - Q * P).
  - left. lia.
  - fold Q. lia.
Qed.

Lemma div_minute_form_wide n :
  n <> 0 -> Z.abs n < 2 ^ 53 ->
  exists q l,
    div (ofZ n) (ofZ 60000)
    = binary_round_aux prec emax (n <? 0) q (expo (pabs n) - 16) l
    /\ q = Z.abs n * 2 ^ (16 - expo (pabs n)) / 60000.
Proof.
  intros Hn Hb'.
  assert (Hp : Z.pos (pabs n) < 2 ^ 53) by (rewrite pabs_value; lia).
  destruct (mant_value _ Hp) as [Hm He].
  pose proof (mant_digits _ Hp) as Hd.
  pose proof (expo_range n Hn Hb') as Hex.
  rewrite ofZ_minute, ofZ_form by assumption.
  unfold div. cbn [SFdiv]. unfold SFdiv_core_binary. cbn [Zdigits2].
  rewrite Hd. change (Z.pos (digits2_pos 8246337208320000)) with 53.
  replace (53 + expo (pabs n) - (53 + -37)) with (expo (pabs n) + 37) by lia.
  rewrite fexp_normal by lia.
  replace (Z.min (expo (pabs n) + 37 - 53) (expo (pabs n) - -37))
    with (expo (pabs n) - 16) by lia.
  replace (expo (pabs n) - -37 - (expo (pabs n) - 16)) with 53 by lia.
  cbv iota. rewrite Z.shiftl_mul_pow2 by lia.
  pose proof (Z_div_mod (Z.pos (mant (pabs n)) * 2 ^ 53) 8246337208320000 eq_refl)
    as Hdiv.
  unfold Z.div.
  destruct (Z.div_eucl (Z.pos (mant (pabs n)) * 2 ^ 53) 8246337208320000)
    as [q r] eqn:Hqr.
  exists q, (new_location 8246337208320000 r).
  rewrite xorb_false_r. split; [reflexivity | ].
  rewrite Hm, (pabs_value n Hn) in Hqr.
  replace (16 - expo (pabs n)) with (- expo (pabs n) + 16) by lia.
  rewrite Z.pow_add_r by lia.
  change 8246337208320000 with (60000 * 2 ^ 37) in Hqr.
  replace (Z.abs n * 2 ^ (- expo (pabs n)) * 2 ^ 53)
    with (Z.abs n * (2 ^ (- expo (pabs n)) * 2 ^ 16) * 2 ^ 37) in Hqr
    by (change (2 ^ 53) with (2 ^ 16 * 2 ^ 37); ring).
  assert (Hq : q = Z.abs n * (2 ^ (- expo (pabs n)) * 2 ^ 16) * 2 ^ 37 / (60000 * 2 ^ 37))
    by (unfold Z.div; now rewrite Hqr).
  rewrite Hq, Z.div_mul_cancel_r by (vm_compute; congruence).
  reflexivity.
Qed.

(** [trunc (n / 60000)] on Numbers is the integer quotient of [n] by 60000,
    rounded toward zero, for every safe integer [n]. *)
Lemma toZ_trunc_div_minute_safe n :
  Z.abs n < 2 ^ 53 ->
  toZ (trunc (div (ofZ n) (ofZ 60000))) = Some (Z.quot n 60000).
Proof.
  intros Hb'.
  destruct (Z.eq_dec n 0) as [-> | Hn]; [reflexivity | ].
  assert (Hp : Z.pos (pabs n) < 2 ^ 53) by (rewrite pabs_value; lia).
  destruct (mant_value _ Hp) as [Hm _].
  pose proof (mant_digits _ Hp) as Hd.
  pose proof (digits2_bounds (mant (pabs n))) as Hmb. rewrite Hd in Hmb.
  rewrite Hm, (pabs_value n Hn) in Hmb.
  change (2 ^ (53 - 1)) with 4503599627370496 in Hmb.
  change (2 ^ 53) with 9007199254740992 in Hmb.
  pose proof (expo_range n Hn Hb') as Hex.
  destruct (div_minute_form_wide n Hn Hb') as (q & l & Heq & Hq).
  set (E := 16 - expo (pabs n)) in *.
  assert (HE : 16 <= E <= 68) by (subst E; lia).
  assert (HP : 2 ^ E = 2 ^ (- expo (pabs n)) * 65536)
    by (subst E; replace (16 - expo (pabs n)) with (- expo (pabs n) + 16) by lia;
        rewrite Z.pow_add_r by lia; reflexivity).
  assert (HPlow : 65536 <= 2 ^ E)
    by (change 65536 with (2 ^ 16); apply Z.pow_le_mono_r; lia).
  assert (HPeven : 2 ^ E mod 2 = 0).
  { replace E with (1 + (E - 1)) by lia. rewrite Z.pow_add_r by lia.
    change (2 ^ 1) with 2. rewrite Z.mul_comm. apply Z.mod_mul. lia. }
  assert (Hqb : 2 ^ 52 <= q < 2 ^ 54).
  { change (2 ^ 52) with 4503599627370496. change (2 ^ 54) with 18014398509481984.
    rewrite Hq, HP, Z.mul_assoc.
    revert Hmb. generalize (Z.abs n * 2 ^ (- expo (pabs n))). intros z Hz.
    Z.to_euclidean_division_equations. lia. }
  destruct (round_aux_near_odd (n <? 0) q (expo (pabs n) - 16) l Hqb ltac:(lia))
    as (m' & j & j' & delta & Hr & Hj & Hj' & Hdelta & HV & Hodd).
  rewrite Heq, Hr. cbn [trunc].
  destruct (Z.leb_spec 0 (expo (pabs n) - 16 + j)); [lia | ].
  assert (Hip : ipart m' (expo (pabs n) - 16 + j) = Z.abs n / 60000).
  { unfold ipart.
    replace (- (expo (pabs n) - 16 + j)) with (E - j) by (subst E; lia).
    rewrite <- (Z.div_mul_cancel_r (Z.pos m') (2 ^ (E - j)) (2 ^ j))
      by (apply Z.pow_nonzero; lia).
    rewrite <- Z.pow_add_r by lia. replace (E - j + j) with E by lia.
    apply (quotient_gap_tight (Z.abs n) (2 ^ E) q _ j' delta); try assumption; lia. }
  rewrite Hip.
  assert (Hquot : cond_Zopp (n <? 0) (Z.abs n / 60000) = Z.quot n 60000).
  { unfold cond_Zopp. destruct (Z.ltb_spec n 0).
    - replace n with (- Z.abs n) at 2 by lia.
      rewrite Z.quot_opp_l by lia. rewrite Z.quot_div_nonneg by lia. reflexivity.
    - rewrite Z.abs_eq by lia. rewrite Z.quot_div_nonneg by lia. reflexivity. }
  rewrite Hquot. apply toZ_normalize.
  change (2 ^ 53) with 9007199254740992 in *.
  assert (Z.abs (Z.quot n 60000) <= Z.abs n).
  { rewrite <- Hquot. unfold cond_Zopp.
    assert (0 <= Z.abs n / 60000 <= Z.abs n).
    { split; [apply Z.div_pos; lia | ].
      apply Z.div_le_upper_bound; lia. }
    destruct (n <? 0); lia. }
  lia.
Qed.


End DivFacts.

(* ================================================================== *)
(** ** Numbers: differences of two time values

    Two time values are at most [2 * 8.64e15 < 2^54] apart: their
    difference has up to 54 binary digits and is rounded to 53. *)
(* ================================================================== *)

Module WideFacts.
Import Num NumFacts DivFacts.

Lemma ltb_ofZ a b :
  Z.abs a < 2 ^ 53 -> Z.abs b < 2 ^ 53 -> Num.ltb (Num.ofZ a) (Num.ofZ b) = (a <? b).
Proof.
  intros Ha Hb. unfold Num.ltb, SFltb. rewrite SFcompare_ofZ by assumption.
  unfold Z.ltb. destruct (a ?= b); reflexivity.
Qed.

Lemma ltb_ofZ_zero n : Z.abs n < 2 ^ 53 -> ltb (ofZ n) (ofZ 0) = (n <? 0).
Proof.
  intros H. unfold ltb, SFltb. rewrite SFcompare_ofZ by (try assumption; reflexivity).
  unfold Z.ltb. destruct (n ?= 0); reflexivity.
Qed.

Lemma round_no_shift s P e :
  53 <= Z.pos (digits2_pos P) -> -1074 <= e ->
  binary_round prec emax s P e = binary_round_aux prec emax s (Z.pos P) e loc_Exact.
Proof.
  intros Hd He. unfold binary_round, shl_align.
  assert (H : 0 <= fexp prec emax (Z.pos (digits2_pos P) + e) - e)
    by (unfold fexp, emin, prec, emax; lia).
  destruct (fexp prec emax (Z.pos (digits2_pos P) + e) - e); try reflexivity; lia.
Qed.

Lemma iter_pos_succ {A} (f : A -> A) k x :
  iter_pos f (Pos.succ k) x = f (iter_pos f k x).
Proof. rewrite !iter_pos_nat, Pos2Nat.inj_succ. reflexivity. Qed.

Lemma shr_fexp_scaled n k :
  2 ^ 53 <= Z.pos n < 2 ^ 54 ->
  shr_fexp prec emax (Z.pos (Pos.iter xO n k)) (- Z.pos k) loc_Exact
  = shr_fexp prec emax (Z.pos n) 0 loc_Exact.
Proof.
  intros Hn.
  assert (Hd : Z.pos (digits2_pos n) = 54) by (apply digits2_unique; simpl; lia).
  unfold shr_fexp. cbn [Zdigits2].
  rewrite digits2_iter_xO, Hd.
  replace (54 + Z.pos k + - Z.pos k) with 54 by lia.
  change (fexp prec emax (54 + 0) - 0) with 1.
  change (fexp prec emax 54) with 1.
  replace (1 - - Z.pos k) with (Z.pos (Pos.succ k)) by lia.
  cbn [shr shr_record_of_loc]. rewrite iter_pos_succ, shr_exact.
  f_equal. lia.
Qed.

Lemma round_scaled_wide s n P c :
  2 ^ 53 <= Z.pos n < 2 ^ 54 -> 0 <= c <= 60 -> Z.pos P = Z.pos n * 2 ^ c ->
  binary_round prec emax s P (- c) = binary_round prec emax s n 0.
Proof.
  intros Hn Hc HP.
  assert (Hd : Z.pos (digits2_pos n) = 54) by (apply digits2_unique; simpl; lia).
  destruct c as [ | k | k]; try lia.
  - assert (P = n) as -> by (apply Pos2Z.inj; rewrite HP; simpl; lia). reflexivity.
  - assert (P = Pos.iter xO n k) as ->
      by (apply Pos2Z.inj; now rewrite HP, iter_xO).
    rewrite !round_no_shift by (rewrite ?digits2_iter_xO, ?Hd; lia).
    unfold binary_round_aux. now rewrite shr_fexp_scaled.
Qed.

Lemma normalize_scaled_wide n e :
  2 ^ 53 <= Z.abs n < 2 ^ 54 -> -60 <= e <= 0 ->
  binary_normalize prec emax (n * 2 ^ (- e)) e false = ofZ n.
Proof.
  intros Hn He.
  rewrite <- (Z.opp_involutive e) at 2. set (c := - e) in *.
  assert (Hc : 0 <= c <= 60) by lia. clearbody c. clear He.
  assert (Hpow : 0 < 2 ^ c) by (apply Z.pow_pos_nonneg; lia).
  change (2 ^ 53) with 9007199254740992 in Hn.
  unfold ofZ, binary_normalize.
  destruct n as [ | p | p]; cbn [Z.abs] in Hn; try lia.
  - destruct (Z.pos p * 2 ^ c) as [ | P | P] eqn:E; try lia.
    apply round_scaled_wide; try assumption; lia.
  - destruct (Z.neg p * 2 ^ c) as [ | P | P] eqn:E; try lia.
    apply round_scaled_wide; try assumption; lia.
Qed.

(** The difference of two safe integers is the Number nearest to their
    exact difference. *)
Theorem sub_ofZ_rounded a b :
  Z.abs a < 2 ^ 53 -> Z.abs b < 2 ^ 53 ->
  sub (ofZ a) (ofZ b) = ofZ (a - b).
Proof.
  intros Ha Hb.
  destruct (Z.lt_ge_cases (Z.abs (a - b)) (2 ^ 53)) as [Hs | Hw];
    [now apply sub_ofZ | ].
  change (2 ^ 53) with 9007199254740992 in *.
  assert (Hza : a <> 0) by lia. assert (Hzb : b <> 0) by lia.
  rewrite (ofZ_form a), (ofZ_form b)
    by (try assumption; change (2 ^ 53) with 9007199254740992; lia).
  unfold sub. cbn [SFsub].
  pose proof (expo_range a Hza ltac:(change (2 ^ 53) with 9007199254740992; lia)).
  pose proof (expo_range b Hzb ltac:(change (2 ^ 53) with 9007199254740992; lia)).
  set (ez := Z.min (expo (pabs a)) (expo (pabs b))).
  rewrite !aligned_value
    by (try assumption; try (subst ez; lia); change (2 ^ 53) with 9007199254740992; lia).
  rewrite <- Z.mul_sub_distr_r.
  apply normalize_scaled_wide; [ | subst ez; lia].
  change (2 ^ 53) with 9007199254740992. change (2 ^ 54) with 18014398509481984. lia.
Qed.

(** The sign of the Number nearest to an integer of at most 54 digits. *)
Lemma ofZ_negative n : Z.abs n < 2 ^ 54 -> ltb (ofZ n) (ofZ 0) = (n <? 0).
Proof.
  intros Hn.
  destruct (Z.lt_ge_cases (Z.abs n) (2 ^ 53)) as [Hs | Hw].
  - apply (ltb_ofZ_zero n Hs).
  - change (2 ^ 53) with 9007199254740992 in Hw.
    change (2 ^ 54) with 18014398509481984 in Hn.
    assert (Hq : 2 ^ 52 <= Z.abs n < 2 ^ 54)
      by (change (2 ^ 52) with 4503599627370496;
          change (2 ^ 54) with 18014398509481984; lia).
    destruct (round_aux_near (n <? 0) (Z.abs n) 0 loc_Exact Hq ltac:(lia))
      as (m' & j & _ & _ & Hr & _).
    assert (E : ofZ n = binary_round_aux prec emax (n <? 0) (Z.abs n) 0 loc_Exact).
    { unfold ofZ, binary_normalize.
      destruct n as [ | p | p]; cbn [Z.abs] in *; try lia;
        apply round_no_shift; try lia;
        rewrite (digits2_unique p 54); simpl; lia. }
    rewrite E, Hr. now destruct (n <? 0).
Qed.

Lemma valid_mantissa s m e :
  valid_binary Num.prec Num.emax (S754_finite s m e) = true -> Z.pos m < 2 ^ 53.
Proof.
  cbn [valid_binary]. unfold bounded, canonical_mantissa.
  intros H. apply andb_prop in H as [H _]. apply Z.eqb_eq in H.
  pose proof (digits2_bounds m) as [_ Hhi].
  unfold fexp, emin, Num.prec, Num.emax in H.
  assert (Z.pos (digits2_pos m) <= 53) by lia.
  assert (2 ^ Z.pos (digits2_pos m) <= 2 ^ 53) by (apply Z.pow_le_mono_r; lia).
  lia.
Qed.

Lemma ipart_bound m e : e < 0 -> 0 <= Num.ipart m e <= Z.pos m.
Proof.
  intros He. unfold Num.ipart.
  assert (0 < 2 ^ (- e)) by (apply Z.pow_pos_nonneg; lia).
  split; [apply Z.div_pos; lia | ].
  apply Z.div_le_upper_bound; nia.
Qed.

Lemma normalize_ofZ z s : z <> 0 -> binary_normalize Num.prec Num.emax z 0 s = Num.ofZ z.
Proof. intros Hz. destruct z; [congruence | reflexivity | reflexivity]. Qed.

(** *** Whole minutes in a difference of 54 digits *)

(** The second rounding step on a mantissa of 53 digits changes nothing. *)
Lemma round_aux_tail_53 s m e :
  2 ^ 52 <= Z.pos m < 2 ^ 53 -> -1074 <= e <= 900 ->
  (let '(mrs, e') := shr_fexp prec emax (Z.pos m) e loc_Exact in
   match shr_m mrs with
   | Z0 => S754_zero s
   | Z.pos m0 => if e' <=? emax - prec then S754_finite s m0 e' else S754_infinity s
   | Z.neg _ => S754_nan
   end) = S754_finite s m e.
Proof.
  intros Hm He. rewrite shr_fexp_none by lia.
  cbn [shr_record_of_loc shr_m]. unfold emax, prec.
  destruct (Z.leb_spec e (1024 - 53)); [reflexivity | lia].
Qed.

(** The Number nearest to an integer of 54 digits: half of it, rounded to
    an integer, at exponent 1. *)
Lemma ofZ_wide_form n :
  2 ^ 53 <= Z.abs n <= 2 ^ 54 - 2 ->
  exists m',
    ofZ n = S754_finite (n <? 0) m' 1
    /\ 2 ^ 52 <= Z.pos m' < 2 ^ 53
    /\ Z.abs n - 1 <= 2 * Z.pos m' <= Z.abs n + 1
    /\ (Z.abs n mod 2 = 0 -> 2 * Z.pos m' = Z.abs n).
Proof.
  intros Hn.
  change (2 ^ 53) with 9007199254740992 in *.
  change (2 ^ 54) with 18014398509481984 in *.
  change (2 ^ 52) with 4503599627370496 in *.
  assert (E : ofZ n = binary_round_aux prec emax (n <? 0) (Z.abs n) 0 loc_Exact).
  { unfold ofZ, binary_normalize.
    destruct n as [ | p | p]; cbn [Z.abs] in *; try lia;
      apply round_no_shift; try lia;
      rewrite (digits2_unique p 54); simpl; lia. }
  rewrite E. clear E.
  remember (n <? 0) as s eqn:Hs. clear Hs.
  destruct (Z.abs n) as [ | p | p] eqn:Habs; try lia.
  unfold binary_round_aux.
  rewrite shr_fexp_one
    by (change (2 ^ 53) with 9007199254740992;
        change (2 ^ 54) with 18014398509481984; lia).
  pose proof (round_up_odd p loc_Exact) as Hodd.
  set (mrs := shr_1 (shr_record_of_loc (Z.pos p) loc_Exact)) in *.
  assert (Hm : shr_m mrs = Z.pos p / 2) by apply shr_1_half.
  rewrite Hm.
  set (r := round_nearest_even (Z.pos p / 2) (loc_of_shr_record mrs)) in *.
  assert (Hr : r = Z.pos p / 2 \/ r = Z.pos p / 2 + 1)
    by apply round_nearest_even_near.
  assert (Hh : 4503599627370496 <= Z.pos p / 2 < 9007199254740992)
    by (Z.to_euclidean_division_equations; lia).
  assert (Hr53 : 4503599627370496 <= r < 9007199254740992).
  { destruct Hr as [-> | Hr]; [lia | ].
    specialize (Hodd Hr). rewrite Hr.
    revert Hodd Hn. generalize (Z.pos p). intros z Hz Hb.
    Z.to_euclidean_division_equations. lia. }
  destruct r as [ | m' | m'] eqn:Er; try lia.
  exists m'.
  rewrite (round_aux_tail_53 s m' (0 + 1))
    by (change (2 ^ 52) with 4503599627370496;
        change (2 ^ 53) with 9007199254740992; lia).
  split; [reflexivity | ].
  split; [lia | ].
  split.
  - destruct Hr as [Hr | Hr].
    + rewrite Hr. generalize (Z.pos p). intros z.
      Z.to_euclidean_division_equations. lia.
    + specialize (Hodd Hr). rewrite Hr.
      revert Hodd. generalize (Z.pos p). intros z Hz.
      Z.to_euclidean_division_equations. lia.
  - intros Heven. destruct Hr as [Hr | Hr].
    + rewrite Hr. revert Heven. generalize (Z.pos p). intros z Hz.
      Z.to_euclidean_division_equations. lia.
    + specialize (Hodd Hr). lia.
Qed.

(** The quotient mantissa of [SFdiv] for a divisor of 60000 and a
    dividend of 53 digits. *)
Lemma div_minute_form_mant s m e :
  Z.pos (digits2_pos m) = 53 -> -60 <= e <= 60 ->
  exists q l,
    div (S754_finite s m e) (ofZ 60000)
    = binary_round_aux prec emax s q (e - 16) l
    /\ q = Z.pos m * 2 ^ 16 / 60000.
Proof.
  intros Hd He.
  rewrite ofZ_minute.
  unfold div. cbn [SFdiv]. unfold SFdiv_core_binary. cbn [Zdigits2].
  rewrite Hd. change (Z.pos (digits2_pos 8246337208320000)) with 53.
  replace (53 + e - (53 + -37)) with (e + 37) by lia.
  rewrite fexp_normal by lia.
  replace (Z.min (e + 37 - 53) (e - -37)) with (e - 16) by lia.
  replace (e - -37 - (e - 16)) with 53 by lia.
  cbv iota. rewrite Z.shiftl_mul_pow2 by lia.
  unfold Z.div.
  destruct (Z.div_eucl (Z.pos m * 2 ^ 53) 8246337208320000) as [q r] eqn:Hqr.
  exists q, (new_location 8246337208320000 r).
  rewrite xorb_false_r. split; [reflexivity | ].
  change 8246337208320000 with (60000 * 2 ^ 37) in Hqr.
  replace (Z.pos m * 2 ^ 53) with (Z.pos m * 2 ^ 16 * 2 ^ 37) in Hqr
    by (change (2 ^ 53) with (2 ^ 16 * 2 ^ 37); ring).
  assert (Hq : q = Z.pos m * 2 ^ 16 * 2 ^ 37 / (60000 * 2 ^ 37))
    by (unfold Z.div; now rewrite Hqr).
  rewrite Hq, Z.div_mul_cancel_r by (vm_compute; congruence).
  reflexivity.
Qed.

(** As [quotient_gap_tight], for an even dividend and a scale down to
    [2^15]. *)
Lemma quotient_gap_even a P q V j' delta :
  0 <= a -> a mod 2 = 0 -> 32768 <= P -> P mod 2 = 0 ->
  q = a * P / 60000 ->
  0 <= j' <= 1 -> 0 <= delta <= 1 ->
  (j' = 1 -> delta = 1 -> q mod 2 = 1) ->
  V = 2 ^ j' * (q / 2 ^ j' + delta) ->
  V / P = a / 60000.
Proof.
  intros Ha Haeven HP Heven Hq Hj Hd Hodd HV.
  set (Q := a / 60000). set (rho := a mod 60000).
  assert (Hrho : 0 <= rho < 60000) by (apply Z.mod_pos_bound; lia).
  assert (Hadiv : a = 60000 * Q + rho) by (apply Z.div_mod; lia).
  assert (Hrho2 : rho <= 59998).
  { assert (a = 2 * (a / 2)) by (apply Z.div_exact in Haeven; lia). lia. }
  assert (HQ : 0 <= Q) by (apply Z.div_pos; lia).
  assert (HX : 0 <= Q * P) by (apply Z.mul_nonneg_nonneg; lia).
  assert (HrP : 0 <= rho * P <= 59998 * P).
  { split; [apply Z.mul_nonneg_nonneg; lia | ].
    apply Z.mul_le_mono_nonneg_r; lia. }
  assert (HaP : a * P = 60000 * (Q * P) + rho * P) by (rewrite Hadiv at 1; ring).
  assert (Hq1 : 60000 * q <= a * P < 60000 * (q + 1)).
  { rewrite Hq. split.
    - apply Z.mul_div_le; lia.
    - pose proof (Z.mul_succ_div_gt (a * P) 60000 ltac:(lia)). lia. }
  assert (HPe : P = 2 * (P / 2)) by (apply Z.div_exact in Heven; lia).
  assert (HXe : Q * P = 2 * (Q * (P / 2))) by (rewrite HPe at 1; ring).
  assert (HVr : Q * P <= V < Q * P + P).
  { assert (Hj' : j' = 0 \/ j' = 1) by lia.
    destruct Hj' as [-> | ->].
    - change (2 ^ 0) with 1 in HV. rewrite Z.div_1_r in HV. lia.
    - change (2 ^ 1) with 2 in HV.
      pose proof (Z.div_mod q 2 ltac:(lia)) as Hq2.
      pose proof (Z.mod_pos_bound q 2 ltac:(lia)) as Hq3.
      assert (Hd' : delta = 0 \/ delta = 1) by lia.
      destruct Hd' as [-> | ->].
      + lia.
      + specialize (Hodd eq_refl eq_refl). lia. }
  symmetry. apply Z.div_unique with (r := V - Q * P).
  - left. lia.
  - fold Q. lia.
Qed.

(** [trunc (x / 60000)] for a Number [x] of exponent 1, an even integer
    of 54 digits, is the integer quotient of [x] by 60000. *)
Lemma toZ_trunc_div_minute_mant s m :
  2 ^ 52 <= Z.pos m < 2 ^ 53 ->
  toZ (trunc (div (S754_finite s m 1) (ofZ 60000)))
  = Some (cond_Zopp s (2 * Z.pos m / 60000)).
Proof.
  intros Hm.
  assert (Hd : Z.pos (digits2_pos m) = 53) by (apply digits2_unique; simpl; lia).
  change (2 ^ 52) with 4503599627370496 in Hm.
  change (2 ^ 53) with 9007199254740992 in Hm.
  destruct (div_minute_form_mant s m 1 Hd ltac:(lia)) as (q & l & Heq & Hq).
  assert (Hqb : 2 ^ 52 <= q < 2 ^ 54).
  { change (2 ^ 52) with 4503599627370496. change (2 ^ 54) with 18014398509481984.
    rewrite Hq. change (2 ^ 16) with 65536.
    revert Hm. generalize (Z.pos m). intros z Hz.
    Z.to_euclidean_division_equations. lia. }
  destruct (round_aux_near_odd s q (1 - 16) l Hqb ltac:(lia))
    as (m' & j & j' & delta & Hr & Hj & Hj' & Hdelta & HV & Hodd).
  rewrite Heq, Hr. cbn [trunc].
  destruct (Z.leb_spec 0 (1 - 16 + j)); [lia | ].
  assert (Hip : ipart m' (1 - 16 + j) = 2 * Z.pos m / 60000).
  { unfold ipart.
    replace (- (1 - 16 + j)) with (15 - j) by lia.
    rewrite <- (Z.div_mul_cancel_r (Z.pos m') (2 ^ (15 - j)) (2 ^ j))
      by (apply Z.pow_nonzero; lia).
    rewrite <- Z.pow_add_r by lia. replace (15 - j + j) with 15 by lia.
    assert (Ha2 : (2 * Z.pos m) mod 2 = 0)
      by (rewrite Z.mul_comm; apply Z.mod_mul; lia).
    assert (Hq' : q = 2 * Z.pos m * 2 ^ 15 / 60000).
    { rewrite Hq. f_equal. change (2 ^ 16) with 65536. change (2 ^ 15) with 32768. lia. }
    exact (quotient_gap_even (2 * Z.pos m) (2 ^ 15) q _ j' delta
             ltac:(lia) Ha2 ltac:(change (2 ^ 15) with 32768; lia) eq_refl
             Hq' Hj' Hdelta Hodd HV). }
  rewrite Hip.
  assert (Hb : 0 <= 2 * Z.pos m / 60000 < 9007199254740992).
  { split; [apply Z.div_pos; lia | ].
    apply Z.div_lt_upper_bound; lia. }
  rewrite toZ_normalize; [reflexivity | ].
  change (2 ^ 53) with 9007199254740992.
  unfold cond_Zopp. destruct s; lia.
Qed.

(** The Number nearest to an integer of up to 54 digits is an integer at
    most one away; [trunc] of its quotient by 60000 is the integer
    quotient of that integer, rounded toward zero. *)
Lemma toZ_trunc_div_minute_rounded n :
  Z.abs n <= 2 ^ 54 - 2 ->
  exists n',
    toZ (ofZ n) = Some n'
    /\ Z.abs (n' - n) <= 1
    /\ (Z.abs n < 2 ^ 53 \/ n mod 2 = 0 -> n' = n)
    /\ toZ (trunc (div (ofZ n) (ofZ 60000))) = Some (Z.quot n' 60000).
Proof.
  intros Hn.
  destruct (Z.lt_ge_cases (Z.abs n) (2 ^ 53)) as [Hs | Hw].
  - exists n. rewrite (toZ_ofZ n Hs), (toZ_trunc_div_minute_safe n Hs).
    repeat split; auto. lia.
  - destruct (ofZ_wide_form n ltac:(lia)) as (m' & Hform & Hm' & Hnear & Hexact).
    exists (cond_Zopp (n <? 0) (2 * Z.pos m')).
    rewrite Hform, (toZ_trunc_div_minute_mant _ m' Hm').
    cbn [toZ]. change (0 <=? 1) with true. cbv iota.
    change (2 ^ 1) with 2.
    assert (Hsign : cond_Zopp (n <? 0) (Z.abs n) = n)
      by (unfold cond_Zopp; destruct (Z.ltb_spec n 0); lia).
    split; [f_equal; f_equal; lia | ].
    split.
    { rewrite <- Hsign at 2. unfold cond_Zopp. destruct (n <? 0); lia. }
    split.
    { intros [Hlt | Heven]; [lia | ].
      assert (He : Z.abs n mod 2 = 0).
      { revert Heven. clear. intros. Z.to_euclidean_division_equations. lia. }
      rewrite (Hexact He). exact Hsign. }
    f_equal. unfold cond_Zopp. destruct (n <? 0).
    + rewrite Z.quot_opp_l by lia. rewrite Z.quot_div_nonneg by lia. reflexivity.
    + rewrite Z.quot_div_nonneg by lia. reflexivity.
Qed.


End WideFacts.

(* ================================================================== *)
(** ** Dates: stored values, local fields and setters *)
(* ================================================================== *)

Module DateFacts.
Section Host.

Context {tz : HostTimeZone}.

Import JSDate Calendar NumFacts Notions.

Lemma maxTime_safe t : Z.abs t <= maxTime + 2 * msPerDay -> Z.abs t < 2 ^ 53.
Proof. unfold maxTime, msPerDay. change (2 ^ 53) with 9007199254740992. lia. Qed.

Lemma TimeClip_in t : Z.abs t <= maxTime -> TimeClip (Some t) = Some t.
Proof. intros H. unfold TimeClip. destruct (Z.ltb_spec maxTime (Z.abs t)); [lia | reflexivity]. Qed.

Lemma TimeClip_range x t : TimeClip x = Some t -> Z.abs t <= maxTime.
Proof.
  destruct x as [u | ]; simpl; [ | discriminate].
  destruct (Z.ltb_spec maxTime (Z.abs u)); [discriminate | ].
  intros [= <-]. assumption.
Qed.

(** Every [Date] that [new Date(value)] builds holds a clipped time value. *)
Lemma ofNumber_range value t :
  DateValue (ofNumber value) = Some t -> Z.abs t <= maxTime.
Proof. apply TimeClip_range. Qed.

Lemma ofNumber_ofZ t : Z.abs t <= maxTime -> ofNumber (Num.ofZ t) = mkDate (Some t).
Proof.
  intros H. unfold ofNumber.
  rewrite toZ_ofZ by (apply maxTime_safe; unfold msPerDay; lia).
  now rewrite TimeClip_in.
Qed.

Lemma store_representable local :
  representable local -> store (Some local) = mkDate (Some (UTC local)).
Proof. intros [Hr _]. unfold store. cbn [option_map]. now rewrite TimeClip_in. Qed.

Lemma localField_representable f local :
  representable local ->
  localField f (mkDate (Some (UTC local))) = Num.ofZ (f local).
Proof. intros [_ Hl]. unfold localField. cbn [DateValue]. now rewrite Hl. Qed.

Lemma LocalTime_bound t : Z.abs t <= maxTime -> Z.abs (LocalTime t) < maxTime + msPerDay.
Proof. intros H. unfold LocalTime. pose proof (LocalTZA_bound t true). lia. Qed.

Lemma representable_bound local : representable local -> Z.abs local < maxTime + msPerDay.
Proof. intros [Hr Hl]. rewrite <- Hl. now apply LocalTime_bound. Qed.

(** *** Ranges of the fields *)

Lemma MonthFromTime_range t : 0 <= MonthFromTime t <= 11.
Proof.
  unfold MonthFromTime.
  repeat match goal with
         | |- context [?a <? ?b] => destruct (a <? b); try lia
         end.
Qed.

Lemma Day_bound t : Z.abs t < maxTime + msPerDay -> Z.abs (Day t) <= 100000001.
Proof.
  unfold Day, maxTime, msPerDay. intros H.
  Z.to_euclidean_division_equations; lia.
Qed.

Lemma YearFromTime_bound t :
  Z.abs t < maxTime + msPerDay -> Z.abs (YearFromTime t) < 300000.
Proof.
  intros H. apply Day_bound in H.
  pose proof (YearFromTime_bracket t) as [Hlo Hhi].
  revert Hlo Hhi. generalize (YearFromTime t) as y. intros y.
  unfold DayFromYear. intros. Z.to_euclidean_division_equations; lia.
Qed.

Lemma DayWithinYear_range t :
  0 <= DayWithinYear t < 365 + InLeapYear t.
Proof.
  pose proof (YearFromTime_bracket t) as [Hlo Hhi].
  rewrite DayFromYear_succ in Hhi. unfold DayWithinYear, InLeapYear.
  destruct (DaysInYear_cases (YearFromTime t)) as [E | E]; rewrite E in *;
    cbn [Z.eqb Pos.eqb]; lia.
Qed.

Lemma DateFromTime_range t : 1 <= DateFromTime t <= 31.
Proof.
  pose proof (DayWithinYear_range t) as Hd.
  assert (Hl : InLeapYear t = 0 \/ InLeapYear t = 1)
    by (unfold InLeapYear; destruct (_ =? _); auto).
  unfold DateFromTime, MonthFromTime.
  repeat match goal with
         | |- context [?a <? ?b] => destruct (Z.ltb_spec a b); try lia
         end.
Qed.

(** The time of day decides hour, minute, second and millisecond. *)
Lemma HourFromTime_tod t : HourFromTime t = TimeWithinDay t / msPerHour.
Proof.
  unfold HourFromTime, TimeWithinDay, msPerHour, msPerDay.
  Z.to_euclidean_division_equations; lia.
Qed.

Lemma MinFromTime_tod t : MinFromTime t = (TimeWithinDay t / msPerMinute) mod 60.
Proof.
  unfold MinFromTime, TimeWithinDay, msPerMinute, msPerDay.
  Z.to_euclidean_division_equations; lia.
Qed.

Lemma SecFromTime_tod t : SecFromTime t = (TimeWithinDay t / msPerSecond) mod 60.
Proof.
  unfold SecFromTime, TimeWithinDay, msPerSecond, msPerDay.
  Z.to_euclidean_division_equations; lia.
Qed.

Lemma msFromTime_tod t : msFromTime t = TimeWithinDay t mod msPerSecond.
Proof.
  unfold msFromTime, TimeWithinDay, msPerSecond, msPerDay.
  Z.to_euclidean_division_equations; lia.
Qed.

(** *** Getters and setters on a valid date *)

Lemma localField_Some f t :
  localField f (mkDate (Some t)) = Num.ofZ (f (LocalTime t)).
Proof. reflexivity. Qed.

Lemma setFullYear_Some t year month date y m dt :
  Num.toZ year = Some y -> Num.toZ month = Some m -> Num.toZ date = Some dt ->
  setFullYear (mkDate (Some t)) year month date
  = store (Some (MakeDayZ y m dt * msPerDay + TimeWithinDay (LocalTime t))).
Proof. intros Hy Hm Hd. unfold setFullYear. now rewrite Hy, Hm, Hd. Qed.

Lemma setMonth_Some t month date m dt :
  Num.toZ month = Some m -> Num.toZ date = Some dt ->
  setMonth (mkDate (Some t)) month date
  = store (Some (MakeDayZ (YearFromTime (LocalTime t)) m dt * msPerDay
                 + TimeWithinDay (LocalTime t))).
Proof. intros Hm Hd. unfold setMonth. now rewrite Hm, Hd. Qed.

Lemma setDate_Some t date dt :
  Num.toZ date = Some dt ->
  setDate (mkDate (Some t)) date
  = store (Some (MakeDayZ (YearFromTime (LocalTime t)) (MonthFromTime (LocalTime t)) dt
                 * msPerDay + TimeWithinDay (LocalTime t))).
Proof. intros Hd. unfold setDate. now rewrite Hd. Qed.

Lemma setHours_Some t hour min sec ms h m s milli :
  Num.toZ hour = Some h -> Num.toZ min = Some m ->
  Num.toZ sec = Some s -> Num.toZ ms = Some milli ->
  setHours (mkDate (Some t)) hour min sec ms
  = store (Some (Day (LocalTime t) * msPerDay
                 + (h * msPerHour + m * msPerMinute + s * msPerSecond + milli))).
Proof. intros Hh Hm Hs Hms. unfold setHours. now rewrite Hh, Hm, Hs, Hms. Qed.

(** Setting the time of day of a date whose local time is known. *)
Lemma setHours_representable local hour min sec ms h m s milli D new :
  representable local ->
  Num.toZ hour = Some h -> Num.toZ min = Some m ->
  Num.toZ sec = Some s -> Num.toZ ms = Some milli ->
  Day local = D ->
  new = D * msPerDay + (h * msPerHour + m * msPerMinute + s * msPerSecond + milli) ->
  representable new ->
  setHours (mkDate (Some (UTC local))) hour min sec ms = mkDate (Some (UTC new)).
Proof.
  intros Hl Hh Hm Hs Hms HD Hnew Hr.
  rewrite (setHours_Some _ _ _ _ _ h m s milli Hh Hm Hs Hms).
  destruct Hl as [_ ->]. rewrite HD, <- Hnew.
  now apply store_representable.
Qed.

(** *** The month a number of months away *)

Lemma MakeDayZ_target y M :
  MakeDayZ y (M + 1) 0
  = MakeDayZ (y + M / 12) (M mod 12) (DaysInMonth (y + M / 12) (M mod 12)).
Proof.
  rewrite <- MakeDayZ_day0 by (pose proof (Z.mod_pos_bound M 12); lia).
  rewrite (MakeDayZ_normal y (M + 1)), (MakeDayZ_normal _ (M mod 12 + 1)).
  f_equal; Z.to_euclidean_division_equations; lia.
Qed.

Lemma target_year_bound y mn dt tod :
  0 <= mn <= 11 -> 1 <= dt <= DaysInMonth y mn -> 0 <= tod < msPerDay ->
  representable (MakeDayZ y mn dt * msPerDay + tod) ->
  Z.abs y < 300000.
Proof.
  intros Hm Hd Ht Hr. apply representable_bound in Hr.
  destruct (fields_of_MakeDayZ y mn dt tod Hm Hd Ht) as [HY _].
  rewrite <- HY. now apply YearFromTime_bound.
Qed.

Lemma representable_keepsDay local : representable local -> keepsDay local.
Proof. intros [Hr Hl]. split; [exact Hr | now rewrite Hl]. Qed.

Lemma store_keepsDay local :
  keepsDay local -> store (Some local) = mkDate (Some (UTC local)).
Proof. intros [Hr _]. unfold store. cbn [option_map]. now rewrite TimeClip_in. Qed.

Lemma keepsDay_bound local : keepsDay local -> Z.abs local < maxTime + msPerDay.
Proof.
  intros [Hr _]. unfold UTC in Hr. pose proof (LocalTZA_bound local false). lia.
Qed.

Lemma Day_TimeWithinDay t : t = Day t * msPerDay + TimeWithinDay t.
Proof. unfold Day, TimeWithinDay, msPerDay. Z.to_euclidean_division_equations; lia. Qed.

(** The civil date read back from the instant of a wall-clock time that
    keeps its day. *)
Lemma keepsDay_fields y mn dt tod local :
  0 <= mn <= 11 -> 1 <= dt <= DaysInMonth y mn -> 0 <= tod < msPerDay ->
  local = wallClock y mn dt tod ->
  keepsDay local ->
  Day (LocalTime (UTC local)) = MakeDayZ y mn dt
  /\ YearFromTime (LocalTime (UTC local)) = y
  /\ MonthFromTime (LocalTime (UTC local)) = mn
  /\ DateFromTime (LocalTime (UTC local)) = dt.
Proof.
  intros Hmn Hdt Htod Hl [_ Hd].
  destruct (Day_MakeDate (MakeDayZ y mn dt) tod Htod) as [HD _].
  unfold wallClock in Hl. rewrite <- Hl in HD. rewrite HD in Hd.
  remember (LocalTime (UTC local)) as rb eqn:Hrb.
  pose proof (Day_TimeWithinDay rb) as Hsplit. rewrite Hd in Hsplit.
  destruct (fields_of_MakeDayZ y mn dt (TimeWithinDay rb) Hmn Hdt (TimeWithinDay_range rb))
    as (HY & HM & HDt).
  cbv zeta in HY, HM, HDt. rewrite <- Hsplit in HY, HM, HDt.
  auto.
Qed.

(** Setting the time of day of the instant of a wall-clock time that keeps
    its day. *)
Lemma setHours_keepsDay local hour min sec ms h m s milli D new :
  keepsDay local ->
  Num.toZ hour = Some h -> Num.toZ min = Some m ->
  Num.toZ sec = Some s -> Num.toZ ms = Some milli ->
  Day local = D ->
  new = D * msPerDay + (h * msPerHour + m * msPerMinute + s * msPerSecond + milli) ->
  Z.abs (UTC new) <= maxTime ->
  setHours (mkDate (Some (UTC local))) hour min sec ms = mkDate (Some (UTC new)).
Proof.
  intros [_ Hl] Hh Hm Hs Hms HD Hnew Hr.
  rewrite (setHours_Some _ _ _ _ _ h m s milli Hh Hm Hs Hms).
  rewrite Hl, HD, <- Hnew.
  unfold store. cbn [option_map]. now rewrite TimeClip_in.
Qed.


End Host.
End DateFacts.

(* ================================================================== *)
(** ** Properties of the functions *)
(* ================================================================== *)

Module Spec.

Import JSDate DateFns Calendar NumFacts DivFacts DateFacts Notions.

Lemma toDate_eq x :
  toDate x = Return (match x with
                     | VDate d => ofNumber (getTime d)
                     | VNumber n => ofNumber n
                     | VString _ | VOther => ofNumber Num.NaN
                     end).
Proof. destruct x; reflexivity. Qed.

Lemma toDate_epoch x : toDate x = Return (mkDate (epoch x)).
Proof.
  unfold epoch. rewrite toDate_eq.
  match goal with |- Return ?d = _ => now destruct d end.
Qed.

Lemma epoch_range x t : epoch x = Some t -> Z.abs t <= maxTime.
Proof. unfold epoch. rewrite toDate_eq. destruct x; apply ofNumber_range. Qed.

Lemma leb_epoch a b ta tb :
  epoch a = ta -> epoch b = tb ->
  Num.leb (getTime (mkDate ta)) (getTime (mkDate tb)) = epoch_le ta tb.
Proof.
  intros Ha Hb. unfold getTime. cbn [DateValue].
  destruct ta as [x | ], tb as [y | ]; cbn [epoch_le]; try reflexivity.
  - apply leb_ofZ; apply maxTime_safe.
    + apply epoch_range in Ha. unfold msPerDay. lia.
    + apply epoch_range in Hb. unfold msPerDay. lia.
  - unfold Num.leb, SFleb. now destruct (Num.ofZ x).
Qed.

Ltac run := cbv beta iota zeta delta [bind requiredArgs Nat.ltb Nat.leb].

(** C3 -- [isWithinInterval] throws the RangeError exactly when
    [start <= end] fails on the epoch values (NaN included); otherwise it
    returns whether [start <= date <= end], which is true at both ends. *)
Theorem isWithinInterval_spec :
  forall (dirtyDate : RawInput) (interval : Interval),
    let s := epoch (start interval) in
    let e := epoch (end_ interval) in
    let t := epoch dirtyDate in
    isWithinInterval dirtyDate (Some interval) =
      (if epoch_le s e then Return (epoch_le s t && epoch_le t e)
       else Throw (RangeError "Invalid interval"))
    /\ isWithinInterval (start interval) (Some interval) =
      (if epoch_le s e then Return true else Throw (RangeError "Invalid interval"))
    /\ isWithinInterval (end_ interval) (Some interval) =
      (if epoch_le s e then Return true else Throw (RangeError "Invalid interval")).
Proof.
  assert (Heq : forall d i,
    isWithinInterval d (Some i) =
      (if epoch_le (epoch (start i)) (epoch (end_ i))
       then Return (epoch_le (epoch (start i)) (epoch d)
                    && epoch_le (epoch d) (epoch (end_ i)))
       else Throw (RangeError "Invalid interval"))).
  { intros d i. unfold isWithinInterval. run.
    rewrite (toDate_epoch d), (toDate_epoch (start i)), (toDate_epoch (end_ i)).
    unfold Num.geb.
    rewrite !(leb_epoch _ _ _ _ eq_refl eq_refl).
    now destruct (epoch_le (epoch (start i)) (epoch (end_ i))). }
  intros d i. cbv zeta. rewrite !Heq.
  destruct (epoch (start i)) as [x | ], (epoch (end_ i)) as [y | ];
    cbn [epoch_le andb]; auto.
  destruct (x <=? y) eqn:Hxy; auto.
  rewrite !Z.leb_refl. auto.
Qed.

(** An interval passed as a falsy value ([null], [undefined]) is read as
    the empty object and rejected. *)
Lemma isWithinInterval_no_interval dirtyDate :
  isWithinInterval dirtyDate None = Throw (RangeError "Invalid interval").
Proof.
  unfold isWithinInterval. run. rewrite (toDate_epoch dirtyDate). reflexivity.
Qed.

(** C10 -- an invalid tested date inside a valid interval gives [false],
    not an error. *)
Theorem isWithinInterval_invalid_date :
  forall (dirtyDate : RawInput) (interval : Interval) (s e : Z),
    epoch (start interval) = Some s ->
    epoch (end_ interval) = Some e ->
    s <= e ->
    epoch dirtyDate = None ->
    isWithinInterval dirtyDate (Some interval) = Return false.
Proof.
  intros d i s e Hs He Hse Hd.
  unfold isWithinInterval. run.
  rewrite (toDate_epoch d), (toDate_epoch (start i)), (toDate_epoch (end_ i)).
  unfold Num.geb.
  rewrite !(leb_epoch _ _ _ _ eq_refl eq_refl), Hs, He, Hd.
  cbn [epoch_le]. destruct (Z.leb_spec s e); [reflexivity | lia].
Qed.

(** *** The integer coercion *)

Lemma two_branch_trunc x :
  (if Num.ltb x (Num.ofZ 0) then Num.ceil x else Num.floor x) = Num.trunc x.
Proof. destruct x as [ [ | ] | [ | ] | | [ | ] m e]; reflexivity. Qed.

Lemma two_branch_trunc' x :
  (if Num.gtb x (Num.ofZ 0) then Num.floor x else Num.ceil x) = Num.trunc x.
Proof. destruct x as [ [ | ] | [ | ] | | [ | ] m e]; reflexivity. Qed.

Lemma toInteger_number x : toInteger (NNumber x) = Num.trunc x.
Proof.
  unfold toInteger. cbn [Number]. rewrite two_branch_trunc.
  now destruct x.
Qed.

Lemma toInteger_ofZ k : Z.abs k < 2 ^ 53 -> toInteger (NNumber (Num.ofZ k)) = Num.ofZ k.
Proof.
  intros Hk. rewrite toInteger_number, <- two_branch_trunc.
  rewrite floor_ofZ, ceil_ofZ by assumption. now destruct (Num.ltb _ _).
Qed.

(** *** Differences *)

Lemma differenceInMilliseconds_eq a b :
  differenceInMilliseconds a b = Return (Num.sub (epochNumber a) (epochNumber b)).
Proof.
  unfold differenceInMilliseconds. run.
  now rewrite (toDate_epoch a), (toDate_epoch b).
Qed.

Lemma differenceInMinutes_eq a b :
  differenceInMinutes a b =
  Return (Num.trunc (Num.div (Num.sub (epochNumber a) (epochNumber b))
                             (Num.ofZ 60000))).
Proof.
  unfold differenceInMinutes. run.
  rewrite differenceInMilliseconds_eq. cbv beta iota.
  now rewrite two_branch_trunc'.
Qed.

(** C6 (as amended) -- [differenceInMinutes] is the difference of the
    epoch values, computed on Numbers, divided by 60000 and truncated
    toward zero: an identity on Numbers for all inputs.  For two valid
    instants the Number difference is an integer [n] at most 1 away from
    the exact difference, and equal to it when the instants are less than
    [2^53] milliseconds apart or an even number of milliseconds apart;
    the result is the integer quotient of [n] by 60000 rounded toward
    zero ([Z.quot]), and so that of the exact difference in those two
    cases. *)
Theorem differenceInMinutes_truncates :
  (forall a b : RawInput,
      differenceInMinutes a b =
      Return (Num.trunc (Num.div (Num.sub (epochNumber a) (epochNumber b))
                                 (Num.ofZ 60000))))
  /\ (forall (a b : RawInput) (ta tb : Z),
        epoch a = Some ta -> epoch b = Some tb ->
        exists (r : number) (n : Z),
          differenceInMinutes a b = Return r
          /\ Num.toZ (Num.sub (epochNumber a) (epochNumber b)) = Some n
          /\ Z.abs (n - (ta - tb)) <= 1
          /\ (Z.abs (ta - tb) < 2 ^ 53 \/ (ta - tb) mod 2 = 0 -> n = ta - tb)
          /\ Num.toZ r = Some (Z.quot n 60000))
  /\ (forall (a b : RawInput) (ta tb : Z),
        epoch a = Some ta -> epoch b = Some tb ->
        Z.abs (ta - tb) < 2 ^ 53 \/ (ta - tb) mod 2 = 0 ->
        exists r : number,
          differenceInMinutes a b = Return r
          /\ Num.toZ r = Some (Z.quot (ta - tb) 60000)).
Proof.
  assert (Hsub : forall a b ta tb,
             epoch a = Some ta -> epoch b = Some tb ->
             Num.sub (epochNumber a) (epochNumber b) = Num.ofZ (ta - tb)
             /\ Z.abs (ta - tb) <= 2 ^ 54 - 2).
  { intros a b ta tb Ha Hb.
    pose proof (epoch_range _ _ Ha) as Hra. pose proof (epoch_range _ _ Hb) as Hrb.
    unfold epochNumber. rewrite Ha, Hb. split.
    - apply WideFacts.sub_ofZ_rounded; apply maxTime_safe; unfold msPerDay; lia.
    - change (2 ^ 54) with 18014398509481984. unfold maxTime in *. lia. }
  assert (Hall : forall a b ta tb,
             epoch a = Some ta -> epoch b = Some tb ->
             exists (r : number) (n : Z),
               differenceInMinutes a b = Return r
               /\ Num.toZ (Num.sub (epochNumber a) (epochNumber b)) = Some n
               /\ Z.abs (n - (ta - tb)) <= 1
               /\ (Z.abs (ta - tb) < 2 ^ 53 \/ (ta - tb) mod 2 = 0 -> n = ta - tb)
               /\ Num.toZ r = Some (Z.quot n 60000)).
  { intros a b ta tb Ha Hb.
    destruct (Hsub a b ta tb Ha Hb) as [Hs Hw].
    destruct (WideFacts.toZ_trunc_div_minute_rounded (ta - tb) Hw) as (n & Hn & Hnear & Hex & Hq).
    eexists. exists n.
    split; [apply differenceInMinutes_eq | ].
    rewrite Hs. auto. }
  split; [exact differenceInMinutes_eq | split; [exact Hall | ]].
  intros a b ta tb Ha Hb Hd.
  destruct (Hall a b ta tb Ha Hb) as (r & n & Hr & _ & _ & Hex & Hq).
  exists r. split; [exact Hr | ]. now rewrite <- (Hex Hd).
Qed.

Lemma epoch_VDate t : Z.abs t <= maxTime -> epoch (VDate (mkDate (Some t))) = Some t.
Proof.
  intros H. unfold epoch. rewrite toDate_eq. unfold getTime. cbn [DateValue].
  now rewrite ofNumber_ofZ.
Qed.

Lemma epochNumber_VDate t :
  Z.abs t <= maxTime -> epochNumber (VDate (mkDate (Some t))) = Num.ofZ t.
Proof. intros H. unfold epochNumber. now rewrite epoch_VDate. Qed.

Lemma clock_difference midnight h m s h' m' s' :
  Z.abs midnight <= maxTime - msPerDay ->
  0 <= h * msPerHour + m * msPerMinute + s * msPerSecond < msPerDay ->
  0 <= h' * msPerHour + m' * msPerMinute + s' * msPerSecond < msPerDay ->
  Num.sub (epochNumber (clock midnight h m s)) (epochNumber (clock midnight h' m' s'))
  = Num.ofZ ((h - h') * msPerHour + (m - m') * msPerMinute + (s - s') * msPerSecond).
Proof.
  intros Hm H1 H2. unfold clock, instant.
  rewrite !epochNumber_VDate by (unfold maxTime, msPerDay in *; lia).
  rewrite sub_ofZ.
  - f_equal. lia.
  - apply maxTime_safe. unfold maxTime, msPerDay in *; lia.
  - apply maxTime_safe. unfold maxTime, msPerDay in *; lia.
  - apply maxTime_safe. unfold maxTime, msPerDay in *; lia.
Qed.

(** C4 (as amended) -- on one day, 12:20:00 is 12 whole minutes after
    12:07:59, and 10:00:00 is 1 whole minute before 10:01:59 (the result
    is [-1]): the sign is that of first minus second and the fraction is
    dropped.  [midnight] is the time value of the start of the day. *)
Theorem differenceInMinutes_same_day :
  forall midnight : Z,
    Z.abs midnight <= maxTime - msPerDay ->
    differenceInMinutes (clock midnight 12 20 0) (clock midnight 12 7 59)
      = Return (Num.ofZ 12)
    /\ differenceInMinutes (clock midnight 10 0 0) (clock midnight 10 1 59)
      = Return (Num.ofZ (-1)).
Proof.
  intros midnight Hm.
  rewrite !differenceInMinutes_eq.
  rewrite !clock_difference by (try assumption; vm_compute; split; congruence).
  split; vm_compute; reflexivity.
Qed.

(** *** The integer coercion, in full *)

(** C5 (as amended) -- [null] and booleans give NaN; [undefined], whose
    numeric conversion is NaN, gives NaN, as does every input whose
    numeric conversion is NaN; an infinite Number is returned as it is;
    any other Number is truncated toward zero, by [floor] when it is
    [>= 0] and by [ceil] when it is [< 0].  The last part is the function
    on every input. *)
Theorem toInteger_spec :
  toInteger NNull = Num.NaN
  /\ (forall b, toInteger (NBoolean b) = Num.NaN)
  /\ toInteger (NNumber Num.NaN) = Num.NaN
  /\ (forall s, toInteger (NNumber (S754_infinity s)) = S754_infinity s)
  /\ (forall x, toInteger (NNumber x) = Num.trunc x)
  /\ (forall x, toInteger (NNumber x) =
                if Num.isNaN x then Num.NaN
                else if Num.geb x (Num.ofZ 0) then Num.floor x else Num.ceil x)
  /\ toInteger (NNumber (Num.div (Num.ofZ (-5)) (Num.ofZ 2))) = Num.ofZ (-2)
  /\ toInteger (NNumber (Num.div (Num.ofZ 5) (Num.ofZ 2))) = Num.ofZ 2
  /\ toInteger (NBoolean true) = Num.NaN
  /\ Number NUndefined = Num.NaN
  /\ toInteger NUndefined = Num.NaN
  /\ (forall a, Num.isNaN (Number a) = true -> toInteger a = Num.NaN)
  /\ (forall a,
        toInteger a =
        match a with
        | NNull | NBoolean _ => Num.NaN
        | NUndefined | NNumber _ =>
            if Num.isNaN (Number a) then Num.NaN
            else if Num.geb (Number a) (Num.ofZ 0) then Num.floor (Number a)
                 else Num.ceil (Number a)
        end).
Proof.
  assert (Hnum : forall x, toInteger (NNumber x) =
                if Num.isNaN x then Num.NaN
                else if Num.geb x (Num.ofZ 0) then Num.floor x else Num.ceil x).
  { intros x. rewrite toInteger_number.
    destruct x as [ [ | ] | [ | ] | | [ | ] m e]; reflexivity. }
  assert (Hall : forall a,
        toInteger a =
        match a with
        | NNull | NBoolean _ => Num.NaN
        | NUndefined | NNumber _ =>
            if Num.isNaN (Number a) then Num.NaN
            else if Num.geb (Number a) (Num.ofZ 0) then Num.floor (Number a)
                 else Num.ceil (Number a)
        end).
  { intros [x | b | | ]; try reflexivity. apply Hnum. }
  assert (Hnan : forall a, Num.isNaN (Number a) = true -> toInteger a = Num.NaN).
  { intros a Ha. rewrite Hall, Ha. now destruct a. }
  split; [reflexivity | ].
  split; [intros [ | ]; reflexivity | ].
  split; [reflexivity | ].
  split; [intros [ | ]; reflexivity | ].
  split; [apply toInteger_number | ].
  split; [exact Hnum | ].
  split; [reflexivity | ].
  split; [reflexivity | ].
  split; [reflexivity | ].
  split; [reflexivity | ].
  split; [reflexivity | ].
  split; [exact Hnan | exact Hall].
Qed.

(** *** Adding no month *)

Section AddMonthsZero.
Context {tz : HostTimeZone}.

(** C2 -- when the coerced amount is zero ([0], [-0], or a fraction
    between [-1] and [1]), [addMonths] returns the canonical instant of its
    argument, with the same epoch value, in every host zone: no calendar
    field is computed. *)
Theorem addMonths_zero :
  forall (dirtyDate : RawInput) (dirtyAmount : DirtyNumber) (t : Z),
    epoch dirtyDate = Some t ->
    Num.isZero (toInteger dirtyAmount) = true ->
    addMonths dirtyDate dirtyAmount = Return (mkDate (Some t)).
Proof.
  intros d a t Ht Hz. unfold addMonths. run.
  rewrite (toDate_epoch d), Ht.
  destruct (toInteger a); try discriminate. reflexivity.
Qed.
End AddMonthsZero.

(** *** Invalid dates *)

Lemma sub_NaN_r x : Num.sub x Num.NaN = Num.NaN.
Proof. now destruct x. Qed.

Section Invalid.
Context {tz : HostTimeZone}.

(** C7 -- an input that is neither a date nor a number is canonicalised
    to the invalid date, without an exception; and every function that
    computes with an invalid instant returns NaN or the invalid date,
    without an exception. *)
Theorem invalid_propagates :
  forall (x y : RawInput) (amount : DirtyNumber),
    (notDateNorNumber x = true -> toDate x = Return InvalidDate)
    /\ (epoch x = None ->
        differenceInMilliseconds x y = Return Num.NaN
        /\ differenceInMilliseconds y x = Return Num.NaN
        /\ differenceInMinutes x y = Return Num.NaN
        /\ differenceInMinutes y x = Return Num.NaN
        /\ DateFns.getMonth x = Return Num.NaN
        /\ DateFns.getDay x = Return Num.NaN
        /\ getDaysInMonth x = Return Num.NaN
        /\ startOfMonth x = Return InvalidDate
        /\ endOfMonth x = Return InvalidDate
        /\ addMonths x amount = Return InvalidDate).
Proof.
  intros x y amount. split.
  - destruct x; try discriminate; reflexivity.
  - intros Hx.
    assert (Hn : epochNumber x = Num.NaN) by (unfold epochNumber; now rewrite Hx).
    repeat split.
    + now rewrite differenceInMilliseconds_eq, Hn.
    + now rewrite differenceInMilliseconds_eq, Hn, sub_NaN_r.
    + now rewrite differenceInMinutes_eq, Hn.
    + now rewrite differenceInMinutes_eq, Hn, sub_NaN_r.
    + unfold DateFns.getMonth. run. now rewrite (toDate_epoch x), Hx.
    + unfold DateFns.getDay. run. now rewrite (toDate_epoch x), Hx.
    + unfold getDaysInMonth. run. now rewrite (toDate_epoch x), Hx.
    + unfold startOfMonth. run. now rewrite (toDate_epoch x), Hx.
    + unfold endOfMonth. run. now rewrite (toDate_epoch x), Hx.
    + unfold addMonths. run. rewrite (toDate_epoch x), Hx.
      destruct (toInteger amount); reflexivity.
Qed.
End Invalid.

(** *** Month boundaries and month addition *)

Section Months.
Context {tz : HostTimeZone}.

Lemma toZ_small z : Z.abs z < 300000 -> Num.toZ (Num.ofZ z) = Some z.
Proof. intros H. apply toZ_ofZ. change (2 ^ 53) with 9007199254740992. lia. Qed.

Lemma isNaN_ofZ k : Z.abs k < 2 ^ 53 -> Num.isNaN (Num.ofZ k) = false.
Proof.
  intros H. destruct (Z.eq_dec k 0) as [-> | Hk]; [reflexivity | ].
  now rewrite ofZ_form.
Qed.

Lemma not_ofZ k : k <> 0 -> Z.abs k < 2 ^ 53 -> Num.not (Num.ofZ k) = false.
Proof. intros Hk H. now rewrite ofZ_form. Qed.

Lemma add_small a b :
  Z.abs a < 2 ^ 52 -> Z.abs b < 2 ^ 52 -> Num.add (Num.ofZ a) (Num.ofZ b) = Num.ofZ (a + b).
Proof.
  change (2 ^ 52) with 4503599627370496. intros Ha Hb.
  apply add_ofZ; change (2 ^ 53) with 9007199254740992; lia.
Qed.

Lemma endOfMonth_at d t tl y mn e1 e2 :
  epoch d = Some t ->
  tl = LocalTime t -> y = YearFromTime tl -> mn = MonthFromTime tl ->
  e1 = wallClock y mn (DaysInMonth y mn) (TimeWithinDay tl) ->
  e2 = wallClock y mn (DaysInMonth y mn) endOfDay ->
  representable e1 -> representable e2 ->
  endOfMonth d = Return (mkDate (Some (UTC e2))).
Proof.
  intros Ht Htl Hy Hmn He1 He2 H1 H2.
  pose proof (epoch_range _ _ Ht) as Hr.
  pose proof (MonthFromTime_range tl) as Hmr. rewrite <- Hmn in Hmr.
  pose proof (LocalTime_bound t Hr) as Hlb. rewrite <- Htl in Hlb.
  pose proof (YearFromTime_bound tl Hlb) as Hyb. rewrite <- Hy in Hyb.
  assert (HD : Day e1 = MakeDayZ y mn (DaysInMonth y mn)).
  { rewrite He1. apply Day_MakeDate, TimeWithinDay_range. }
  unfold wallClock, endOfDay in He1, He2.
  unfold endOfMonth. run. rewrite (toDate_epoch d), Ht.
  unfold getFullYear, JSDate.getMonth. rewrite !localField_Some.
  rewrite <- Htl, <- Hy, <- Hmn.
  rewrite add_small by (change (2 ^ 52) with 4503599627370496; lia).
  rewrite (setFullYear_Some t _ _ _ y (mn + 1) 0);
    [ | apply toZ_small; lia | apply toZ_small; lia | reflexivity ].
  rewrite <- Htl, (MakeDayZ_day0 y mn Hmr), <- He1.
  rewrite (store_representable _ H1).
  now rewrite (setHours_representable e1
                 (Num.ofZ 23) (Num.ofZ 59) (Num.ofZ 59) (Num.ofZ 999) 23 59 59 999
                 _ e2 H1 eq_refl eq_refl eq_refl eq_refl HD He2 H2).
Qed.

Lemma startOfMonth_at d t y mn dt tod s1 s2 :
  epoch d = Some t ->
  LocalTime t = wallClock y mn dt tod ->
  0 <= mn <= 11 -> 1 <= dt <= DaysInMonth y mn -> 0 <= tod < msPerDay ->
  s1 = wallClock y mn 1 tod ->
  s2 = wallClock y mn 1 0 ->
  representable s1 -> representable s2 ->
  startOfMonth d = Return (mkDate (Some (UTC s2))).
Proof.
  intros Ht Hl Hmn Hdt Htod Hs1 Hs2 H1 H2.
  destruct (fields_of_MakeDayZ y mn dt tod Hmn Hdt Htod) as (HY & HM & _).
  destruct (Day_MakeDate (MakeDayZ y mn dt) tod Htod) as [_ Htw].
  assert (HD : Day s1 = MakeDayZ y mn 1).
  { rewrite Hs1. now apply Day_MakeDate. }
  assert (Hs2' : s2 = MakeDayZ y mn 1 * msPerDay
                      + (0 * msPerHour + 0 * msPerMinute + 0 * msPerSecond + 0))
    by (rewrite Hs2; unfold wallClock; f_equal).
  unfold wallClock in Hl, Hs1. cbv zeta in HY, HM. rewrite <- Hl in HY, HM, Htw.
  unfold startOfMonth. run. rewrite (toDate_epoch d), Ht.
  rewrite (setDate_Some t (Num.ofZ 1) 1 eq_refl).
  rewrite HY, HM, Htw, <- Hs1.
  rewrite (store_representable _ H1).
  now rewrite (setHours_representable s1
                 (Num.ofZ 0) (Num.ofZ 0) (Num.ofZ 0) (Num.ofZ 0) 0 0 0 0
                 _ s2 H1 eq_refl eq_refl eq_refl eq_refl HD Hs2' H2).
Qed.

(** [endOfMonth], when the last day of the month at the time of day of the
    date is read back on its own day. *)
Lemma endOfMonth_day d t tl y mn e1 e2 :
  epoch d = Some t ->
  tl = LocalTime t -> y = YearFromTime tl -> mn = MonthFromTime tl ->
  e1 = wallClock y mn (DaysInMonth y mn) (TimeWithinDay tl) ->
  e2 = wallClock y mn (DaysInMonth y mn) endOfDay ->
  keepsDay e1 -> Z.abs (UTC e2) <= maxTime ->
  endOfMonth d = Return (mkDate (Some (UTC e2))).
Proof.
  intros Ht Htl Hy Hmn He1 He2 H1 H2.
  pose proof (epoch_range _ _ Ht) as Hr.
  pose proof (MonthFromTime_range tl) as Hmr. rewrite <- Hmn in Hmr.
  pose proof (LocalTime_bound t Hr) as Hlb. rewrite <- Htl in Hlb.
  pose proof (YearFromTime_bound tl Hlb) as Hyb. rewrite <- Hy in Hyb.
  assert (HD : Day e1 = MakeDayZ y mn (DaysInMonth y mn)).
  { rewrite He1. apply Day_MakeDate, TimeWithinDay_range. }
  unfold wallClock, endOfDay in He1, He2.
  unfold endOfMonth. run. rewrite (toDate_epoch d), Ht.
  unfold getFullYear, JSDate.getMonth. rewrite !localField_Some.
  rewrite <- Htl, <- Hy, <- Hmn.
  rewrite add_small by (change (2 ^ 52) with 4503599627370496; lia).
  rewrite (setFullYear_Some t _ _ _ y (mn + 1) 0);
    [ | apply toZ_small; lia | apply toZ_small; lia | reflexivity ].
  rewrite <- Htl, (MakeDayZ_day0 y mn Hmr), <- He1.
  rewrite (store_keepsDay _ H1).
  now rewrite (setHours_keepsDay e1
                 (Num.ofZ 23) (Num.ofZ 59) (Num.ofZ 59) (Num.ofZ 999) 23 59 59 999
                 _ e2 H1 eq_refl eq_refl eq_refl eq_refl HD He2 H2).
Qed.

(** [startOfMonth] of the instant of a wall-clock time that is read back
    on its own day. *)
Lemma startOfMonth_day y mn dt tod local s1 s2 :
  0 <= mn <= 11 -> 1 <= dt <= DaysInMonth y mn -> 0 <= tod < msPerDay ->
  local = wallClock y mn dt tod ->
  keepsDay local ->
  s1 = wallClock y mn 1 (TimeWithinDay (LocalTime (UTC local))) ->
  s2 = wallClock y mn 1 0 ->
  keepsDay s1 -> Z.abs (UTC s2) <= maxTime ->
  startOfMonth (VDate (mkDate (Some (UTC local)))) = Return (mkDate (Some (UTC s2))).
Proof.
  intros Hmn Hdt Htod Hl H0 Hs1 Hs2 H1 H2.
  destruct (keepsDay_fields y mn dt tod local Hmn Hdt Htod Hl H0) as (_ & HY & HM & _).
  assert (Hep : epoch (VDate (mkDate (Some (UTC local)))) = Some (UTC local))
    by (apply epoch_VDate; apply H0).
  assert (HD : Day s1 = MakeDayZ y mn 1).
  { rewrite Hs1. apply Day_MakeDate, TimeWithinDay_range. }
  assert (Hs2' : s2 = MakeDayZ y mn 1 * msPerDay
                      + (0 * msPerHour + 0 * msPerMinute + 0 * msPerSecond + 0))
    by (rewrite Hs2; unfold wallClock; f_equal).
  unfold wallClock in Hs1.
  unfold startOfMonth. run. rewrite (toDate_epoch _), Hep.
  rewrite (setDate_Some (UTC local) (Num.ofZ 1) 1 eq_refl).
  rewrite HY, HM, <- Hs1.
  rewrite (store_keepsDay _ H1).
  now rewrite (setHours_keepsDay s1
                 (Num.ofZ 0) (Num.ofZ 0) (Num.ofZ 0) (Num.ofZ 0) 0 0 0 0
                 _ s2 H1 eq_refl eq_refl eq_refl eq_refl HD Hs2' H2).
Qed.

Lemma first_of_month_fields y mn s2 :
  0 <= mn <= 11 ->
  s2 = wallClock y mn 1 0 ->
  representable s2 ->
  getFullYear (mkDate (Some (UTC s2))) = Num.ofZ y
  /\ JSDate.getMonth (mkDate (Some (UTC s2))) = Num.ofZ mn
  /\ getDate (mkDate (Some (UTC s2))) = Num.ofZ 1
  /\ getHours (mkDate (Some (UTC s2))) = Num.ofZ 0
  /\ getMinutes (mkDate (Some (UTC s2))) = Num.ofZ 0
  /\ getSeconds (mkDate (Some (UTC s2))) = Num.ofZ 0
  /\ getMilliseconds (mkDate (Some (UTC s2))) = Num.ofZ 0.
Proof.
  intros Hmn Hs2 H4.
  pose proof (DaysInMonth_range y mn) as Hdim.
  destruct (fields_of_MakeDayZ y mn 1 0 Hmn ltac:(lia) ltac:(unfold msPerDay; lia))
    as (HY & HM & HD).
  destruct (Day_MakeDate (MakeDayZ y mn 1) 0 ltac:(unfold msPerDay; lia)) as [_ Htw].
  unfold wallClock in Hs2. rewrite <- Hs2 in HY, HM, HD, Htw.
  unfold getFullYear, JSDate.getMonth, getDate, getHours, getMinutes,
    getSeconds, getMilliseconds.
  rewrite !(localField_representable _ _ H4).
  rewrite HY, HM, HD.
  rewrite HourFromTime_tod, MinFromTime_tod, SecFromTime_tod, msFromTime_tod, Htw.
  repeat split; reflexivity.
Qed.

Lemma startOfMonth_endOfMonth_day d t tl y mn e1 e2 s1 s2 :
  epoch d = Some t ->
  tl = LocalTime t -> y = YearFromTime tl -> mn = MonthFromTime tl ->
  e1 = wallClock y mn (DaysInMonth y mn) (TimeWithinDay tl) ->
  e2 = wallClock y mn (DaysInMonth y mn) endOfDay ->
  s1 = wallClock y mn 1 (TimeWithinDay (LocalTime (UTC e2))) ->
  s2 = wallClock y mn 1 0 ->
  keepsDay e1 -> keepsDay e2 -> keepsDay s1 -> Z.abs (UTC s2) <= maxTime ->
  (e <- endOfMonth d ;; startOfMonth (VDate e)) = Return (mkDate (Some (UTC s2))).
Proof.
  intros Ht Htl Hy Hmneq He1 He2 Hs1 Hs2 H1 H2 H3 H4.
  pose proof (MonthFromTime_range tl) as Hmn. rewrite <- Hmneq in Hmn.
  pose proof (DaysInMonth_range y mn) as Hdim.
  assert (Hday : 0 <= endOfDay < msPerDay) by (vm_compute; split; congruence).
  assert (Hdt : 1 <= DaysInMonth y mn <= DaysInMonth y mn) by lia.
  rewrite (endOfMonth_day d t tl y mn e1 e2 Ht Htl Hy Hmneq He1 He2 H1 (proj1 H2)).
  cbn [bind].
  exact (startOfMonth_day y mn (DaysInMonth y mn) endOfDay e2 s1 s2 Hmn
           Hdt Hday He2 H2 Hs1 Hs2 H3 H4).
Qed.

(** C8 (as amended) -- when the three local times the two functions
    store on the way (the last day of the month at the time of day of
    [d], the last day at 23:59:59.999, and the first day at the time of
    day the latter reads) are within the range of a [Date] and read back
    on their own calendar day, and 00:00 of the first day exists on the
    wall clock of the host zone, [startOfMonth (endOfMonth d)] is the
    first day of the month of [d] at 00:00:00.000, in the year of [d]. *)
Theorem startOfMonth_endOfMonth :
  forall (d : RawInput) (t : Z),
    epoch d = Some t ->
    let tl := LocalTime t in
    let y := YearFromTime tl in
    let mn := MonthFromTime tl in
    let e2 := wallClock y mn (DaysInMonth y mn) endOfDay in
    keepsDay (wallClock y mn (DaysInMonth y mn) (TimeWithinDay tl)) ->
    keepsDay e2 ->
    keepsDay (wallClock y mn 1 (TimeWithinDay (LocalTime (UTC e2)))) ->
    representable (wallClock y mn 1 0) ->
    exists r : Date,
      (e <- endOfMonth d ;; startOfMonth (VDate e)) = Return r
      /\ getFullYear r = Num.ofZ y
      /\ JSDate.getMonth r = Num.ofZ mn
      /\ getDate r = Num.ofZ 1
      /\ getHours r = Num.ofZ 0
      /\ getMinutes r = Num.ofZ 0
      /\ getSeconds r = Num.ofZ 0
      /\ getMilliseconds r = Num.ofZ 0.
Proof.
  intros d t Ht. cbv zeta.
  remember (LocalTime t) as tl eqn:Htl.
  remember (YearFromTime tl) as y eqn:Hy.
  remember (MonthFromTime tl) as mn eqn:Hmneq.
  remember (wallClock y mn (DaysInMonth y mn) (TimeWithinDay tl)) as e1 eqn:He1.
  remember (wallClock y mn (DaysInMonth y mn) endOfDay) as e2 eqn:He2.
  remember (wallClock y mn 1 (TimeWithinDay (LocalTime (UTC e2)))) as s1 eqn:Hs1.
  remember (wallClock y mn 1 0) as s2 eqn:Hs2.
  intros H1 H2 H3 H4.
  pose proof (MonthFromTime_range tl) as Hmn. rewrite <- Hmneq in Hmn.
  exists (mkDate (Some (UTC s2))).
  split.
  - exact (startOfMonth_endOfMonth_day d t tl y mn e1 e2 s1 s2 Ht Htl Hy Hmneq
             He1 He2 Hs1 Hs2 H1 H2 H3 (proj1 H4)).
  - exact (first_of_month_fields y mn s2 Hmn Hs2 H4).
Qed.

Lemma addMonths_clamp d amount t k tl y' mn' last :
  epoch d = Some t ->
  toInteger amount = Num.ofZ k ->
  k <> 0 ->
  tl = LocalTime t ->
  y' = targetYear (YearFromTime tl) (MonthFromTime tl) k ->
  mn' = targetMonth (MonthFromTime tl) k ->
  last = MakeDayZ y' mn' (DaysInMonth y' mn') * msPerDay + TimeWithinDay tl ->
  DaysInMonth y' mn' <= DateFromTime tl ->
  representable last ->
  addMonths d amount = Return (mkDate (Some (UTC last))).
Proof.
  intros Ht Hk Hk0 Htl Hy'eq Hmn'eq Hlast Hclamp Hrep.
  pose proof (epoch_range _ _ Ht) as Hr.
  pose proof (MonthFromTime_range tl) as Hmn.
  pose proof (LocalTime_bound t Hr) as Hlb. rewrite <- Htl in Hlb.
  pose proof (YearFromTime_bound tl Hlb) as Hy.
  pose proof (TimeWithinDay_range tl) as Htod.
  pose proof (DateFromTime_range tl) as Hdom.
  pose proof (DaysInMonth_range y' mn') as Hdim.
  assert (Hmn' : 0 <= mn' <= 11).
  { rewrite Hmn'eq. unfold targetMonth.
    pose proof (Z.mod_pos_bound (MonthFromTime tl + k) 12). lia. }
  assert (Hy' : Z.abs y' < 300000).
  { apply (target_year_bound y' mn' (DaysInMonth y' mn') (TimeWithinDay tl));
      [ exact Hmn' | lia | exact Htod | rewrite <- Hlast; exact Hrep ]. }
  assert (Hkb : Z.abs k < 16777216).
  { rewrite Hy'eq in Hy'. unfold targetYear in Hy'.
    revert Hy'. generalize (YearFromTime tl) (MonthFromTime tl) Hy Hmn.
    clear. intros. Z.to_euclidean_division_equations; lia. }
  destruct (fields_of_MakeDayZ y' mn' (DaysInMonth y' mn') (TimeWithinDay tl)
              Hmn' ltac:(lia) Htod) as (_ & _ & HD).
  cbv zeta in HD. rewrite <- Hlast in HD.
  unfold addMonths. run. rewrite (toDate_epoch d), Ht, Hk.
  rewrite isNaN_ofZ, not_ofZ by (try assumption; change (2 ^ 53) with 9007199254740992; lia).
  unfold getTime. cbn [DateValue]. rewrite (ofNumber_ofZ t Hr).
  unfold JSDate.getMonth, getDate. rewrite !localField_Some. rewrite <- Htl.
  rewrite !add_small by (change (2 ^ 52) with 4503599627370496; lia).
  rewrite (setMonth_Some t _ _ (MonthFromTime tl + k + 1) 0);
    [ | apply toZ_ofZ; change (2 ^ 53) with 9007199254740992; lia | reflexivity ].
  rewrite <- Htl. rewrite MakeDayZ_target.
  unfold targetYear, targetMonth in Hy'eq, Hmn'eq.
  rewrite <- Hy'eq, <- Hmn'eq, <- Hlast.
  rewrite (store_representable _ Hrep).
  rewrite (localField_representable _ _ Hrep). rewrite HD.
  unfold Num.geb.
  rewrite leb_ofZ by (change (2 ^ 53) with 9007199254740992; lia).
  destruct (Z.leb_spec (DaysInMonth y' mn') (DateFromTime tl)); [reflexivity | lia].
Qed.

Lemma clamped_eq tl k :
  clamped tl k =
  MakeDayZ (targetYear (YearFromTime tl) (MonthFromTime tl) k)
           (targetMonth (MonthFromTime tl) k)
           (DaysInMonth (targetYear (YearFromTime tl) (MonthFromTime tl) k)
                        (targetMonth (MonthFromTime tl) k)) * msPerDay
  + TimeWithinDay tl.
Proof. reflexivity. Qed.

Lemma targetMonth_range mn k : 0 <= targetMonth mn k <= 11.
Proof. unfold targetMonth. pose proof (Z.mod_pos_bound (mn + k) 12). lia. Qed.

(** The instant [addMonths] returns when it clamps, and its local fields. *)
Lemma addMonths_clamp_fields d amount t k :
  epoch d = Some t ->
  toInteger amount = Num.ofZ k ->
  k <> 0 ->
  DaysInMonth (targetYear (YearFromTime (LocalTime t)) (MonthFromTime (LocalTime t)) k)
              (targetMonth (MonthFromTime (LocalTime t)) k)
    <= DateFromTime (LocalTime t) ->
  representable (clamped (LocalTime t) k) ->
  addMonths d amount = Return (mkDate (Some (UTC (clamped (LocalTime t) k))))
  /\ YearFromTime (clamped (LocalTime t) k)
     = targetYear (YearFromTime (LocalTime t)) (MonthFromTime (LocalTime t)) k
  /\ MonthFromTime (clamped (LocalTime t) k)
     = targetMonth (MonthFromTime (LocalTime t)) k
  /\ DateFromTime (clamped (LocalTime t) k)
     = DaysInMonth (targetYear (YearFromTime (LocalTime t)) (MonthFromTime (LocalTime t)) k)
                   (targetMonth (MonthFromTime (LocalTime t)) k)
  /\ TimeWithinDay (clamped (LocalTime t) k) = TimeWithinDay (LocalTime t).
Proof.
  intros Ht Hk Hk0. rewrite clamped_eq.
  remember (LocalTime t) as tl eqn:Htl.
  remember (targetYear (YearFromTime tl) (MonthFromTime tl) k) as y' eqn:Hy'.
  remember (targetMonth (MonthFromTime tl) k) as mn' eqn:Hmn'.
  remember (MakeDayZ y' mn' (DaysInMonth y' mn') * msPerDay + TimeWithinDay tl)
    as last eqn:Hlast.
  intros Hclamp Hrep.
  assert (Hr : 0 <= mn' <= 11) by (rewrite Hmn'; apply targetMonth_range).
  pose proof (DaysInMonth_range y' mn') as Hdim.
  destruct (fields_of_MakeDayZ y' mn' (DaysInMonth y' mn') (TimeWithinDay tl)
              Hr ltac:(lia) (TimeWithinDay_range tl)) as (HY & HM & HD).
  destruct (Day_MakeDate (MakeDayZ y' mn' (DaysInMonth y' mn')) (TimeWithinDay tl)
              (TimeWithinDay_range tl)) as [_ Htw].
  cbv zeta in HY, HM, HD. rewrite <- Hlast in HY, HM, HD, Htw.
  split; [ | auto].
  exact (addMonths_clamp d amount t k tl y' mn' last Ht Hk Hk0
           Htl Hy' Hmn' Hlast Hclamp Hrep).
Qed.

Lemma keepsDay_year y mn dt tod local :
  0 <= mn <= 11 -> 1 <= dt <= DaysInMonth y mn -> 0 <= tod < msPerDay ->
  local = MakeDayZ y mn dt * msPerDay + tod ->
  keepsDay local ->
  Z.abs y < 300000.
Proof.
  intros Hm Hd Ht Hl Hk. apply keepsDay_bound in Hk.
  destruct (fields_of_MakeDayZ y mn dt tod Hm Hd Ht) as [HY _].
  cbv zeta in HY. rewrite <- Hl in HY.
  rewrite <- HY. now apply YearFromTime_bound.
Qed.

(** The clamping branch of [addMonths], when the last day of the target
    month is read back on its own day. *)
Lemma addMonths_clamp_day d amount t k tl y' mn' last :
  epoch d = Some t ->
  toInteger amount = Num.ofZ k ->
  k <> 0 ->
  tl = LocalTime t ->
  y' = targetYear (YearFromTime tl) (MonthFromTime tl) k ->
  mn' = targetMonth (MonthFromTime tl) k ->
  last = MakeDayZ y' mn' (DaysInMonth y' mn') * msPerDay + TimeWithinDay tl ->
  DaysInMonth y' mn' <= DateFromTime tl ->
  keepsDay last ->
  addMonths d amount = Return (mkDate (Some (UTC last)))
  /\ YearFromTime (LocalTime (UTC last)) = y'
  /\ MonthFromTime (LocalTime (UTC last)) = mn'
  /\ DateFromTime (LocalTime (UTC last)) = DaysInMonth y' mn'.
Proof.
  intros Ht Hk Hk0 Htl Hy'eq Hmn'eq Hlast Hclamp Hrep.
  pose proof (epoch_range _ _ Ht) as Hr.
  pose proof (MonthFromTime_range tl) as Hmn.
  pose proof (LocalTime_bound t Hr) as Hlb. rewrite <- Htl in Hlb.
  pose proof (YearFromTime_bound tl Hlb) as Hy.
  pose proof (TimeWithinDay_range tl) as Htod.
  pose proof (DateFromTime_range tl) as Hdom.
  pose proof (DaysInMonth_range y' mn') as Hdim.
  assert (Hmn' : 0 <= mn' <= 11).
  { rewrite Hmn'eq. unfold targetMonth.
    pose proof (Z.mod_pos_bound (MonthFromTime tl + k) 12). lia. }
  assert (Hy' : Z.abs y' < 300000).
  { apply (keepsDay_year y' mn' (DaysInMonth y' mn') (TimeWithinDay tl) last);
      [ exact Hmn' | lia | exact Htod | exact Hlast | exact Hrep ]. }
  assert (Hkb : Z.abs k < 16777216).
  { rewrite Hy'eq in Hy'. unfold targetYear in Hy'.
    revert Hy'. generalize (YearFromTime tl) (MonthFromTime tl) Hy Hmn.
    clear. intros. Z.to_euclidean_division_equations; lia. }
  destruct (keepsDay_fields y' mn' (DaysInMonth y' mn') (TimeWithinDay tl) last
              Hmn' ltac:(lia) Htod Hlast Hrep) as (_ & HY & HM & HD).
  split; [ | auto].
  unfold addMonths. run. rewrite (toDate_epoch d), Ht, Hk.
  rewrite isNaN_ofZ, not_ofZ by (try assumption; change (2 ^ 53) with 9007199254740992; lia).
  unfold getTime. cbn [DateValue]. rewrite (ofNumber_ofZ t Hr).
  unfold JSDate.getMonth, getDate. rewrite !localField_Some. rewrite <- Htl.
  rewrite !add_small by (change (2 ^ 52) with 4503599627370496; lia).
  rewrite (setMonth_Some t _ _ (MonthFromTime tl + k + 1) 0);
    [ | apply toZ_ofZ; change (2 ^ 53) with 9007199254740992; lia | reflexivity ].
  rewrite <- Htl. rewrite MakeDayZ_target.
  unfold targetYear, targetMonth in Hy'eq, Hmn'eq.
  rewrite <- Hy'eq, <- Hmn'eq, <- Hlast.
  rewrite (store_keepsDay _ Hrep).
  rewrite !localField_Some. rewrite HD.
  unfold Num.geb.
  rewrite leb_ofZ by (change (2 ^ 53) with 9007199254740992; lia).
  destruct (Z.leb_spec (DaysInMonth y' mn') (DateFromTime tl)); [reflexivity | lia].
Qed.

Lemma addMonths_clamp_day_fields d amount t k :
  epoch d = Some t ->
  toInteger amount = Num.ofZ k ->
  k <> 0 ->
  DaysInMonth (targetYear (YearFromTime (LocalTime t)) (MonthFromTime (LocalTime t)) k)
              (targetMonth (MonthFromTime (LocalTime t)) k)
    <= DateFromTime (LocalTime t) ->
  keepsDay (clamped (LocalTime t) k) ->
  addMonths d amount = Return (mkDate (Some (UTC (clamped (LocalTime t) k))))
  /\ YearFromTime (LocalTime (UTC (clamped (LocalTime t) k)))
     = targetYear (YearFromTime (LocalTime t)) (MonthFromTime (LocalTime t)) k
  /\ MonthFromTime (LocalTime (UTC (clamped (LocalTime t) k)))
     = targetMonth (MonthFromTime (LocalTime t)) k
  /\ DateFromTime (LocalTime (UTC (clamped (LocalTime t) k)))
     = DaysInMonth (targetYear (YearFromTime (LocalTime t)) (MonthFromTime (LocalTime t)) k)
                   (targetMonth (MonthFromTime (LocalTime t)) k).
Proof.
  intros Ht Hk Hk0. rewrite clamped_eq.
  remember (LocalTime t) as tl eqn:Htl.
  remember (targetYear (YearFromTime tl) (MonthFromTime tl) k) as y' eqn:Hy'.
  remember (targetMonth (MonthFromTime tl) k) as mn' eqn:Hmn'.
  remember (MakeDayZ y' mn' (DaysInMonth y' mn') * msPerDay + TimeWithinDay tl)
    as last eqn:Hlast.
  intros Hclamp Hrep.
  exact (addMonths_clamp_day d amount t k tl y' mn' last Ht Hk Hk0
           Htl Hy' Hmn' Hlast Hclamp Hrep).
Qed.

(** C1 (as amended) -- when the original day of the month does not
    exist in the target month, and the last day of the target month at
    the original time of day is within the range of a [Date] and reads
    back, in the host zone, on its own calendar day, [addMonths] returns
    that last day; so 31 January plus one month is 28 February, or
    29 February in a leap year. *)
Theorem addMonths_end_of_month :
  (forall (d : RawInput) (amount : DirtyNumber) (t k : Z),
      epoch d = Some t ->
      toInteger amount = Num.ofZ k ->
      k <> 0 ->
      let tl := LocalTime t in
      let y' := targetYear (YearFromTime tl) (MonthFromTime tl) k in
      let mn' := targetMonth (MonthFromTime tl) k in
      DaysInMonth y' mn' <= DateFromTime tl ->
      keepsDay (clamped tl k) ->
      exists r : Date,
        addMonths d amount = Return r
        /\ getFullYear r = Num.ofZ y'
        /\ JSDate.getMonth r = Num.ofZ mn'
        /\ getDate r = Num.ofZ (DaysInMonth y' mn'))
  /\ (forall (d : RawInput) (t : Z),
        epoch d = Some t ->
        let tl := LocalTime t in
        MonthFromTime tl = 0 ->
        DateFromTime tl = 31 ->
        keepsDay (clamped tl 1) ->
        exists r : Date,
          addMonths d (NNumber (Num.ofZ 1)) = Return r
          /\ getFullYear r = Num.ofZ (YearFromTime tl)
          /\ JSDate.getMonth r = Num.ofZ 1
          /\ getDate r =
             Num.ofZ (if DaysInYear (YearFromTime tl) =? 366 then 29 else 28)).
Proof.
  split.
  - intros d amount t k Ht Hk Hk0. cbv zeta. intros Hclamp Hrep.
    destruct (addMonths_clamp_day_fields d amount t k Ht Hk Hk0 Hclamp Hrep)
      as (Hadd & HY & HM & HD).
    exists (mkDate (Some (UTC (clamped (LocalTime t) k)))).
    unfold getFullYear, JSDate.getMonth, getDate.
    rewrite !localField_Some, HY, HM, HD.
    repeat split. exact Hadd.
  - intros d t Ht. cbv zeta. intros Hm Hd Hrep.
    assert (Hk : toInteger (NNumber (Num.ofZ 1)) = Num.ofZ 1)
      by (apply toInteger_ofZ; reflexivity).
    assert (Hclamp :
      DaysInMonth (targetYear (YearFromTime (LocalTime t)) (MonthFromTime (LocalTime t)) 1)
                  (targetMonth (MonthFromTime (LocalTime t)) 1)
        <= DateFromTime (LocalTime t))
      by (rewrite Hd; apply DaysInMonth_range).
    destruct (addMonths_clamp_day_fields d _ t 1 Ht Hk ltac:(discriminate) Hclamp Hrep)
      as (Hadd & HY & HM & HD).
    rewrite Hm in HY, HM, HD.
    assert (Hty : targetYear (YearFromTime (LocalTime t)) 0 1 = YearFromTime (LocalTime t))
      by (unfold targetYear; change ((0 + 1) / 12) with 0; lia).
    assert (Htm : targetMonth 0 1 = 1) by reflexivity.
    rewrite Hty, Htm in *.
    exists (mkDate (Some (UTC (clamped (LocalTime t) 1)))).
    unfold getFullYear, JSDate.getMonth, getDate.
    rewrite !localField_Some, HY, HM, HD.
    repeat split; [exact Hadd | ].
    unfold DaysInMonth, leapDays.
    destruct (DaysInYear_cases (YearFromTime (LocalTime t))) as [-> | ->]; reflexivity.
Qed.

(** C9 (as amended) -- when the original day of the month does not
    exist in the target month, and the last day of the target month at
    the original time of day exists on the wall clock of the host zone
    within the range of a [Date], the returned instant has the hour,
    minute, second and millisecond of the original one. *)
Theorem addMonths_clamp_keeps_time :
  forall (d : RawInput) (amount : DirtyNumber) (t k : Z),
    epoch d = Some t ->
    toInteger amount = Num.ofZ k ->
    k <> 0 ->
    let tl := LocalTime t in
    let y' := targetYear (YearFromTime tl) (MonthFromTime tl) k in
    let mn' := targetMonth (MonthFromTime tl) k in
    DaysInMonth y' mn' <= DateFromTime tl ->
    representable (clamped tl k) ->
    exists r : Date,
      addMonths d amount = Return r
      /\ getHours r = getHours (mkDate (Some t))
      /\ getMinutes r = getMinutes (mkDate (Some t))
      /\ getSeconds r = getSeconds (mkDate (Some t))
      /\ getMilliseconds r = getMilliseconds (mkDate (Some t)).
Proof.
  intros d amount t k Ht Hk Hk0. cbv zeta. intros Hclamp Hrep.
  destruct (addMonths_clamp_fields d amount t k Ht Hk Hk0 Hclamp Hrep)
    as (Hadd & _ & _ & _ & Htw).
  exists (mkDate (Some (UTC (clamped (LocalTime t) k)))).
  unfold getHours, getMinutes, getSeconds, getMilliseconds.
  rewrite !(localField_representable _ _ Hrep), !localField_Some.
  rewrite !HourFromTime_tod, !MinFromTime_tod, !SecFromTime_tod, !msFromTime_tod, Htw.
  repeat split. exact Hadd.
Qed.

End Months.

End Spec.

(* ================================================================== *)
(** ** Further properties of the functions

    What the code of each function shows beyond the specification: how
    the functions compose, what they do at the edges of their inputs, and
    what they never do. *)
(* ================================================================== *)

Module Laws.

Import JSDate DateFns Calendar NumFacts DivFacts WideFacts DateFacts Notions Spec Zones.

(** *** Conversion to a date, comparison, differences *)

Lemma epoch_safe x t : epoch x = Some t -> Z.abs t < 2 ^ 53.
Proof.
  intros H. apply epoch_range in H. apply maxTime_safe. unfold msPerDay. lia.
Qed.

(** X1 -- [toDate] is idempotent: converting the date it returns
    gives that date again, whatever the input was (a clone holds the time
    value of its original). *)
Theorem toDate_idempotent :
  forall x : RawInput, (d <- toDate x ;; toDate (VDate d)) = toDate x.
Proof.
  intros x. rewrite (toDate_epoch x). cbn [bind]. rewrite toDate_eq.
  destruct (epoch x) as [t | ] eqn:E; [ | reflexivity].
  unfold getTime. cbn [DateValue].
  now rewrite ofNumber_ofZ by (apply (epoch_range x); exact E).
Qed.

(** X2 -- an integral timestamp [t] is converted to the date with
    time value [t] when [|t| <= 8.64e15], and to the invalid date when it
    is larger; in the first case [getTime] gives the timestamp back. *)
Theorem toDate_timestamp :
  forall t : Z,
    Z.abs t < 2 ^ 53 ->
    toDate (VNumber (Num.ofZ t))
    = Return (if Z.abs t <=? maxTime then mkDate (Some t) else InvalidDate)
    /\ (Z.abs t <= maxTime ->
        (d <- toDate (VNumber (Num.ofZ t)) ;; Return (getTime d)) = Return (Num.ofZ t)).
Proof.
  intros t Ht.
  assert (H : toDate (VNumber (Num.ofZ t))
              = Return (if Z.abs t <=? maxTime then mkDate (Some t) else InvalidDate)).
  { rewrite toDate_eq. unfold ofNumber. rewrite toZ_ofZ by assumption.
    unfold TimeClip. destruct (Z.ltb_spec maxTime (Z.abs t)), (Z.leb_spec (Z.abs t) maxTime);
      try lia; reflexivity. }
  split; [exact H | ].
  intros Hr. rewrite H. destruct (Z.leb_spec (Z.abs t) maxTime); [reflexivity | lia].
Qed.

Lemma isBefore_eq a b :
  isBefore a b =
  Return (match epoch a, epoch b with
          | Some ta, Some tb => ta <? tb
          | _, _ => false
          end).
Proof.
  unfold isBefore. run. rewrite (toDate_epoch a), (toDate_epoch b).
  cbv beta iota. unfold getTime. cbn [DateValue].
  destruct (epoch a) as [ta | ] eqn:Ea, (epoch b) as [tb | ] eqn:Eb; try reflexivity.
  - now rewrite ltb_ofZ by (eapply epoch_safe; eassumption).
  - unfold Num.ltb, SFltb. now destruct (Num.ofZ ta).
Qed.

(** X3 -- [isBefore] compares the time values: it returns [true]
    exactly when both dates are valid and the first is strictly earlier;
    with an invalid date on either side it returns [false], and it never
    throws. *)
Theorem isBefore_compares :
  forall a b : RawInput,
    isBefore a b =
    Return (match epoch a, epoch b with
            | Some ta, Some tb => ta <? tb
            | _, _ => false
            end).
Proof. exact isBefore_eq. Qed.

(** X4 -- [isBefore] is a strict order: no date is before itself,
    two dates are never before each other, the relation is transitive, and
    of two valid dates with different time values one is before the
    other. *)
Theorem isBefore_strict_order :
  forall a b c : RawInput,
    isBefore a a = Return false
    /\ (isBefore a b = Return true -> isBefore b a = Return false)
    /\ (isBefore a b = Return true -> isBefore b c = Return true ->
        isBefore a c = Return true)
    /\ (forall ta tb, epoch a = Some ta -> epoch b = Some tb -> ta <> tb ->
        isBefore a b = Return true \/ isBefore b a = Return true).
Proof.
  intros a b c. rewrite !isBefore_eq.
  destruct (epoch a) as [ta | ], (epoch b) as [tb | ], (epoch c) as [tc | ];
    repeat split; try discriminate; intros;
    repeat match goal with
           | H : Return _ = Return _ |- _ => injection H as H
           | H : Some _ = Some _ |- _ => injection H as H; subst
           | H : (_ <? _) = true |- _ => apply Z.ltb_lt in H
           end;
    try (f_equal; first [apply Z.ltb_irrefl | apply Z.ltb_ge; lia | apply Z.ltb_lt; lia]).
  all: try discriminate.
  all: destruct (Z.lt_trichotomy ta0 tb0) as [ | [ | ]]; try lia;
    [left | right]; f_equal; apply Z.ltb_lt; lia.
Qed.

Lemma difference_wide ta tb :
  Z.abs ta <= maxTime -> Z.abs tb <= maxTime -> Z.abs (ta - tb) < 2 ^ 54.
Proof. unfold maxTime. change (2 ^ 54) with 18014398509481984. lia. Qed.

(** X5 -- for two valid dates [differenceInMilliseconds] returns
    the Number nearest to the exact difference of the time values, first
    minus second; the result is the exact difference when that is below
    [2^53] in absolute value. *)
Theorem differenceInMilliseconds_nearest :
  forall (a b : RawInput) (ta tb : Z),
    epoch a = Some ta -> epoch b = Some tb ->
    exists r : number,
      differenceInMilliseconds a b = Return r
      /\ r = Num.ofZ (ta - tb)
      /\ (Z.abs (ta - tb) < 2 ^ 53 -> Num.toZ r = Some (ta - tb)).
Proof.
  intros a b ta tb Ha Hb.
  exists (Num.ofZ (ta - tb)).
  split; [ | split; [reflexivity | apply toZ_ofZ]].
  rewrite differenceInMilliseconds_eq. unfold epochNumber. rewrite Ha, Hb.
  unfold getTime. cbn [DateValue].
  now rewrite sub_ofZ_rounded by (eapply epoch_safe; eassumption).
Qed.

(** X6 -- [isBefore a b] tests whether [differenceInMilliseconds a b]
    is negative, for all inputs, valid or not. *)
Theorem isBefore_negative_difference :
  forall a b : RawInput,
    (ms <- differenceInMilliseconds a b ;; Return (Num.ltb ms (Num.ofZ 0)))
    = isBefore a b.
Proof.
  intros a b. rewrite differenceInMilliseconds_eq, isBefore_eq. cbn [bind].
  f_equal. unfold epochNumber, getTime. cbn [DateValue].
  destruct (epoch a) as [ta | ] eqn:Ha, (epoch b) as [tb | ] eqn:Hb;
    try reflexivity.
  - rewrite sub_ofZ_rounded by (eapply epoch_safe; eassumption).
    rewrite ofZ_negative
      by (apply difference_wide; eapply epoch_range; eassumption).
    destruct (Z.ltb_spec (ta - tb) 0), (Z.ltb_spec ta tb); try reflexivity; lia.
  - now rewrite sub_NaN_r.
Qed.

Lemma isWithinInterval_eq d i :
  isWithinInterval d (Some i) =
  (if epoch_le (epoch (start i)) (epoch (end_ i))
   then Return (epoch_le (epoch (start i)) (epoch d)
                && epoch_le (epoch d) (epoch (end_ i)))
   else Throw (RangeError "Invalid interval")).
Proof.
  unfold isWithinInterval. run.
  rewrite (toDate_epoch d), (toDate_epoch (start i)), (toDate_epoch (end_ i)).
  unfold Num.geb.
  rewrite !(leb_epoch _ _ _ _ eq_refl eq_refl).
  now destruct (epoch_le (epoch (start i)) (epoch (end_ i))).
Qed.

(** X7 -- called with two arguments, [isWithinInterval] throws its
    RangeError when the interval passed is a falsy value such as [null]
    or [undefined] (it is read as the empty object), and when the start
    or the end of the interval is not a valid date, whatever the tested
    date. *)
Theorem isWithinInterval_rejects :
  forall (d : RawInput) (i : Interval),
    isWithinInterval d None = Throw (RangeError "Invalid interval")
    /\ (epoch (start i) = None \/ epoch (end_ i) = None ->
        isWithinInterval d (Some i) = Throw (RangeError "Invalid interval")).
Proof.
  intros d i. split.
  - unfold isWithinInterval. run. rewrite (toDate_epoch d). reflexivity.
  - intros H. rewrite isWithinInterval_eq.
    destruct H as [-> | ->]; [reflexivity | ].
    now destruct (epoch (start i)).
Qed.

(** X8 -- for a valid date and a valid interval,
    [isWithinInterval] says that the date is not before the start and
    that the end is not before the date, in terms of [isBefore]. *)
Theorem isWithinInterval_isBefore :
  forall (d : RawInput) (i : Interval) (t s e : Z),
    epoch d = Some t ->
    epoch (start i) = Some s ->
    epoch (end_ i) = Some e ->
    s <= e ->
    isWithinInterval d (Some i) =
    (before <- isBefore d (start i) ;;
     after <- isBefore (end_ i) d ;;
     Return (negb before && negb after)).
Proof.
  intros d i t s e Hd Hs He Hse.
  rewrite isWithinInterval_eq, !isBefore_eq, Hd, Hs, He. cbn [bind epoch_le].
  destruct (Z.leb_spec s e); [ | lia].
  f_equal. now rewrite !Z.leb_antisym.
Qed.

(** X9 -- an interval cut at an instant between its ends: a date
    is within the whole exactly when it is within one of the two parts
    (the cut belongs to both). *)
Theorem isWithinInterval_split :
  forall (d a m b : RawInput) (ta tm tb : Z),
    epoch a = Some ta -> epoch m = Some tm -> epoch b = Some tb ->
    ta <= tm <= tb ->
    exists w1 w2 : bool,
      isWithinInterval d (Some (mkInterval a m)) = Return w1
      /\ isWithinInterval d (Some (mkInterval m b)) = Return w2
      /\ isWithinInterval d (Some (mkInterval a b)) = Return (w1 || w2).
Proof.
  intros d a m b ta tm tb Ha Hm Hb Hord.
  rewrite !isWithinInterval_eq. cbn [start end_]. rewrite Ha, Hm, Hb.
  cbn [epoch_le].
  destruct (Z.leb_spec ta tm), (Z.leb_spec tm tb), (Z.leb_spec ta tb); try lia.
  do 2 eexists. repeat split.
  destruct (epoch d) as [t | ]; cbn [epoch_le andb orb]; [ | reflexivity].
  f_equal.
  destruct (Z.leb_spec ta t), (Z.leb_spec t tm), (Z.leb_spec tm t), (Z.leb_spec t tb);
    cbn [andb orb]; try reflexivity; lia.
Qed.

Lemma differenceInMinutes_quot a b ta tb :
  epoch a = Some ta -> epoch b = Some tb ->
  Z.abs (ta - tb) < 2 ^ 52 ->
  exists r : number,
    differenceInMinutes a b = Return r
    /\ Num.toZ r = Some (Z.quot (ta - tb) 60000).
Proof.
  intros Ha Hb Hd.
  pose proof (epoch_range _ _ Ha) as Hra. pose proof (epoch_range _ _ Hb) as Hrb.
  eexists. split; [apply differenceInMinutes_eq | ].
  unfold epochNumber. rewrite Ha, Hb. unfold getTime. cbn [DateValue].
  change (2 ^ 52) with 4503599627370496 in Hd.
  rewrite sub_ofZ
    by (change (2 ^ 53) with 9007199254740992; unfold maxTime in *; lia).
  apply toZ_trunc_div_minute. change (2 ^ 52) with 4503599627370496. exact Hd.
Qed.



(** *** The civil date of a time value *)

Lemma InLeapYear_leapDays t : InLeapYear t = leapDays (YearFromTime t).
Proof.
  unfold InLeapYear, leapDays.
  destruct (DaysInYear_cases (YearFromTime t)) as [-> | ->]; reflexivity.
Qed.

Lemma DayWithinYear_split t :
  DaysBeforeMonth (leapDays (YearFromTime t)) (MonthFromTime t) + DateFromTime t - 1
  = DayWithinYear t
  /\ 1 <= DateFromTime t <= DaysInMonth (YearFromTime t) (MonthFromTime t).
Proof.
  pose proof (DayWithinYear_range t) as Hd.
  pose proof (leapDays_cases (YearFromTime t)) as Hl.
  unfold DateFromTime, MonthFromTime, DaysInMonth.
  rewrite InLeapYear_leapDays in *.
  revert Hd Hl. generalize (DayWithinYear t) (leapDays (YearFromTime t)).
  intros d l Hd Hl.
  repeat match goal with
         | |- context [?a <? ?b] => destruct (Z.ltb_spec a b)
         end; tables; lia.
Qed.

Lemma civil_of_time t :
  MakeDayZ (YearFromTime t) (MonthFromTime t) (DateFromTime t) = Day t.
Proof.
  destruct (DayWithinYear_split t) as [H _].
  pose proof (MonthFromTime_range t) as Hm.
  unfold MakeDayZ. rewrite Z.mod_small, Z.div_small, Z.add_0_r by lia.
  unfold DayWithinYear in H. lia.
Qed.

Lemma wallClock_of_time t :
  t = wallClock (YearFromTime t) (MonthFromTime t) (DateFromTime t) (TimeWithinDay t).
Proof.
  unfold wallClock. rewrite civil_of_time.
  unfold Day, TimeWithinDay, msPerDay. Z.to_euclidean_division_equations; lia.
Qed.

Lemma wallClock_le y mn dt tod dt' tod' :
  dt <= dt' -> 0 <= tod < msPerDay -> 0 <= tod' < msPerDay ->
  (dt < dt' \/ tod <= tod') ->
  wallClock y mn dt tod <= wallClock y mn dt' tod'.
Proof. unfold wallClock, MakeDayZ, msPerDay. intros. lia. Qed.

Lemma DaysInMonth_year y y' mn : mn <> 1 -> DaysInMonth y mn = DaysInMonth y' mn.
Proof.
  intros H. unfold DaysInMonth.
  destruct mn as [ | p | p]; try reflexivity.
  do 4 (try destruct p as [p | p | ]); try reflexivity. congruence.
Qed.

Lemma leap_day_only y y' mn D :
  1 <= D <= DaysInMonth y mn ->
  Z.min D (DaysInMonth y' mn) = D
  \/ (mn = 1 /\ D = 29 /\ Z.min D (DaysInMonth y' mn) = 28).
Proof.
  intros H. destruct (Z.eq_dec mn 1) as [-> | E].
  - pose proof (leapDays_cases y). pose proof (leapDays_cases y').
    unfold DaysInMonth in *. lia.
  - rewrite (DaysInMonth_year y' y mn E). lia.
Qed.

Lemma whole_years y mn n :
  0 <= mn <= 11 -> targetYear y mn (12 * n) = y + n /\ targetMonth mn (12 * n) = mn.
Proof.
  intros H. unfold targetYear, targetMonth.
  split; Z.to_euclidean_division_equations; lia.
Qed.

Lemma target_back y mn k :
  0 <= mn <= 11 ->
  targetYear (targetYear y mn k) (targetMonth mn k) (- k) = y
  /\ targetMonth (targetMonth mn k) (- k) = mn.
Proof.
  intros H. unfold targetYear, targetMonth.
  split; Z.to_euclidean_division_equations; lia.
Qed.

Lemma target_target y mn j k :
  0 <= mn <= 11 ->
  targetYear (targetYear y mn j) (targetMonth mn j) k = targetYear y mn (j + k)
  /\ targetMonth (targetMonth mn j) k = targetMonth mn (j + k).
Proof.
  intros H. unfold targetYear, targetMonth.
  split; Z.to_euclidean_division_equations; lia.
Qed.

Lemma amount_bound y mn k :
  Z.abs y < 300000 -> 0 <= mn <= 11 -> Z.abs (targetYear y mn k) < 300000 ->
  Z.abs k < 16777216.
Proof.
  unfold targetYear. intros. Z.to_euclidean_division_equations; lia.
Qed.

Lemma next_month_day y mn :
  0 <= mn <= 11 ->
  MakeDayZ (targetYear y mn 1) (targetMonth mn 1) 1
  = MakeDayZ y mn (DaysInMonth y mn) + 1.
Proof.
  intros H. unfold targetYear, targetMonth.
  rewrite <- MakeDayZ_normal, <- MakeDayZ_day0 by assumption.
  unfold MakeDayZ. lia.
Qed.

Lemma endOfDay_range : 0 <= endOfDay < msPerDay.
Proof. vm_compute. split; congruence. Qed.

Lemma midnight_range : 0 <= 0 < msPerDay.
Proof. vm_compute. split; congruence. Qed.

Lemma WeekDay_range t : 0 <= WeekDay t <= 6.
Proof. unfold WeekDay. pose proof (Z.mod_pos_bound (Day t + 4) 7). lia. Qed.

(** *** Month and weekday of a date *)

Section Fields.
Context {tz : HostTimeZone}.

(** X12 -- on a valid date [getMonth] returns an integer from 0
    to 11 and [getDay] an integer from 0 to 6. *)
Theorem getMonth_getDay_range :
  forall (d : RawInput) (t : Z),
    epoch d = Some t ->
    exists m w : Z,
      DateFns.getMonth d = Return (Num.ofZ m) /\ 0 <= m <= 11
      /\ DateFns.getDay d = Return (Num.ofZ w) /\ 0 <= w <= 6.
Proof.
  intros d t Ht.
  exists (MonthFromTime (LocalTime t)), (WeekDay (LocalTime t)).
  unfold DateFns.getMonth, DateFns.getDay. run. rewrite (toDate_epoch d), Ht.
  repeat split; try apply MonthFromTime_range; apply WeekDay_range.
Qed.

(** X13 -- when the local time of a second date is [n] whole
    days after that of a first, its [getDay] is that of the first advanced
    by [n] modulo 7. *)
Theorem getDay_advances :
  forall (a b : RawInput) (ta tb n : Z),
    epoch a = Some ta -> epoch b = Some tb ->
    LocalTime tb = LocalTime ta + n * msPerDay ->
    exists w : Z,
      DateFns.getDay a = Return (Num.ofZ w) /\ 0 <= w <= 6
      /\ DateFns.getDay b = Return (Num.ofZ ((w + n) mod 7)).
Proof.
  intros a b ta tb n Ha Hb Hl.
  exists (WeekDay (LocalTime ta)).
  unfold DateFns.getDay. run. rewrite (toDate_epoch a), (toDate_epoch b), Ha, Hb.
  unfold JSDate.getDay. rewrite !localField_Some, Hl.
  repeat split; try apply WeekDay_range.
  do 2 f_equal. unfold WeekDay, Day, msPerDay.
  Z.to_euclidean_division_equations; lia.
Qed.

End Fields.

(** *** The boundaries of a month *)

Section MonthBoundaries.
Context {tz : HostTimeZone}.

(** The fields of the instant of a wall-clock time that exists. *)
Lemma fields_representable y mn dt tod local :
  0 <= mn <= 11 -> 1 <= dt <= DaysInMonth y mn -> 0 <= tod < msPerDay ->
  local = wallClock y mn dt tod ->
  representable local ->
  getFullYear (mkDate (Some (UTC local))) = Num.ofZ y
  /\ JSDate.getMonth (mkDate (Some (UTC local))) = Num.ofZ mn
  /\ getDate (mkDate (Some (UTC local))) = Num.ofZ dt
  /\ getHours (mkDate (Some (UTC local))) = Num.ofZ (tod / msPerHour)
  /\ getMinutes (mkDate (Some (UTC local))) = Num.ofZ ((tod / msPerMinute) mod 60)
  /\ getSeconds (mkDate (Some (UTC local))) = Num.ofZ ((tod / msPerSecond) mod 60)
  /\ getMilliseconds (mkDate (Some (UTC local))) = Num.ofZ (tod mod msPerSecond).
Proof.
  intros Hmn Hdt Htod Hl Hr.
  destruct (fields_of_MakeDayZ y mn dt tod Hmn Hdt Htod) as (HY & HM & HD).
  destruct (Day_MakeDate (MakeDayZ y mn dt) tod Htod) as [_ Htw].
  unfold wallClock in Hl. cbv zeta in HY, HM, HD. rewrite <- Hl in HY, HM, HD, Htw.
  unfold getFullYear, JSDate.getMonth, getDate, getHours, getMinutes,
    getSeconds, getMilliseconds.
  rewrite !(localField_representable _ _ Hr).
  rewrite HY, HM, HD.
  rewrite HourFromTime_tod, MinFromTime_tod, SecFromTime_tod, msFromTime_tod, Htw.
  repeat split; reflexivity.
Qed.

Lemma getDaysInMonth_at d t tl y mn e1 e2 :
  epoch d = Some t ->
  tl = LocalTime t -> y = YearFromTime tl -> mn = MonthFromTime tl ->
  e1 = wallClock y mn (DaysInMonth y mn) (TimeWithinDay (LocalTime 0)) ->
  e2 = wallClock y mn (DaysInMonth y mn) 0 ->
  representable e1 -> representable e2 ->
  getDaysInMonth d = Return (Num.ofZ (DaysInMonth y mn)).
Proof.
  intros Ht Htl Hy Hmn He1 He2 H1 H2.
  pose proof (epoch_range _ _ Ht) as Hr.
  pose proof (MonthFromTime_range tl) as Hmr. rewrite <- Hmn in Hmr.
  pose proof (LocalTime_bound t Hr) as Hlb. rewrite <- Htl in Hlb.
  pose proof (YearFromTime_bound tl Hlb) as Hyb. rewrite <- Hy in Hyb.
  pose proof (DaysInMonth_range y mn) as Hdim.
  assert (HD : Day e1 = MakeDayZ y mn (DaysInMonth y mn)).
  { rewrite He1. apply Day_MakeDate, TimeWithinDay_range. }
  assert (He2' : e2 = MakeDayZ y mn (DaysInMonth y mn) * msPerDay
                      + (0 * msPerHour + 0 * msPerMinute + 0 * msPerSecond + 0))
    by (rewrite He2; unfold wallClock; f_equal).
  destruct (fields_representable y mn (DaysInMonth y mn) 0 e2 Hmr ltac:(lia)
              ltac:(unfold msPerDay; lia) He2 H2) as (_ & _ & HDt & _).
  unfold wallClock in He1.
  unfold getDaysInMonth. run. rewrite (toDate_epoch d), Ht.
  unfold getFullYear, JSDate.getMonth. rewrite !localField_Some.
  rewrite <- Htl, <- Hy, <- Hmn.
  rewrite add_small by (change (2 ^ 52) with 4503599627370496; lia).
  rewrite (ofNumber_ofZ 0) by (vm_compute; congruence).
  rewrite (setFullYear_Some 0 _ _ _ y (mn + 1) 0);
    [ | apply toZ_small; lia | apply toZ_small; lia | reflexivity ].
  rewrite (MakeDayZ_day0 y mn Hmr), <- He1.
  rewrite (store_representable _ H1).
  rewrite (setHours_representable e1
             (Num.ofZ 0) (Num.ofZ 0) (Num.ofZ 0) (Num.ofZ 0) 0 0 0 0
             _ e2 H1 eq_refl eq_refl eq_refl eq_refl HD He2' H2).
  now rewrite HDt.
Qed.

(** X14 -- when the last day of the month of a valid date exists
    on the wall clock of the host zone (at midnight and at the time of
    day of the epoch) within the range of a [Date], [getDaysInMonth]
    returns the length of that month in the Gregorian calendar: 31 or 30
    days by the month, and for February 29 days in a leap year (a year
    divisible by 4, and not by 100 unless by 400) and 28 otherwise. *)
Theorem getDaysInMonth_calendar :
  forall (d : RawInput) (t : Z),
    epoch d = Some t ->
    let tl := LocalTime t in
    let y := YearFromTime tl in
    let mn := MonthFromTime tl in
    representable (wallClock y mn (DaysInMonth y mn) (TimeWithinDay (LocalTime 0))) ->
    representable (wallClock y mn (DaysInMonth y mn) 0) ->
    exists n : Z,
      getDaysInMonth d = Return (Num.ofZ n)
      /\ 28 <= n <= 31
      /\ (mn = 1 ->
          n = if (y mod 4 =? 0) && (negb (y mod 100 =? 0) || (y mod 400 =? 0))
              then 29 else 28)
      /\ (mn = 3 \/ mn = 5 \/ mn = 8 \/ mn = 10 -> n = 30)
      /\ (mn = 0 \/ mn = 2 \/ mn = 4 \/ mn = 6 \/ mn = 7 \/ mn = 9 \/ mn = 11 -> n = 31).
Proof.
  intros d t Ht. cbv zeta.
  remember (LocalTime t) as tl eqn:Htl.
  remember (YearFromTime tl) as y eqn:Hy.
  remember (MonthFromTime tl) as mn eqn:Hmn.
  remember (wallClock y mn (DaysInMonth y mn) (TimeWithinDay (LocalTime 0))) as e1 eqn:He1.
  remember (wallClock y mn (DaysInMonth y mn) 0) as e2 eqn:He2.
  intros H1 H2.
  exists (DaysInMonth y mn).
  split; [exact (getDaysInMonth_at d t tl y mn e1 e2 Ht Htl Hy Hmn He1 He2 H1 H2) | ].
  split; [apply DaysInMonth_range | ].
  clear. unfold DaysInMonth, leapDays, DaysInYear.
  repeat split; intros H.
  - subst mn.
    destruct (y mod 4 =? 0), (y mod 100 =? 0), (y mod 400 =? 0); reflexivity.
  - destruct H as [-> | [-> | [-> | ->]]]; reflexivity.
  - destruct H as [-> | [-> | [-> | [-> | [-> | [-> | ->]]]]]]; reflexivity.
Qed.

Lemma local_wallClock t tl y mn :
  tl = LocalTime t -> y = YearFromTime tl -> mn = MonthFromTime tl ->
  LocalTime t = wallClock y mn (DateFromTime tl) (TimeWithinDay tl).
Proof. intros Htl -> ->. rewrite <- Htl. apply wallClock_of_time. Qed.

Lemma startOfMonth_value d t tl y mn s1 s2 :
  epoch d = Some t ->
  tl = LocalTime t -> y = YearFromTime tl -> mn = MonthFromTime tl ->
  s1 = wallClock y mn 1 (TimeWithinDay tl) ->
  s2 = wallClock y mn 1 0 ->
  representable s1 -> representable s2 ->
  startOfMonth d = Return (mkDate (Some (UTC s2))).
Proof.
  intros Ht Htl Hy Hmn Hs1 Hs2 H1 H2.
  pose proof (MonthFromTime_range tl) as Hmr. rewrite <- Hmn in Hmr.
  destruct (DayWithinYear_split tl) as [_ Hdt]. rewrite <- Hy, <- Hmn in Hdt.
  exact (startOfMonth_at d t y mn (DateFromTime tl) (TimeWithinDay tl) s1 s2 Ht
           (local_wallClock t tl y mn Htl Hy Hmn) Hmr Hdt (TimeWithinDay_range tl)
           Hs1 Hs2 H1 H2).
Qed.

(** X15 -- when the first day of the month of a valid date
    exists on the wall clock of the host zone, at the time of day of the
    date and at midnight, [startOfMonth] returns the first day of that
    month of that year at 00:00:00.000. *)
Theorem startOfMonth_fields :
  forall (d : RawInput) (t : Z),
    epoch d = Some t ->
    let tl := LocalTime t in
    let y := YearFromTime tl in
    let mn := MonthFromTime tl in
    representable (wallClock y mn 1 (TimeWithinDay tl)) ->
    representable (wallClock y mn 1 0) ->
    exists r : Date,
      startOfMonth d = Return r
      /\ getFullYear r = Num.ofZ y
      /\ JSDate.getMonth r = Num.ofZ mn
      /\ getDate r = Num.ofZ 1
      /\ getHours r = Num.ofZ 0
      /\ getMinutes r = Num.ofZ 0
      /\ getSeconds r = Num.ofZ 0
      /\ getMilliseconds r = Num.ofZ 0.
Proof.
  intros d t Ht. cbv zeta.
  remember (LocalTime t) as tl eqn:Htl.
  remember (YearFromTime tl) as y eqn:Hy.
  remember (MonthFromTime tl) as mn eqn:Hmn.
  remember (wallClock y mn 1 (TimeWithinDay tl)) as s1 eqn:Hs1.
  remember (wallClock y mn 1 0) as s2 eqn:Hs2.
  intros H1 H2.
  pose proof (MonthFromTime_range tl) as Hmr. rewrite <- Hmn in Hmr.
  pose proof (DaysInMonth_range y mn) as Hdim.
  exists (mkDate (Some (UTC s2))).
  split; [exact (startOfMonth_value d t tl y mn s1 s2 Ht Htl Hy Hmn Hs1 Hs2 H1 H2) | ].
  exact (fields_representable y mn 1 0 s2 Hmr ltac:(lia) ltac:(unfold msPerDay; lia) Hs2 H2).
Qed.

(** X16 -- when the last day of the month of a valid date
    exists on the wall clock of the host zone, at the time of day of the
    date and at 23:59:59.999, [endOfMonth] returns the last day of that
    month of that year at 23:59:59.999. *)
Theorem endOfMonth_fields :
  forall (d : RawInput) (t : Z),
    epoch d = Some t ->
    let tl := LocalTime t in
    let y := YearFromTime tl in
    let mn := MonthFromTime tl in
    representable (wallClock y mn (DaysInMonth y mn) (TimeWithinDay tl)) ->
    representable (wallClock y mn (DaysInMonth y mn) endOfDay) ->
    exists r : Date,
      endOfMonth d = Return r
      /\ getFullYear r = Num.ofZ y
      /\ JSDate.getMonth r = Num.ofZ mn
      /\ getDate r = Num.ofZ (DaysInMonth y mn)
      /\ getHours r = Num.ofZ 23
      /\ getMinutes r = Num.ofZ 59
      /\ getSeconds r = Num.ofZ 59
      /\ getMilliseconds r = Num.ofZ 999.
Proof.
  intros d t Ht. cbv zeta.
  remember (LocalTime t) as tl eqn:Htl.
  remember (YearFromTime tl) as y eqn:Hy.
  remember (MonthFromTime tl) as mn eqn:Hmn.
  remember (wallClock y mn (DaysInMonth y mn) (TimeWithinDay tl)) as e1 eqn:He1.
  remember (wallClock y mn (DaysInMonth y mn) endOfDay) as e2 eqn:He2.
  intros H1 H2.
  pose proof (MonthFromTime_range tl) as Hmr. rewrite <- Hmn in Hmr.
  pose proof (DaysInMonth_range y mn) as Hdim.
  exists (mkDate (Some (UTC e2))).
  split; [exact (endOfMonth_at d t tl y mn e1 e2 Ht Htl Hy Hmn He1 He2 H1 H2) | ].
  exact (fields_representable y mn (DaysInMonth y mn) endOfDay e2 Hmr ltac:(lia)
           ltac:(vm_compute; split; congruence) He2 H2).
Qed.

Lemma epoch_representable local :
  representable local -> epoch (VDate (mkDate (Some (UTC local)))) = Some (UTC local).
Proof. intros [Hr _]. now apply epoch_VDate. Qed.

(** The start and the end of the month of a wall-clock time of that month. *)
Lemma startOfMonth_of_wallClock y mn dt tod local s1 s2 :
  0 <= mn <= 11 -> 1 <= dt <= DaysInMonth y mn -> 0 <= tod < msPerDay ->
  local = wallClock y mn dt tod ->
  s1 = wallClock y mn 1 tod ->
  s2 = wallClock y mn 1 0 ->
  representable local -> representable s1 -> representable s2 ->
  startOfMonth (VDate (mkDate (Some (UTC local)))) = Return (mkDate (Some (UTC s2))).
Proof.
  intros Hmn Hdt Htod Hl Hs1 Hs2 H0 H1 H2.
  apply (startOfMonth_at _ (UTC local) y mn dt tod s1 s2);
    [ now apply epoch_representable | rewrite <- Hl; apply H0
    | exact Hmn | exact Hdt | exact Htod | exact Hs1 | exact Hs2 | exact H1 | exact H2 ].
Qed.

Lemma endOfMonth_of_wallClock y mn dt tod local e1 e2 :
  0 <= mn <= 11 -> 1 <= dt <= DaysInMonth y mn -> 0 <= tod < msPerDay ->
  local = wallClock y mn dt tod ->
  e1 = wallClock y mn (DaysInMonth y mn) tod ->
  e2 = wallClock y mn (DaysInMonth y mn) endOfDay ->
  representable local -> representable e1 -> representable e2 ->
  endOfMonth (VDate (mkDate (Some (UTC local)))) = Return (mkDate (Some (UTC e2))).
Proof.
  intros Hmn Hdt Htod Hl He1 He2 H0 H1 H2.
  destruct (fields_of_MakeDayZ y mn dt tod Hmn Hdt Htod) as (HY & HM & _).
  destruct (Day_MakeDate (MakeDayZ y mn dt) tod Htod) as [_ Htw].
  unfold wallClock in Hl. cbv zeta in HY, HM. rewrite <- Hl in HY, HM, Htw.
  apply (endOfMonth_at _ (UTC local) local y mn e1 e2);
    [ now apply epoch_representable | symmetry; apply H0
    | now symmetry | now symmetry | now rewrite Htw | exact He2 | exact H1 | exact H2 ].
Qed.

(** X17 -- [startOfMonth] and [endOfMonth] are idempotent:
    applied to their own result they return it unchanged. *)
Theorem month_boundaries_idempotent :
  forall (d : RawInput) (t : Z),
    epoch d = Some t ->
    let tl := LocalTime t in
    let y := YearFromTime tl in
    let mn := MonthFromTime tl in
    (representable (wallClock y mn 1 (TimeWithinDay tl)) ->
     representable (wallClock y mn 1 0) ->
     (s <- startOfMonth d ;; startOfMonth (VDate s)) = startOfMonth d)
    /\ (representable (wallClock y mn (DaysInMonth y mn) (TimeWithinDay tl)) ->
        representable (wallClock y mn (DaysInMonth y mn) endOfDay) ->
        (e <- endOfMonth d ;; endOfMonth (VDate e)) = endOfMonth d).
Proof.
  intros d t Ht. cbv zeta.
  remember (LocalTime t) as tl eqn:Htl.
  remember (YearFromTime tl) as y eqn:Hy.
  remember (MonthFromTime tl) as mn eqn:Hmn.
  pose proof (MonthFromTime_range tl) as Hmr. rewrite <- Hmn in Hmr.
  pose proof (DaysInMonth_range y mn) as Hdim.
  split.
  - remember (wallClock y mn 1 (TimeWithinDay tl)) as s1 eqn:Hs1.
    remember (wallClock y mn 1 0) as s2 eqn:Hs2.
    intros H1 H2.
    rewrite (startOfMonth_value d t tl y mn s1 s2 Ht Htl Hy Hmn Hs1 Hs2 H1 H2).
    cbn [bind].
    exact (startOfMonth_of_wallClock y mn 1 0 s2 s2 s2 Hmr ltac:(lia) midnight_range
             Hs2 Hs2 Hs2 H2 H2 H2).
  - remember (wallClock y mn (DaysInMonth y mn) (TimeWithinDay tl)) as e1 eqn:He1.
    remember (wallClock y mn (DaysInMonth y mn) endOfDay) as e2 eqn:He2.
    intros H1 H2.
    rewrite (endOfMonth_at d t tl y mn e1 e2 Ht Htl Hy Hmn He1 He2 H1 H2).
    cbn [bind].
    exact (endOfMonth_of_wallClock y mn (DaysInMonth y mn) endOfDay e2 e2 e2 Hmr
             ltac:(lia) endOfDay_range He2 He2 He2 H2 H2 H2).
Qed.

(** X18 -- when six local times exist on the wall clock of the host
    zone within the range of a [Date] (the first day of the month of the
    date at the time of day of the date, at 00:00 and at 23:59:59.999,
    and the last day of that month at the same three times of day), the
    end of the month of the start of the month is the end of the month,
    and the start of the month of the end of the month is the start of
    the month. *)
Theorem month_boundaries_absorb :
  forall (d : RawInput) (t : Z),
    epoch d = Some t ->
    let tl := LocalTime t in
    let y := YearFromTime tl in
    let mn := MonthFromTime tl in
    representable (wallClock y mn 1 (TimeWithinDay tl)) ->
    representable (wallClock y mn 1 0) ->
    representable (wallClock y mn 1 endOfDay) ->
    representable (wallClock y mn (DaysInMonth y mn) (TimeWithinDay tl)) ->
    representable (wallClock y mn (DaysInMonth y mn) 0) ->
    representable (wallClock y mn (DaysInMonth y mn) endOfDay) ->
    (s <- startOfMonth d ;; endOfMonth (VDate s)) = endOfMonth d
    /\ (e <- endOfMonth d ;; startOfMonth (VDate e)) = startOfMonth d.
Proof.
  intros d t Ht. cbv zeta.
  remember (LocalTime t) as tl eqn:Htl.
  remember (YearFromTime tl) as y eqn:Hy.
  remember (MonthFromTime tl) as mn eqn:Hmn.
  remember (wallClock y mn 1 (TimeWithinDay tl)) as s1 eqn:Hs1.
  remember (wallClock y mn 1 0) as s2 eqn:Hs2.
  remember (wallClock y mn 1 endOfDay) as s3 eqn:Hs3.
  remember (wallClock y mn (DaysInMonth y mn) (TimeWithinDay tl)) as e1 eqn:He1.
  remember (wallClock y mn (DaysInMonth y mn) 0) as e0 eqn:He0.
  remember (wallClock y mn (DaysInMonth y mn) endOfDay) as e2 eqn:He2.
  intros H1 H2 H3 H4 H5 H6.
  pose proof (MonthFromTime_range tl) as Hmr. rewrite <- Hmn in Hmr.
  pose proof (DaysInMonth_range y mn) as Hdim.
  rewrite (startOfMonth_value d t tl y mn s1 s2 Ht Htl Hy Hmn Hs1 Hs2 H1 H2).
  rewrite (endOfMonth_at d t tl y mn e1 e2 Ht Htl Hy Hmn He1 He2 H4 H6).
  cbn [bind]. split.
  - exact (endOfMonth_of_wallClock y mn 1 0 s2 e0 e2 Hmr ltac:(lia) midnight_range
             Hs2 He0 He2 H2 H5 H6).
  - exact (startOfMonth_of_wallClock y mn (DaysInMonth y mn) endOfDay e2 s3 s2 Hmr
             ltac:(lia) endOfDay_range He2 Hs3 Hs2 H6 H3 H2).
Qed.

(** X19 -- [getDaysInMonth] of a date is the day of the month of
    its [endOfMonth]. *)
Theorem getDaysInMonth_endOfMonth :
  forall (d : RawInput) (t : Z),
    epoch d = Some t ->
    let tl := LocalTime t in
    let y := YearFromTime tl in
    let mn := MonthFromTime tl in
    representable (wallClock y mn (DaysInMonth y mn) (TimeWithinDay (LocalTime 0))) ->
    representable (wallClock y mn (DaysInMonth y mn) 0) ->
    representable (wallClock y mn (DaysInMonth y mn) (TimeWithinDay tl)) ->
    representable (wallClock y mn (DaysInMonth y mn) endOfDay) ->
    (e <- endOfMonth d ;; Return (getDate e)) = getDaysInMonth d.
Proof.
  intros d t Ht. cbv zeta.
  remember (LocalTime t) as tl eqn:Htl.
  remember (YearFromTime tl) as y eqn:Hy.
  remember (MonthFromTime tl) as mn eqn:Hmn.
  remember (wallClock y mn (DaysInMonth y mn) (TimeWithinDay (LocalTime 0))) as g1 eqn:Hg1.
  remember (wallClock y mn (DaysInMonth y mn) 0) as g2 eqn:Hg2.
  remember (wallClock y mn (DaysInMonth y mn) (TimeWithinDay tl)) as e1 eqn:He1.
  remember (wallClock y mn (DaysInMonth y mn) endOfDay) as e2 eqn:He2.
  intros H1 H2 H3 H4.
  pose proof (MonthFromTime_range tl) as Hmr. rewrite <- Hmn in Hmr.
  pose proof (DaysInMonth_range y mn) as Hdim.
  rewrite (getDaysInMonth_at d t tl y mn g1 g2 Ht Htl Hy Hmn Hg1 Hg2 H1 H2).
  rewrite (endOfMonth_at d t tl y mn e1 e2 Ht Htl Hy Hmn He1 He2 H3 H4).
  cbn [bind].
  destruct (fields_representable y mn (DaysInMonth y mn) endOfDay e2 Hmr ltac:(lia)
              endOfDay_range He2 H4) as (_ & _ & HD & _).
  now rewrite HD.
Qed.

End MonthBoundaries.

(** *** The integer coercion *)

Lemma trunc_ofZ z : Z.abs z < 2 ^ 53 -> Num.trunc (Num.ofZ z) = Num.ofZ z.
Proof.
  intros H. rewrite <- two_branch_trunc.
  rewrite floor_ofZ, ceil_ofZ by assumption. now destruct (Num.ltb _ _).
Qed.

Lemma trunc_idempotent x :
  valid_binary Num.prec Num.emax x = true -> Num.trunc (Num.trunc x) = Num.trunc x.
Proof.
  destruct x as [s | s | | s m e]; try reflexivity.
  intros Hv. apply valid_mantissa in Hv.
  cbn [Num.trunc]. destruct (Z.leb_spec 0 e) as [He | He].
  - cbn [Num.trunc]. destruct (Z.leb_spec 0 e); [reflexivity | lia].
  - pose proof (ipart_bound m e He) as Hi.
    destruct (Z.eq_dec (Num.ipart m e) 0) as [E | E].
    + rewrite E. destruct s; reflexivity.
    + assert (Hz : cond_Zopp s (Num.ipart m e) <> 0) by (destruct s; cbn; lia).
      rewrite normalize_ofZ by assumption.
      apply trunc_ofZ. destruct s; cbn [cond_Zopp]; lia.
Qed.

(** X20 -- [toInteger] is idempotent: its result is an integer
    (or NaN, or infinite), which [toInteger] returns unchanged.  A Number
    argument is a binary64 value. *)
Theorem toInteger_idempotent :
  forall a : DirtyNumber,
    match a with
    | NNumber x => valid_binary Num.prec Num.emax x = true
    | _ => True
    end ->
    toInteger (NNumber (toInteger a)) = toInteger a.
Proof.
  intros [x | b | | ] H; try reflexivity.
  rewrite !toInteger_number. now apply trunc_idempotent.
Qed.

(** *** Adding months *)

Section AddMonths.
Context {tz : HostTimeZone}.

(** X21 -- [addMonths] ignores the fraction of its amount:
    5.5 months are 5 months, -5.5 months are -5 months. *)
Theorem addMonths_ignores_fraction :
  forall (d : RawInput) (x : number),
    valid_binary Num.prec Num.emax x = true ->
    addMonths d (NNumber x) = addMonths d (NNumber (Num.trunc x)).
Proof.
  intros d x Hx. unfold addMonths.
  now rewrite !toInteger_number, trunc_idempotent.
Qed.

(** X22 -- [addMonths] returns the invalid date, for every
    date, when the amount is [null], a boolean, [undefined] or NaN (a
    [null] amount is not read as zero). *)
Theorem addMonths_not_a_number :
  forall d : RawInput,
    addMonths d NNull = Return InvalidDate
    /\ (forall b : bool, addMonths d (NBoolean b) = Return InvalidDate)
    /\ addMonths d NUndefined = Return InvalidDate
    /\ addMonths d (NNumber Num.NaN) = Return InvalidDate.
Proof.
  intros d. unfold addMonths. run. rewrite (toDate_epoch d).
  repeat split; intros; reflexivity.
Qed.

Lemma add_infinity x s :
  Num.isNaN x = false -> Num.isFinite x = true ->
  Num.add (Num.add x (S754_infinity s)) (Num.ofZ 1) = S754_infinity s.
Proof. destruct x as [ [ | ] | | | ]; try discriminate; destruct s; reflexivity. Qed.

Lemma ofZ_finite z : Z.abs z < 2 ^ 53 -> Num.isFinite (Num.ofZ z) = true.
Proof.
  intros H. destruct (Z.eq_dec z 0) as [-> | Hz]; [reflexivity | ].
  now rewrite ofZ_form.
Qed.

(** X23 -- [addMonths] returns the invalid date, for every
    date, when the amount is infinite. *)
Theorem addMonths_infinite :
  forall (d : RawInput) (s : bool),
    addMonths d (NNumber (S754_infinity s)) = Return InvalidDate.
Proof.
  intros d s. unfold addMonths. run. rewrite (toDate_epoch d).
  cbv beta iota. rewrite toInteger_number. cbn [Num.trunc Num.isNaN Num.not].
  destruct (epoch d) as [t | ] eqn:Ht; [ | reflexivity].
  pose proof (epoch_range _ _ Ht) as Hr.
  unfold getTime. cbn [DateValue]. rewrite (ofNumber_ofZ t Hr).
  unfold JSDate.getMonth, getFullYear. rewrite !localField_Some.
  pose proof (MonthFromTime_range (LocalTime t)) as Hm.
  rewrite add_infinity;
    [ | apply isNaN_ofZ; change (2 ^ 53) with 9007199254740992; lia
      | apply ofZ_finite; change (2 ^ 53) with 9007199254740992; lia ].
  assert (E : setMonth (mkDate (Some t)) (S754_infinity s) (Num.ofZ 0) = InvalidDate)
    by reflexivity.
  rewrite E.
  assert (G : Num.geb (getDate (mkDate (Some t))) (getDate InvalidDate) = false).
  { unfold Num.geb, Num.leb, SFleb. reflexivity. }
  rewrite G. reflexivity.
Qed.

(** The branch of [addMonths] that keeps the day of the month. *)
Lemma addMonths_keep d amount t k tl y' mn' last new :
  epoch d = Some t ->
  toInteger amount = Num.ofZ k ->
  k <> 0 ->
  tl = LocalTime t ->
  y' = targetYear (YearFromTime tl) (MonthFromTime tl) k ->
  mn' = targetMonth (MonthFromTime tl) k ->
  last = MakeDayZ y' mn' (DaysInMonth y' mn') * msPerDay + TimeWithinDay tl ->
  new = MakeDayZ y' mn' (DateFromTime tl) * msPerDay + TimeWithinDay tl ->
  DateFromTime tl < DaysInMonth y' mn' ->
  representable last ->
  representable new ->
  addMonths d amount = Return (mkDate (Some (UTC new))).
Proof.
  intros Ht Hk Hk0 Htl Hy'eq Hmn'eq Hlast Hnew Hkeep Hrep Hrepn.
  pose proof (epoch_range _ _ Ht) as Hr.
  pose proof (MonthFromTime_range tl) as Hmn.
  pose proof (LocalTime_bound t Hr) as Hlb. rewrite <- Htl in Hlb.
  pose proof (YearFromTime_bound tl Hlb) as Hy.
  pose proof (TimeWithinDay_range tl) as Htod.
  pose proof (DateFromTime_range tl) as Hdom.
  pose proof (DaysInMonth_range y' mn') as Hdim.
  assert (Hmn' : 0 <= mn' <= 11).
  { rewrite Hmn'eq. unfold targetMonth.
    pose proof (Z.mod_pos_bound (MonthFromTime tl + k) 12). lia. }
  assert (Hy' : Z.abs y' < 300000).
  { apply (target_year_bound y' mn' (DaysInMonth y' mn') (TimeWithinDay tl));
      [ exact Hmn' | lia | exact Htod | rewrite <- Hlast; exact Hrep ]. }
  assert (Hkb : Z.abs k < 16777216).
  { rewrite Hy'eq in Hy'. unfold targetYear in Hy'.
    revert Hy'. generalize (YearFromTime tl) (MonthFromTime tl) Hy Hmn.
    clear. intros. Z.to_euclidean_division_equations; lia. }
  destruct (fields_of_MakeDayZ y' mn' (DaysInMonth y' mn') (TimeWithinDay tl)
              Hmn' ltac:(lia) Htod) as (HY & HM & HD).
  cbv zeta in HY, HM, HD. rewrite <- Hlast in HY, HM, HD.
  unfold addMonths. run. rewrite (toDate_epoch d), Ht, Hk.
  rewrite isNaN_ofZ, not_ofZ by (try assumption; change (2 ^ 53) with 9007199254740992; lia).
  unfold getTime. cbn [DateValue]. rewrite (ofNumber_ofZ t Hr).
  unfold getFullYear, JSDate.getMonth, getDate. rewrite !localField_Some. rewrite <- Htl.
  rewrite !add_small by (change (2 ^ 52) with 4503599627370496; lia).
  rewrite (setMonth_Some t _ _ (MonthFromTime tl + k + 1) 0);
    [ | apply toZ_ofZ; change (2 ^ 53) with 9007199254740992; lia | reflexivity ].
  rewrite <- Htl. rewrite MakeDayZ_target.
  unfold targetYear, targetMonth in Hy'eq, Hmn'eq.
  rewrite <- Hy'eq, <- Hmn'eq, <- Hlast.
  rewrite (store_representable _ Hrep).
  rewrite !(localField_representable _ _ Hrep). rewrite HY, HM, HD.
  unfold Num.geb.
  rewrite leb_ofZ by (change (2 ^ 53) with 9007199254740992; lia).
  destruct (Z.leb_spec (DaysInMonth y' mn') (DateFromTime tl)); [lia | ].
  rewrite (setFullYear_Some t _ _ _ y' mn' (DateFromTime tl));
    [ | apply toZ_small; lia | apply toZ_small; lia | apply toZ_small; lia ].
  rewrite <- Htl, <- Hnew.
  now rewrite (store_representable _ Hrepn).
Qed.

(** The value of [addMonths]: the day of the month is kept when the target
    month has it, and is the last day of the target month otherwise. *)
Lemma addMonths_value d amount t k tl y' mn' last new :
  epoch d = Some t ->
  toInteger amount = Num.ofZ k ->
  k <> 0 ->
  tl = LocalTime t ->
  y' = targetYear (YearFromTime tl) (MonthFromTime tl) k ->
  mn' = targetMonth (MonthFromTime tl) k ->
  last = wallClock y' mn' (DaysInMonth y' mn') (TimeWithinDay tl) ->
  new = wallClock y' mn' (Z.min (DateFromTime tl) (DaysInMonth y' mn')) (TimeWithinDay tl) ->
  representable last ->
  representable new ->
  addMonths d amount = Return (mkDate (Some (UTC new))).
Proof.
  intros Ht Hk Hk0 Htl Hy' Hmn' Hlast Hnew Hrep Hrepn.
  unfold wallClock in Hlast, Hnew.
  destruct (Z.lt_ge_cases (DateFromTime tl) (DaysInMonth y' mn')) as [Hlt | Hge].
  - rewrite Z.min_l in Hnew by lia.
    exact (addMonths_keep d amount t k tl y' mn' last new Ht Hk Hk0 Htl Hy' Hmn'
             Hlast Hnew Hlt Hrep Hrepn).
  - rewrite Z.min_r in Hnew by lia.
    rewrite Hnew, <- Hlast.
    exact (addMonths_clamp d amount t k tl y' mn' last Ht Hk Hk0 Htl Hy' Hmn'
             Hlast Hge Hrep).
Qed.

Lemma addMonths_keep_fields d amount t k :
  epoch d = Some t ->
  toInteger amount = Num.ofZ k ->
  k <> 0 ->
  DateFromTime (LocalTime t)
    < DaysInMonth (targetYear (YearFromTime (LocalTime t)) (MonthFromTime (LocalTime t)) k)
                  (targetMonth (MonthFromTime (LocalTime t)) k) ->
  representable (clamped (LocalTime t) k) ->
  representable (wallClock (targetYear (YearFromTime (LocalTime t)) (MonthFromTime (LocalTime t)) k)
                           (targetMonth (MonthFromTime (LocalTime t)) k)
                           (DateFromTime (LocalTime t)) (TimeWithinDay (LocalTime t))) ->
  exists new : Z,
    addMonths d amount = Return (mkDate (Some (UTC new)))
    /\ representable new
    /\ YearFromTime new
       = targetYear (YearFromTime (LocalTime t)) (MonthFromTime (LocalTime t)) k
    /\ MonthFromTime new = targetMonth (MonthFromTime (LocalTime t)) k
    /\ DateFromTime new = DateFromTime (LocalTime t)
    /\ TimeWithinDay new = TimeWithinDay (LocalTime t).
Proof.
  intros Ht Hk Hk0. rewrite clamped_eq. unfold wallClock.
  remember (LocalTime t) as tl eqn:Htl.
  remember (targetYear (YearFromTime tl) (MonthFromTime tl) k) as y' eqn:Hy'.
  remember (targetMonth (MonthFromTime tl) k) as mn' eqn:Hmn'.
  remember (MakeDayZ y' mn' (DaysInMonth y' mn') * msPerDay + TimeWithinDay tl)
    as last eqn:Hlast.
  remember (MakeDayZ y' mn' (DateFromTime tl) * msPerDay + TimeWithinDay tl)
    as new eqn:Hnew.
  intros Hkeep Hrep Hrepn.
  assert (Hr : 0 <= mn' <= 11) by (rewrite Hmn'; apply targetMonth_range).
  pose proof (DateFromTime_range tl) as Hdom.
  destruct (fields_of_MakeDayZ y' mn' (DateFromTime tl) (TimeWithinDay tl)
              Hr ltac:(lia) (TimeWithinDay_range tl)) as (HY & HM & HD).
  destruct (Day_MakeDate (MakeDayZ y' mn' (DateFromTime tl)) (TimeWithinDay tl)
              (TimeWithinDay_range tl)) as [_ Htw].
  cbv zeta in HY, HM, HD. rewrite <- Hnew in HY, HM, HD, Htw.
  exists new. split; [ | auto].
  exact (addMonths_keep d amount t k tl y' mn' last new Ht Hk Hk0 Htl Hy' Hmn'
           Hlast Hnew Hkeep Hrep Hrepn).
Qed.

(** X24 -- when the target month has the day of the month of
    the date, and that day and the last day of the target month exist on
    the wall clock of the host zone at the time of day of the date,
    [addMonths] returns that day of the target month, at the same time of
    day. *)
Theorem addMonths_keeps_day :
  forall (d : RawInput) (amount : DirtyNumber) (t k : Z),
    epoch d = Some t ->
    toInteger amount = Num.ofZ k ->
    k <> 0 ->
    let tl := LocalTime t in
    let y' := targetYear (YearFromTime tl) (MonthFromTime tl) k in
    let mn' := targetMonth (MonthFromTime tl) k in
    DateFromTime tl < DaysInMonth y' mn' ->
    representable (clamped tl k) ->
    representable (wallClock y' mn' (DateFromTime tl) (TimeWithinDay tl)) ->
    exists r : Date,
      addMonths d amount = Return r
      /\ getFullYear r = Num.ofZ y'
      /\ JSDate.getMonth r = Num.ofZ mn'
      /\ getDate r = getDate (mkDate (Some t))
      /\ getHours r = getHours (mkDate (Some t))
      /\ getMinutes r = getMinutes (mkDate (Some t))
      /\ getSeconds r = getSeconds (mkDate (Some t))
      /\ getMilliseconds r = getMilliseconds (mkDate (Some t)).
Proof.
  intros d amount t k Ht Hk Hk0. cbv zeta. intros Hkeep Hrep Hrepn.
  destruct (addMonths_keep_fields d amount t k Ht Hk Hk0 Hkeep Hrep Hrepn)
    as (new & Hadd & Hnew & HY & HM & HD & Htw).
  exists (mkDate (Some (UTC new))).
  unfold getFullYear, JSDate.getMonth, getDate, getHours, getMinutes, getSeconds,
    getMilliseconds.
  rewrite !(localField_representable _ _ Hnew), !localField_Some, HY, HM, HD.
  rewrite !HourFromTime_tod, !MinFromTime_tod, !SecFromTime_tod, !msFromTime_tod, Htw.
  repeat split. exact Hadd.
Qed.

Lemma addMonths_back d t k tl y mn y' mn' dom tod last1 new1 last2 :
  epoch d = Some t ->
  k <> 0 ->
  tl = LocalTime t ->
  y = YearFromTime tl -> mn = MonthFromTime tl ->
  dom = DateFromTime tl -> tod = TimeWithinDay tl ->
  y' = targetYear y mn k -> mn' = targetMonth mn k ->
  UTC tl = t ->
  dom <= 28 ->
  last1 = wallClock y' mn' (DaysInMonth y' mn') tod ->
  new1 = wallClock y' mn' dom tod ->
  last2 = wallClock y mn (DaysInMonth y mn) tod ->
  representable last1 -> representable new1 -> representable last2 ->
  addMonths d (NNumber (Num.ofZ k)) = Return (mkDate (Some (UTC new1)))
  /\ addMonths (VDate (mkDate (Some (UTC new1)))) (NNumber (Num.ofZ (- k)))
     = Return (mkDate (Some t)).
Proof.
  intros Ht Hk0 Htl Hy Hmn Hdom Htod Hy' Hmn' Hutc H28 Hl1 Hn1 Hl2 R1 R2 R3.
  pose proof (epoch_range _ _ Ht) as Hr.
  pose proof (MonthFromTime_range tl) as Hmr. rewrite <- Hmn in Hmr.
  pose proof (LocalTime_bound t Hr) as Hlb. rewrite <- Htl in Hlb.
  pose proof (YearFromTime_bound tl Hlb) as Hyb. rewrite <- Hy in Hyb.
  pose proof (TimeWithinDay_range tl) as Htr. rewrite <- Htod in Htr.
  pose proof (DateFromTime_range tl) as Hdr. rewrite <- Hdom in Hdr.
  pose proof (DaysInMonth_range y' mn') as Hdim'.
  pose proof (DaysInMonth_range y mn) as Hdim.
  assert (Hmr' : 0 <= mn' <= 11) by (rewrite Hmn'; apply targetMonth_range).
  assert (Hyb' : Z.abs y' < 300000).
  { apply (target_year_bound y' mn' dom tod); try assumption; try lia.
    unfold wallClock in Hn1. now rewrite <- Hn1. }
  assert (Hkb : Z.abs k < 16777216)
    by (apply (amount_bound y mn k); try assumption; now rewrite <- Hy').
  assert (Hk : toInteger (NNumber (Num.ofZ k)) = Num.ofZ k)
    by (apply toInteger_ofZ; change (2 ^ 53) with 9007199254740992; lia).
  assert (Hk' : toInteger (NNumber (Num.ofZ (- k))) = Num.ofZ (- k))
    by (apply toInteger_ofZ; change (2 ^ 53) with 9007199254740992; lia).
  destruct (target_back y mn k Hmr) as [Hby Hbm]. rewrite <- Hy', <- Hmn' in Hby. rewrite <- Hmn' in Hbm.
  destruct (fields_of_MakeDayZ y' mn' dom tod Hmr' ltac:(lia) Htr) as (HY & HM & HD).
  destruct (Day_MakeDate (MakeDayZ y' mn' dom) tod Htr) as [_ Htw].
  cbv zeta in HY, HM, HD.
  assert (Hn1' : new1 = MakeDayZ y' mn' dom * msPerDay + tod) by exact Hn1.
  rewrite <- Hn1' in HY, HM, HD, Htw.
  split.
  - apply (addMonths_value d _ t k tl y' mn' last1 new1); try assumption.
    + now rewrite <- Hy, <- Hmn.
    + now rewrite <- Hmn.
    + now rewrite <- Htod.
    + rewrite <- Hdom, <- Htod, Z.min_l by lia. exact Hn1.
  - assert (Hrt : representable tl).
    { split; rewrite Hutc; [exact Hr | now symmetry]. }
    assert (Htl' : tl = wallClock y mn dom tod).
    { rewrite Hy, Hmn, Hdom, Htod. apply wallClock_of_time. }
    rewrite <- Hutc.
    apply (addMonths_value _ _ (UTC new1) (- k) new1 y mn last2 tl);
      try assumption.
    + now apply epoch_representable.
    + lia.
    + symmetry. apply R2.
    + now rewrite HY, HM.
    + now rewrite HM.
    + now rewrite Htw.
    + rewrite HD, Htw, Z.min_l by lia. exact Htl'.
Qed.

(** X25 -- adding [k] months and then [-k] months gives the date
    back, for a date on day 28 or earlier whose local time is not in a
    repeated hour, when the dates passed through exist on the wall clock
    of the host zone. *)
Theorem addMonths_round_trip :
  forall (d : RawInput) (t k : Z),
    epoch d = Some t ->
    k <> 0 ->
    let tl := LocalTime t in
    let y := YearFromTime tl in
    let mn := MonthFromTime tl in
    let y' := targetYear y mn k in
    let mn' := targetMonth mn k in
    UTC tl = t ->
    DateFromTime tl <= 28 ->
    representable (wallClock y' mn' (DaysInMonth y' mn') (TimeWithinDay tl)) ->
    representable (wallClock y' mn' (DateFromTime tl) (TimeWithinDay tl)) ->
    representable (wallClock y mn (DaysInMonth y mn) (TimeWithinDay tl)) ->
    (r <- addMonths d (NNumber (Num.ofZ k)) ;;
     addMonths (VDate r) (NNumber (Num.ofZ (- k))))
    = Return (mkDate (Some t)).
Proof.
  intros d t k Ht Hk0. cbv zeta.
  remember (LocalTime t) as tl eqn:Htl.
  remember (YearFromTime tl) as y eqn:Hy.
  remember (MonthFromTime tl) as mn eqn:Hmn.
  remember (DateFromTime tl) as dom eqn:Hdom.
  remember (TimeWithinDay tl) as tod eqn:Htod.
  remember (targetYear y mn k) as y' eqn:Hy'.
  remember (targetMonth mn k) as mn' eqn:Hmn'.
  remember (wallClock y' mn' (DaysInMonth y' mn') tod) as last1 eqn:Hl1.
  remember (wallClock y' mn' dom tod) as new1 eqn:Hn1.
  remember (wallClock y mn (DaysInMonth y mn) tod) as last2 eqn:Hl2.
  intros Hutc H28 R1 R2 R3.
  destruct (addMonths_back d t k tl y mn y' mn' dom tod last1 new1 last2
              Ht Hk0 Htl Hy Hmn Hdom Htod Hy' Hmn' Hutc H28 Hl1 Hn1 Hl2 R1 R2 R3)
    as [E1 E2].
  rewrite E1. cbn [bind]. exact E2.
Qed.

Lemma addMonths_years_at d t n tl y mn dom tod last new :
  epoch d = Some t ->
  n <> 0 ->
  tl = LocalTime t -> y = YearFromTime tl -> mn = MonthFromTime tl ->
  tod = TimeWithinDay tl ->
  dom = Z.min (DateFromTime tl) (DaysInMonth (y + n) mn) ->
  last = wallClock (y + n) mn (DaysInMonth (y + n) mn) tod ->
  new = wallClock (y + n) mn dom tod ->
  representable last -> representable new ->
  addMonths d (NNumber (Num.ofZ (12 * n))) = Return (mkDate (Some (UTC new)))
  /\ getFullYear (mkDate (Some (UTC new))) = Num.ofZ (y + n)
  /\ JSDate.getMonth (mkDate (Some (UTC new))) = Num.ofZ mn
  /\ getDate (mkDate (Some (UTC new))) = Num.ofZ dom.
Proof.
  intros Ht Hn Htl Hy Hmn Htod Hdom Hlast Hnew R1 R2.
  pose proof (epoch_range _ _ Ht) as Hr.
  pose proof (MonthFromTime_range tl) as Hmr. rewrite <- Hmn in Hmr.
  pose proof (LocalTime_bound t Hr) as Hlb. rewrite <- Htl in Hlb.
  pose proof (YearFromTime_bound tl Hlb) as Hyb. rewrite <- Hy in Hyb.
  pose proof (DateFromTime_range tl) as Hdr.
  pose proof (TimeWithinDay_range tl) as Htr. rewrite <- Htod in Htr.
  pose proof (DaysInMonth_range (y + n) mn) as Hdim.
  destruct (whole_years y mn n Hmr) as [Hty Htm].
  assert (Hyb' : Z.abs (y + n) < 300000).
  { apply (target_year_bound (y + n) mn (DaysInMonth (y + n) mn) tod);
      [ exact Hmr | lia | exact Htr | ].
    unfold wallClock in Hlast. now rewrite <- Hlast. }
  assert (Hk : toInteger (NNumber (Num.ofZ (12 * n))) = Num.ofZ (12 * n))
    by (apply toInteger_ofZ; change (2 ^ 53) with 9007199254740992; lia).
  assert (Hk0 : 12 * n <> 0) by lia.
  assert (E1 : y + n = targetYear (YearFromTime tl) (MonthFromTime tl) (12 * n))
    by (rewrite <- Hy, <- Hmn; symmetry; exact Hty).
  assert (E2 : mn = targetMonth (MonthFromTime tl) (12 * n))
    by (rewrite <- Hmn; symmetry; exact Htm).
  assert (E3 : last = wallClock (y + n) mn (DaysInMonth (y + n) mn) (TimeWithinDay tl))
    by (rewrite <- Htod; exact Hlast).
  assert (E4 : new = wallClock (y + n) mn
                       (Z.min (DateFromTime tl) (DaysInMonth (y + n) mn))
                       (TimeWithinDay tl))
    by (rewrite <- Htod, <- Hdom; exact Hnew).
  split.
  - exact (addMonths_value d (NNumber (Num.ofZ (12 * n))) t (12 * n) tl (y + n) mn
             last new Ht Hk Hk0 Htl E1 E2 E3 E4 R1 R2).
  - destruct (fields_representable (y + n) mn dom tod new Hmr
                ltac:(lia) Htr Hnew R2) as (HY & HM & HD & _).
    repeat split; assumption.
Qed.

(** X26 -- adding [12 * n] months moves a date by [n] years,
    within the same month, on the same day of the month; only 29 February
    moves to 28 February when the target year is not a leap year. *)
Theorem addMonths_whole_years :
  forall (d : RawInput) (t n : Z),
    epoch d = Some t ->
    n <> 0 ->
    let tl := LocalTime t in
    let y := YearFromTime tl in
    let mn := MonthFromTime tl in
    let dom := Z.min (DateFromTime tl) (DaysInMonth (y + n) mn) in
    representable (wallClock (y + n) mn (DaysInMonth (y + n) mn) (TimeWithinDay tl)) ->
    representable (wallClock (y + n) mn dom (TimeWithinDay tl)) ->
    exists r : Date,
      addMonths d (NNumber (Num.ofZ (12 * n))) = Return r
      /\ getFullYear r = Num.ofZ (y + n)
      /\ JSDate.getMonth r = Num.ofZ mn
      /\ getDate r = Num.ofZ dom
      /\ (dom = DateFromTime tl \/ (mn = 1 /\ DateFromTime tl = 29 /\ dom = 28)).
Proof.
  intros d t n Ht Hn. cbv zeta.
  remember (LocalTime t) as tl eqn:Htl.
  remember (YearFromTime tl) as y eqn:Hy.
  remember (MonthFromTime tl) as mn eqn:Hmn.
  remember (TimeWithinDay tl) as tod eqn:Htod.
  pose proof (leap_day_only y (y + n) mn (DateFromTime tl)) as Hleap.
  remember (Z.min (DateFromTime tl) (DaysInMonth (y + n) mn)) as dom eqn:Hdom.
  remember (wallClock (y + n) mn (DaysInMonth (y + n) mn) tod) as last eqn:Hlast.
  remember (wallClock (y + n) mn dom tod) as new eqn:Hnew.
  intros R1 R2.
  destruct (DayWithinYear_split tl) as [_ Hdle]. rewrite <- Hy, <- Hmn in Hdle.
  destruct (addMonths_years_at d t n tl y mn dom tod last new Ht Hn Htl Hy Hmn Htod
              Hdom Hlast Hnew R1 R2) as (E & HY & HM & HD).
  exists (mkDate (Some (UTC new))).
  split; [exact E | split; [exact HY | split; [exact HM | split; [exact HD | ]]]].
  exact (Hleap Hdle).
Qed.

Lemma addMonths_twice d t j k tl y mn dom tod y1 mn1 y2 mn2 last1 new1 last2 new2 :
  epoch d = Some t ->
  j <> 0 -> k <> 0 -> j + k <> 0 ->
  tl = LocalTime t ->
  y = YearFromTime tl -> mn = MonthFromTime tl ->
  dom = DateFromTime tl -> tod = TimeWithinDay tl ->
  y1 = targetYear y mn j -> mn1 = targetMonth mn j ->
  y2 = targetYear y mn (j + k) -> mn2 = targetMonth mn (j + k) ->
  dom <= 28 ->
  last1 = wallClock y1 mn1 (DaysInMonth y1 mn1) tod ->
  new1 = wallClock y1 mn1 dom tod ->
  last2 = wallClock y2 mn2 (DaysInMonth y2 mn2) tod ->
  new2 = wallClock y2 mn2 dom tod ->
  representable last1 -> representable new1 ->
  representable last2 -> representable new2 ->
  addMonths d (NNumber (Num.ofZ j)) = Return (mkDate (Some (UTC new1)))
  /\ addMonths (VDate (mkDate (Some (UTC new1)))) (NNumber (Num.ofZ k))
     = Return (mkDate (Some (UTC new2)))
  /\ addMonths d (NNumber (Num.ofZ (j + k))) = Return (mkDate (Some (UTC new2))).
Proof.
  intros Ht Hj0 Hk0 Hjk0 Htl Hy Hmn Hdom Htod Hy1 Hmn1 Hy2 Hmn2 H28
    Hl1 Hn1 Hl2 Hn2 R1 R2 R3 R4.
  pose proof (epoch_range _ _ Ht) as Hr.
  pose proof (MonthFromTime_range tl) as Hmr. rewrite <- Hmn in Hmr.
  pose proof (LocalTime_bound t Hr) as Hlb. rewrite <- Htl in Hlb.
  pose proof (YearFromTime_bound tl Hlb) as Hyb. rewrite <- Hy in Hyb.
  pose proof (TimeWithinDay_range tl) as Htr. rewrite <- Htod in Htr.
  pose proof (DateFromTime_range tl) as Hdr. rewrite <- Hdom in Hdr.
  pose proof (DaysInMonth_range y1 mn1) as Hdim1.
  pose proof (DaysInMonth_range y2 mn2) as Hdim2.
  assert (Hmr1 : 0 <= mn1 <= 11) by (rewrite Hmn1; apply targetMonth_range).
  assert (Hmr2 : 0 <= mn2 <= 11) by (rewrite Hmn2; apply targetMonth_range).
  assert (Hyb1 : Z.abs y1 < 300000).
  { apply (target_year_bound y1 mn1 dom tod); try assumption; try lia.
    unfold wallClock in Hn1. now rewrite <- Hn1. }
  assert (Hyb2 : Z.abs y2 < 300000).
  { apply (target_year_bound y2 mn2 dom tod); try assumption; try lia.
    unfold wallClock in Hn2. now rewrite <- Hn2. }
  assert (Hjb : Z.abs j < 16777216)
    by (apply (amount_bound y mn j); try assumption; now rewrite <- Hy1).
  assert (Hjkb : Z.abs (j + k) < 16777216)
    by (apply (amount_bound y mn (j + k)); try assumption; now rewrite <- Hy2).
  assert (Hj : toInteger (NNumber (Num.ofZ j)) = Num.ofZ j)
    by (apply toInteger_ofZ; change (2 ^ 53) with 9007199254740992; lia).
  assert (Hk : toInteger (NNumber (Num.ofZ k)) = Num.ofZ k)
    by (apply toInteger_ofZ; change (2 ^ 53) with 9007199254740992; lia).
  assert (Hjk : toInteger (NNumber (Num.ofZ (j + k))) = Num.ofZ (j + k))
    by (apply toInteger_ofZ; change (2 ^ 53) with 9007199254740992; lia).
  destruct (target_target y mn j k Hmr) as [Hty Htm].
  rewrite <- Hy1, <- Hmn1, <- Hy2 in Hty. rewrite <- Hmn1, <- Hmn2 in Htm.
  destruct (fields_of_MakeDayZ y1 mn1 dom tod Hmr1 ltac:(lia) Htr) as (HY & HM & HD).
  destruct (Day_MakeDate (MakeDayZ y1 mn1 dom) tod Htr) as [_ Htw].
  cbv zeta in HY, HM, HD.
  assert (Hn1' : new1 = MakeDayZ y1 mn1 dom * msPerDay + tod) by exact Hn1.
  rewrite <- Hn1' in HY, HM, HD, Htw.
  split; [ | split].
  - apply (addMonths_value d _ t j tl y1 mn1 last1 new1); try assumption.
    + now rewrite <- Hy, <- Hmn.
    + now rewrite <- Hmn.
    + now rewrite <- Htod.
    + rewrite <- Hdom, <- Htod, Z.min_l by lia. exact Hn1.
  - apply (addMonths_value _ _ (UTC new1) k new1 y2 mn2 last2 new2);
      try assumption.
    + now apply epoch_representable.
    + symmetry. apply R2.
    + now rewrite HY, HM.
    + now rewrite HM.
    + now rewrite Htw.
    + rewrite HD, Htw, Z.min_l by lia. exact Hn2.
  - apply (addMonths_value d _ t (j + k) tl y2 mn2 last2 new2); try assumption.
    + now rewrite <- Hy, <- Hmn.
    + now rewrite <- Hmn.
    + now rewrite <- Htod.
    + rewrite <- Hdom, <- Htod, Z.min_l by lia. exact Hn2.
Qed.

(** X27 -- adding [j] months and then [k] months is adding
    [j + k] months, for a date on day 28 or earlier, when the dates
    passed through exist on the wall clock of the host zone. *)
Theorem addMonths_composes :
  forall (d : RawInput) (t j k : Z),
    epoch d = Some t ->
    j <> 0 -> k <> 0 -> j + k <> 0 ->
    let tl := LocalTime t in
    let y := YearFromTime tl in
    let mn := MonthFromTime tl in
    let y1 := targetYear y mn j in
    let mn1 := targetMonth mn j in
    let y2 := targetYear y mn (j + k) in
    let mn2 := targetMonth mn (j + k) in
    DateFromTime tl <= 28 ->
    representable (wallClock y1 mn1 (DaysInMonth y1 mn1) (TimeWithinDay tl)) ->
    representable (wallClock y1 mn1 (DateFromTime tl) (TimeWithinDay tl)) ->
    representable (wallClock y2 mn2 (DaysInMonth y2 mn2) (TimeWithinDay tl)) ->
    representable (wallClock y2 mn2 (DateFromTime tl) (TimeWithinDay tl)) ->
    (r <- addMonths d (NNumber (Num.ofZ j)) ;;
     addMonths (VDate r) (NNumber (Num.ofZ k)))
    = addMonths d (NNumber (Num.ofZ (j + k))).
Proof.
  intros d t j k Ht Hj0 Hk0 Hjk0. cbv zeta.
  remember (LocalTime t) as tl eqn:Htl.
  remember (YearFromTime tl) as y eqn:Hy.
  remember (MonthFromTime tl) as mn eqn:Hmn.
  remember (DateFromTime tl) as dom eqn:Hdom.
  remember (TimeWithinDay tl) as tod eqn:Htod.
  remember (targetYear y mn j) as y1 eqn:Hy1.
  remember (targetMonth mn j) as mn1 eqn:Hmn1.
  remember (targetYear y mn (j + k)) as y2 eqn:Hy2.
  remember (targetMonth mn (j + k)) as mn2 eqn:Hmn2.
  remember (wallClock y1 mn1 (DaysInMonth y1 mn1) tod) as last1 eqn:Hl1.
  remember (wallClock y1 mn1 dom tod) as new1 eqn:Hn1.
  remember (wallClock y2 mn2 (DaysInMonth y2 mn2) tod) as last2 eqn:Hl2.
  remember (wallClock y2 mn2 dom tod) as new2 eqn:Hn2.
  intros H28 R1 R2 R3 R4.
  destruct (addMonths_twice d t j k tl y mn dom tod y1 mn1 y2 mn2 last1 new1 last2 new2
              Ht Hj0 Hk0 Hjk0 Htl Hy Hmn Hdom Htod Hy1 Hmn1 Hy2 Hmn2 H28
              Hl1 Hn1 Hl2 Hn2 R1 R2 R3 R4) as (E1 & E2 & E3).
  rewrite E1, E3. cbn [bind]. exact E2.
Qed.

End AddMonths.

(** *** Zones with a constant offset *)

Section FixedOffset.
Variable offset : Z.
Hypothesis offset_bound : Z.abs offset < msPerDay.

Lemma representable_fixed local :
  Z.abs (local - offset) <= maxTime ->
  representable (tz := fixedZone offset offset_bound) local
  /\ UTC (tz := fixedZone offset offset_bound) local = local - offset.
Proof.
  intros H. unfold representable, UTC, LocalTime. cbn [LocalTZA fixedZone].
  repeat split; lia.
Qed.

Lemma month_contains_date_at d t tl y mn s1 s2 e1 e2 :
  epoch d = Some t ->
  tl = t + offset -> y = YearFromTime tl -> mn = MonthFromTime tl ->
  s1 = wallClock y mn 1 (TimeWithinDay tl) ->
  s2 = wallClock y mn 1 0 ->
  e1 = wallClock y mn (DaysInMonth y mn) (TimeWithinDay tl) ->
  e2 = wallClock y mn (DaysInMonth y mn) endOfDay ->
  - maxTime <= s2 - offset ->
  e2 - offset <= maxTime ->
  startOfMonth (tz := fixedZone offset offset_bound) d
    = Return (mkDate (Some (s2 - offset)))
  /\ endOfMonth (tz := fixedZone offset offset_bound) d
    = Return (mkDate (Some (e2 - offset)))
  /\ s2 - offset <= t <= e2 - offset.
Proof.
  intros Ht Htl Hy Hmn Hs1 Hs2 He1 He2 Hlo Hhi.
  pose proof (epoch_range _ _ Ht) as Hr.
  pose proof (TimeWithinDay_range tl) as Htod.
  pose proof endOfDay_range as Hend. pose proof midnight_range as Hmid.
  pose proof (DateFromTime_range tl) as Hdr.
  destruct (DayWithinYear_split tl) as [_ Hdle]. rewrite <- Hy, <- Hmn in Hdle.
  assert (Htl' : tl = wallClock y mn (DateFromTime tl) (TimeWithinDay tl)).
  { rewrite Hy, Hmn. apply wallClock_of_time. }
  assert (O1 : s2 <= s1) by (rewrite Hs1, Hs2; apply wallClock_le; lia).
  pose proof (wallClock_le y mn 1 (TimeWithinDay tl) (DateFromTime tl) (TimeWithinDay tl)
                ltac:(lia) Htod Htod ltac:(lia)) as O2.
  rewrite <- Hs1, <- Htl' in O2.
  pose proof (wallClock_le y mn (DateFromTime tl) (TimeWithinDay tl) (DaysInMonth y mn)
                (TimeWithinDay tl) ltac:(lia) Htod Htod ltac:(lia)) as O3.
  rewrite <- He1, <- Htl' in O3.
  assert (O4 : e1 <= e2).
  { rewrite He1, He2. apply wallClock_le; try lia.
    right. unfold endOfDay, msPerDay, msPerHour, msPerMinute, msPerSecond in *. lia. }
  destruct (representable_fixed s1 ltac:(lia)) as [R1 _].
  destruct (representable_fixed s2 ltac:(lia)) as [R2 U2].
  destruct (representable_fixed e1 ltac:(lia)) as [R3 _].
  destruct (representable_fixed e2 ltac:(lia)) as [R4 U4].
  assert (Hloc : tl = LocalTime (tz := fixedZone offset offset_bound) t)
    by (rewrite Htl; reflexivity).
  rewrite <- U2, <- U4.
  split; [ | split].
  - exact (startOfMonth_value (tz := fixedZone offset offset_bound)
             d t tl y mn s1 s2 Ht Hloc Hy Hmn Hs1 Hs2 R1 R2).
  - exact (endOfMonth_at (tz := fixedZone offset offset_bound)
             d t tl y mn e1 e2 Ht Hloc Hy Hmn He1 He2 R3 R4).
  - rewrite U2, U4. lia.
Qed.

(** X28 -- in a zone with a constant offset, a valid date whose
    month is within the range of a [Date] lies within the interval from
    its [startOfMonth] to its [endOfMonth]. *)
Theorem month_contains_date :
  forall (d : RawInput) (t : Z),
    epoch d = Some t ->
    let y := YearFromTime (t + offset) in
    let mn := MonthFromTime (t + offset) in
    - maxTime <= wallClock y mn 1 0 - offset ->
    wallClock y mn (DaysInMonth y mn) endOfDay - offset <= maxTime ->
    exists s e : Date,
      startOfMonth (tz := fixedZone offset offset_bound) d = Return s
      /\ endOfMonth (tz := fixedZone offset offset_bound) d = Return e
      /\ isWithinInterval d (Some (mkInterval (VDate s) (VDate e))) = Return true.
Proof.
  intros d t Ht. cbv zeta.
  remember (t + offset) as tl eqn:Htl.
  remember (YearFromTime tl) as y eqn:Hy.
  remember (MonthFromTime tl) as mn eqn:Hmn.
  remember (wallClock y mn 1 0) as s2 eqn:Hs2.
  remember (wallClock y mn (DaysInMonth y mn) endOfDay) as e2 eqn:He2.
  intros Hlo Hhi.
  pose proof (epoch_range _ _ Ht) as Hr.
  destruct (month_contains_date_at d t tl y mn _ s2 _ e2 Ht Htl Hy Hmn eq_refl Hs2
              eq_refl He2 Hlo Hhi) as (Es & Ee & Hord).
  exists (mkDate (Some (s2 - offset))), (mkDate (Some (e2 - offset))).
  split; [exact Es | split; [exact Ee | ]].
  rewrite isWithinInterval_eq. cbn [start end_].
  rewrite Ht, !epoch_VDate by lia. cbn [epoch_le].
  destruct (Z.leb_spec (s2 - offset) (e2 - offset)), (Z.leb_spec (s2 - offset) t),
    (Z.leb_spec t (e2 - offset)); try lia. reflexivity.
Qed.

End FixedOffset.

Section Tiling.
Variable offset : Z.
Hypothesis offset_bound : Z.abs offset < msPerDay.

Lemma next_month_at d t tl y mn y' mn' tod dom e1 e2 last new s1 s2 :
  epoch d = Some t ->
  tl = t + offset -> y = YearFromTime tl -> mn = MonthFromTime tl ->
  tod = TimeWithinDay tl ->
  y' = targetYear y mn 1 -> mn' = targetMonth mn 1 ->
  dom = Z.min (DateFromTime tl) (DaysInMonth y' mn') ->
  e1 = wallClock y mn (DaysInMonth y mn) tod ->
  e2 = wallClock y mn (DaysInMonth y mn) endOfDay ->
  last = wallClock y' mn' (DaysInMonth y' mn') tod ->
  new = wallClock y' mn' dom tod ->
  s1 = wallClock y' mn' 1 tod ->
  s2 = wallClock y' mn' 1 0 ->
  wallClock y' mn' (DaysInMonth y' mn') endOfDay - offset <= maxTime ->
  endOfMonth (tz := fixedZone offset offset_bound) d
    = Return (mkDate (Some (e2 - offset)))
  /\ addMonths (tz := fixedZone offset offset_bound) d (NNumber (Num.ofZ 1))
    = Return (mkDate (Some (new - offset)))
  /\ startOfMonth (tz := fixedZone offset offset_bound)
       (VDate (mkDate (Some (new - offset))))
    = Return (mkDate (Some (s2 - offset)))
  /\ s2 = e2 + 1
  /\ Z.abs (e2 - offset) <= maxTime /\ Z.abs (s2 - offset) <= maxTime.
Proof.
  intros Ht Htl Hy Hmn Htod Hy' Hmn' Hdom He1 He2 Hlast Hnew Hs1 Hs2 Hhi.
  pose proof (epoch_range _ _ Ht) as Hr.
  pose proof (MonthFromTime_range tl) as Hmr. rewrite <- Hmn in Hmr.
  pose proof (TimeWithinDay_range tl) as Htr. rewrite <- Htod in Htr.
  pose proof endOfDay_range as Hend. pose proof midnight_range as Hmid.
  pose proof (DateFromTime_range tl) as Hdr.
  pose proof (DaysInMonth_range y mn) as Hdim.
  pose proof (DaysInMonth_range y' mn') as Hdim'.
  assert (Hmr' : 0 <= mn' <= 11) by (rewrite Hmn'; apply targetMonth_range).
  destruct (DayWithinYear_split tl) as [_ Hdle]. rewrite <- Hy, <- Hmn in Hdle.
  assert (Htl' : tl = wallClock y mn (DateFromTime tl) tod).
  { rewrite Hy, Hmn, Htod. apply wallClock_of_time. }
  pose proof (next_month_day y mn Hmr) as Hnext. rewrite <- Hy', <- Hmn' in Hnext.
  assert (Hend' : endOfDay = msPerDay - 1) by reflexivity.
  (* the order of the wall-clock times *)
  pose proof (wallClock_le y mn (DateFromTime tl) tod (DaysInMonth y mn) tod
                ltac:(lia) Htr Htr ltac:(lia)) as O1.
  rewrite <- Htl', <- He1 in O1.
  assert (O2 : e1 <= e2)
    by (rewrite He1, He2; apply wallClock_le; try lia; right; lia).
  assert (O3 : s2 = e2 + 1).
  { rewrite Hs2, He2. unfold wallClock. rewrite Hnext, Hend'. lia. }
  assert (O4 : s2 <= s1) by (rewrite Hs1, Hs2; apply wallClock_le; lia).
  assert (O5 : s1 <= new) by (rewrite Hs1, Hnew; apply wallClock_le; lia).
  assert (O6 : new <= last) by (rewrite Hnew, Hlast; apply wallClock_le; lia).
  assert (O7 : last <= wallClock y' mn' (DaysInMonth y' mn') endOfDay)
    by (rewrite Hlast; apply wallClock_le; lia).
  assert (Hlo : - maxTime <= tl - offset) by lia.
  destruct (representable_fixed offset offset_bound e1 ltac:(lia)) as [R1 _].
  destruct (representable_fixed offset offset_bound e2 ltac:(lia)) as [R2 U2].
  destruct (representable_fixed offset offset_bound last ltac:(lia)) as [R3 _].
  destruct (representable_fixed offset offset_bound new ltac:(lia)) as [R4 U4].
  destruct (representable_fixed offset offset_bound s1 ltac:(lia)) as [R5 _].
  destruct (representable_fixed offset offset_bound s2 ltac:(lia)) as [R6 U6].
  assert (Hloc : tl = LocalTime (tz := fixedZone offset offset_bound) t)
    by (rewrite Htl; reflexivity).
  assert (Hk : toInteger (NNumber (Num.ofZ 1)) = Num.ofZ 1) by reflexivity.
  assert (Hk0 : 1 <> 0) by discriminate.
  assert (E1 : y' = targetYear (YearFromTime tl) (MonthFromTime tl) 1)
    by (rewrite <- Hy, <- Hmn; exact Hy').
  assert (E2 : mn' = targetMonth (MonthFromTime tl) 1)
    by (rewrite <- Hmn; exact Hmn').
  assert (E3 : last = wallClock y' mn' (DaysInMonth y' mn') (TimeWithinDay tl))
    by (rewrite <- Htod; exact Hlast).
  assert (E4 : new = wallClock y' mn' (Z.min (DateFromTime tl) (DaysInMonth y' mn'))
                       (TimeWithinDay tl))
    by (rewrite <- Htod, <- Hdom; exact Hnew).
  assert (E5 : e1 = wallClock y mn (DaysInMonth y mn) (TimeWithinDay tl))
    by (rewrite <- Htod; exact He1).
  rewrite <- U2, <- U4, <- U6.
  split; [ | split; [ | split; [ | split; [exact O3 | rewrite U2, U6; lia]]]].
  - exact (endOfMonth_at (tz := fixedZone offset offset_bound)
             d t tl y mn e1 e2 Ht Hloc Hy Hmn E5 He2 R1 R2).
  - exact (addMonths_value (tz := fixedZone offset offset_bound)
             d (NNumber (Num.ofZ 1)) t 1 tl y' mn' last new Ht Hk Hk0 Hloc E1 E2 E3 E4
             R3 R4).
  - exact (startOfMonth_of_wallClock (tz := fixedZone offset offset_bound)
             y' mn' dom tod new s1 s2 Hmr' ltac:(lia) Htr Hnew Hs1 Hs2 R4 R5 R6).
Qed.

(** X29 -- in a zone with a constant offset, the month after
    begins one millisecond after the month of a date ends: the
    [startOfMonth] of [addMonths d 1] is [endOfMonth d] plus one
    millisecond. *)
Theorem months_tile :
  forall (d : RawInput) (t : Z),
    epoch d = Some t ->
    let y := YearFromTime (t + offset) in
    let mn := MonthFromTime (t + offset) in
    let y' := targetYear y mn 1 in
    let mn' := targetMonth mn 1 in
    wallClock y' mn' (DaysInMonth y' mn') endOfDay - offset <= maxTime ->
    exists e s : Date,
      endOfMonth (tz := fixedZone offset offset_bound) d = Return e
      /\ (next <- addMonths (tz := fixedZone offset offset_bound) d (NNumber (Num.ofZ 1)) ;;
          startOfMonth (tz := fixedZone offset offset_bound) (VDate next)) = Return s
      /\ differenceInMilliseconds (VDate s) (VDate e) = Return (Num.ofZ 1).
Proof.
  intros d t Ht. cbv zeta.
  remember (t + offset) as tl eqn:Htl.
  remember (YearFromTime tl) as y eqn:Hy.
  remember (MonthFromTime tl) as mn eqn:Hmn.
  remember (targetYear y mn 1) as y' eqn:Hy'.
  remember (targetMonth mn 1) as mn' eqn:Hmn'.
  intros Hhi.
  remember (wallClock y mn (DaysInMonth y mn) endOfDay) as e2 eqn:He2.
  remember (wallClock y' mn' 1 0) as s2 eqn:Hs2.
  destruct (next_month_at d t tl y mn y' mn' _ _ _ e2 _ _ _ s2
              Ht Htl Hy Hmn eq_refl Hy' Hmn' eq_refl eq_refl He2 eq_refl eq_refl
              eq_refl Hs2 Hhi) as (Ee & Ea & Es & Hnext & Re & Rs).
  exists (mkDate (Some (e2 - offset))), (mkDate (Some (s2 - offset))).
  split; [exact Ee | ].
  rewrite Ea. cbn [bind].
  split; [exact Es | ].
  rewrite differenceInMilliseconds_eq, !epochNumber_VDate by assumption.
  rewrite sub_ofZ_rounded by (apply maxTime_safe; unfold msPerDay; lia).
  do 2 f_equal. lia.
Qed.

End Tiling.

End Laws.

(* ================================================================== *)
(** ** The properties at concrete inputs *)
(* ================================================================== *)

Module Examples.

Import JSDate DateFns DateFacts Notions Spec Zones.

(** C1, counterexamples -- in UTC, 31 August 275760 is a valid date and
    September 275760 has 30 days, but 30 September 275760 is past the last
    instant a [Date] can hold: [addMonths] returns the invalid date.  On
    Kiritimati, which skipped 31 December 1994, 31 October 1994 at noon
    plus two months is 1 January 1995, outside the target month. *)
Lemma addMonths_end_of_month_counterexample :
  (epoch (instant 8639998876800000) = Some 8639998876800000
   /\ getFullYear (tz := UTCzone) (mkDate (Some 8639998876800000)) = Num.ofZ 275760
   /\ JSDate.getMonth (tz := UTCzone) (mkDate (Some 8639998876800000)) = Num.ofZ 7
   /\ getDate (tz := UTCzone) (mkDate (Some 8639998876800000)) = Num.ofZ 31
   /\ DaysInMonth (targetYear 275760 7 1) (targetMonth 7 1) = 30
   /\ addMonths (tz := UTCzone) (instant 8639998876800000) (NNumber (Num.ofZ 1))
      = Return InvalidDate
   /\ getDate (tz := UTCzone) InvalidDate = Num.NaN)
  /\ (epoch (instant 783640800000) = Some 783640800000
      /\ getFullYear (tz := KiritimatiZone) (mkDate (Some 783640800000)) = Num.ofZ 1994
      /\ JSDate.getMonth (tz := KiritimatiZone) (mkDate (Some 783640800000)) = Num.ofZ 9
      /\ getDate (tz := KiritimatiZone) (mkDate (Some 783640800000)) = Num.ofZ 31
      /\ targetYear 1994 9 2 = 1994
      /\ targetMonth 9 2 = 11
      /\ DaysInMonth (targetYear 1994 9 2) (targetMonth 9 2) = 31
      /\ addMonths (tz := KiritimatiZone) (instant 783640800000) (NNumber (Num.ofZ 2))
         = Return (mkDate (Some 788911200000))
      /\ getFullYear (tz := KiritimatiZone) (mkDate (Some 788911200000)) = Num.ofZ 1995
      /\ JSDate.getMonth (tz := KiritimatiZone) (mkDate (Some 788911200000)) = Num.ofZ 0
      /\ getDate (tz := KiritimatiZone) (mkDate (Some 788911200000)) = Num.ofZ 1
      /\ Num.ofZ 0 <> Num.ofZ 11).
Proof. vm_compute. repeat split. discriminate. Qed.

(** C1, witnesses: in central Europe, 31 January 2019 at 02:30 plus two
    months is 31 March 2019, although the start of summer time skips 02:30
    on that day; and 31 January 2015 at 07:00 UTC plus one month is
    28 February 2015. *)
Lemma addMonths_end_of_month_witness :
  (epoch (instant 1548898200000) = Some 1548898200000
   /\ toInteger (NNumber (Num.ofZ 2)) = Num.ofZ 2
   /\ 2 <> 0
   /\ DaysInMonth
        (targetYear (YearFromTime (LocalTime (tz := CETzone) 1548898200000))
                    (MonthFromTime (LocalTime (tz := CETzone) 1548898200000)) 2)
        (targetMonth (MonthFromTime (LocalTime (tz := CETzone) 1548898200000)) 2)
      <= DateFromTime (LocalTime (tz := CETzone) 1548898200000)
   /\ keepsDay (tz := CETzone) (clamped (LocalTime (tz := CETzone) 1548898200000) 2)
   /\ ~ representable (tz := CETzone)
          (clamped (LocalTime (tz := CETzone) 1548898200000) 2)
   /\ exists r : Date,
       addMonths (tz := CETzone) (instant 1548898200000) (NNumber (Num.ofZ 2)) = Return r
       /\ getFullYear (tz := CETzone) r = Num.ofZ 2019
       /\ JSDate.getMonth (tz := CETzone) r = Num.ofZ 2
       /\ getDate (tz := CETzone) r = Num.ofZ 31)
  /\ (epoch (instant 1422687600000) = Some 1422687600000
      /\ MonthFromTime (LocalTime (tz := UTCzone) 1422687600000) = 0
      /\ DateFromTime (LocalTime (tz := UTCzone) 1422687600000) = 31
      /\ keepsDay (tz := UTCzone) (clamped (LocalTime (tz := UTCzone) 1422687600000) 1)
      /\ exists r : Date,
          addMonths (tz := UTCzone) (instant 1422687600000) (NNumber (Num.ofZ 1)) = Return r
          /\ getFullYear (tz := UTCzone) r = Num.ofZ 2015
          /\ JSDate.getMonth (tz := UTCzone) r = Num.ofZ 1
          /\ getDate (tz := UTCzone) r = Num.ofZ 28).
Proof.
  assert (G1 : epoch (instant 1548898200000) = Some 1548898200000)
    by (vm_compute; reflexivity).
  assert (G2 : toInteger (NNumber (Num.ofZ 2)) = Num.ofZ 2) by (vm_compute; reflexivity).
  assert (G3 : 2 <> 0) by discriminate.
  assert (G4 : DaysInMonth
        (targetYear (YearFromTime (LocalTime (tz := CETzone) 1548898200000))
                    (MonthFromTime (LocalTime (tz := CETzone) 1548898200000)) 2)
        (targetMonth (MonthFromTime (LocalTime (tz := CETzone) 1548898200000)) 2)
      <= DateFromTime (LocalTime (tz := CETzone) 1548898200000))
    by (vm_compute; congruence).
  assert (G5 : keepsDay (tz := CETzone)
                 (clamped (LocalTime (tz := CETzone) 1548898200000) 2))
    by (vm_compute; split; congruence).
  assert (G6 : ~ representable (tz := CETzone)
                 (clamped (LocalTime (tz := CETzone) 1548898200000) 2))
    by (vm_compute; intros [_ H]; discriminate H).
  assert (H1 : epoch (instant 1422687600000) = Some 1422687600000)
    by (vm_compute; reflexivity).
  assert (H2 : MonthFromTime (LocalTime (tz := UTCzone) 1422687600000) = 0)
    by (vm_compute; reflexivity).
  assert (H3 : DateFromTime (LocalTime (tz := UTCzone) 1422687600000) = 31)
    by (vm_compute; reflexivity).
  assert (H4 : keepsDay (tz := UTCzone)
                 (clamped (LocalTime (tz := UTCzone) 1422687600000) 1))
    by (vm_compute; split; congruence).
  split.
  - repeat (split; [assumption | ]).
    exact (proj1 (addMonths_end_of_month (tz := CETzone))
             (instant 1548898200000) (NNumber (Num.ofZ 2)) 1548898200000 2
             G1 G2 G3 G4 G5).
  - repeat (split; [assumption | ]).
    exact (proj2 (addMonths_end_of_month (tz := UTCzone))
             (instant 1422687600000) 1422687600000 H1 H2 H3 H4).
Defined.

(** C2, witness: a half month is coerced to zero months. *)
Lemma addMonths_zero_witness :
  epoch (instant 1392118230000) = Some 1392118230000
  /\ Num.isZero (toInteger (NNumber (Num.div (Num.ofZ 1) (Num.ofZ 2)))) = true
  /\ addMonths (tz := UTCzone) (instant 1392118230000)
       (NNumber (Num.div (Num.ofZ 1) (Num.ofZ 2)))
     = Return (mkDate (Some 1392118230000)).
Proof.
  assert (H1 : epoch (instant 1392118230000) = Some 1392118230000)
    by (vm_compute; reflexivity).
  assert (H2 : Num.isZero (toInteger (NNumber (Num.div (Num.ofZ 1) (Num.ofZ 2)))) = true)
    by (vm_compute; reflexivity).
  repeat (split; [assumption | ]).
  exact (addMonths_zero (tz := UTCzone) _ _ _ H1 H2).
Defined.

(** C4, counterexample -- on 2 July 2014, 10:20:00 is 107 whole minutes
    before 12:07:59: the result is [-107], not [12]. *)
Lemma differenceInMinutes_counterexample :
  differenceInMinutes (clock 1404259200000 10 20 0) (clock 1404259200000 12 7 59)
    = Return (Num.ofZ (-107))
  /\ Num.ofZ (-107) <> Num.ofZ 12.
Proof. split; vm_compute; congruence. Qed.

(** C4, witness: 2 July 2014. *)
Lemma differenceInMinutes_same_day_witness :
  Z.abs 1404259200000 <= maxTime - msPerDay
  /\ differenceInMinutes (clock 1404259200000 12 20 0) (clock 1404259200000 12 7 59)
      = Return (Num.ofZ 12)
  /\ differenceInMinutes (clock 1404259200000 10 0 0) (clock 1404259200000 10 1 59)
      = Return (Num.ofZ (-1)).
Proof.
  assert (H : Z.abs 1404259200000 <= maxTime - msPerDay) by (vm_compute; congruence).
  split; [exact H | exact (differenceInMinutes_same_day 1404259200000 H)].
Defined.

(** C5, counterexample -- [Infinity] is not finite, and [toInteger]
    returns it unchanged, not NaN. *)
Lemma toInteger_counterexample :
  Num.isFinite (Number (NNumber Num.Infinity)) = false
  /\ toInteger (NNumber Num.Infinity) = Num.Infinity
  /\ Num.Infinity <> Num.NaN.
Proof. repeat split. discriminate. Qed.

(** C6, counterexamples -- the last and the second instant a [Date] can
    hold are 17279999999999999 ms apart, which is 287999999999 whole
    minutes; the subtraction rounds to 17280000000000000 and the function
    returns 288000000000.  The nearest such pair is 2^53 + 59007 ms
    apart. *)
Lemma differenceInMinutes_truncates_counterexample :
  (epoch (instant 8640000000000000) = Some 8640000000000000
   /\ epoch (instant (-8639999999999999)) = Some (-8639999999999999)
   /\ differenceInMinutes (instant 8640000000000000) (instant (-8639999999999999))
      = Return (Num.ofZ 288000000000)
   /\ Z.quot (8640000000000000 - -8639999999999999) 60000 = 287999999999
   /\ Num.ofZ 288000000000 <> Num.ofZ 287999999999)
  /\ (epoch (instant (-367199254799999)) = Some (-367199254799999)
      /\ 8640000000000000 - -367199254799999 = 2 ^ 53 + 59007
      /\ differenceInMinutes (instant 8640000000000000) (instant (-367199254799999))
         = Return (Num.ofZ 150119987580)
      /\ Z.quot (8640000000000000 - -367199254799999) 60000 = 150119987579
      /\ Num.ofZ 150119987580 <> Num.ofZ 150119987579).
Proof. vm_compute. repeat split; discriminate. Qed.

(** C6, witnesses: 12:07:59 and 12:20:00 on 2 July 2014; the last
    instant a [Date] can hold against 1 ms after the epoch, one
    millisecond short of 144000000000 minutes; and the last against the
    first instant a [Date] can hold, more than [2^53] but an even number
    of milliseconds apart. *)
Lemma differenceInMinutes_truncates_witness :
  (epoch (clock 1404259200000 12 7 59) = Some 1404302879000
   /\ epoch (clock 1404259200000 12 20 0) = Some 1404303600000
   /\ Z.abs (1404302879000 - 1404303600000) < 2 ^ 53
   /\ exists r : number,
       differenceInMinutes (clock 1404259200000 12 7 59) (clock 1404259200000 12 20 0)
         = Return r
       /\ Num.toZ r = Some (-12))
  /\ (epoch (instant 8640000000000000) = Some 8640000000000000
      /\ epoch (instant 1) = Some 1
      /\ Z.abs (8640000000000000 - 1) < 2 ^ 53
      /\ exists r : number,
          differenceInMinutes (instant 8640000000000000) (instant 1) = Return r
          /\ Num.toZ r = Some 143999999999)
  /\ (epoch (instant (-8640000000000000)) = Some (-8640000000000000)
      /\ 2 ^ 53 <= Z.abs (8640000000000000 - -8640000000000000)
      /\ (8640000000000000 - -8640000000000000) mod 2 = 0
      /\ exists r : number,
          differenceInMinutes (instant 8640000000000000) (instant (-8640000000000000))
            = Return r
          /\ Num.toZ r = Some 288000000000).
Proof.
  assert (H1 : epoch (clock 1404259200000 12 7 59) = Some 1404302879000)
    by (vm_compute; reflexivity).
  assert (H2 : epoch (clock 1404259200000 12 20 0) = Some 1404303600000)
    by (vm_compute; reflexivity).
  assert (H3 : Z.abs (1404302879000 - 1404303600000) < 2 ^ 53)
    by (vm_compute; reflexivity).
  assert (G1 : epoch (instant 8640000000000000) = Some 8640000000000000)
    by (vm_compute; reflexivity).
  assert (G2 : epoch (instant 1) = Some 1) by (vm_compute; reflexivity).
  assert (G3 : Z.abs (8640000000000000 - 1) < 2 ^ 53) by (vm_compute; reflexivity).
  assert (K2 : epoch (instant (-8640000000000000)) = Some (-8640000000000000))
    by (vm_compute; reflexivity).
  assert (K3 : 2 ^ 53 <= Z.abs (8640000000000000 - -8640000000000000))
    by (vm_compute; congruence).
  assert (K4 : (8640000000000000 - -8640000000000000) mod 2 = 0)
    by (vm_compute; reflexivity).
  split; [ | split].
  - repeat (split; [assumption | ]).
    exact (proj2 (proj2 differenceInMinutes_truncates) _ _ _ _ H1 H2 (or_introl H3)).
  - repeat (split; [assumption | ]).
    exact (proj2 (proj2 differenceInMinutes_truncates) _ _ _ _ G1 G2 (or_introl G3)).
  - repeat (split; [assumption | ]).
    exact (proj2 (proj2 differenceInMinutes_truncates) _ _ _ _ G1 K2 (or_intror K4)).
Defined.

(** C7, witness: a string, and a function of each kind applied to it. *)
Lemma invalid_propagates_witness :
  notDateNorNumber (VString "abc") = true
  /\ epoch (VString "abc") = None
  /\ toDate (VString "abc") = Return InvalidDate
  /\ differenceInMinutes (VString "abc") (instant 0) = Return Num.NaN
  /\ getDaysInMonth (tz := UTCzone) (VString "abc") = Return Num.NaN
  /\ endOfMonth (tz := UTCzone) (VString "abc") = Return InvalidDate
  /\ addMonths (tz := UTCzone) (VString "abc") (NNumber (Num.ofZ 1)) = Return InvalidDate.
Proof.
  assert (H1 : notDateNorNumber (VString "abc") = true) by reflexivity.
  assert (H2 : epoch (VString "abc") = None) by reflexivity.
  destruct (invalid_propagates (tz := UTCzone)
              (VString "abc") (instant 0) (NNumber (Num.ofZ 1))) as [Ha Hb].
  destruct (Hb H2) as (_ & _ & Hc & _ & _ & _ & Hd & _ & He & Hf).
  repeat split; auto.
Defined.

(** C8, counterexamples -- in UTC the last instant a [Date] can hold is
    13 September 275760, 00:00; the end of that month is out of range, so
    [endOfMonth] and then [startOfMonth] give the invalid date.  On
    Kiritimati, which skipped 31 December 1994, the end of December 1994 is
    read on 1 January 1995, and the result is the start of January 1995.
    In Paraguay, where summer time began at 00:00 on 1 October 2017, the
    result for a day of October 2017 is 1 October at 01:00. *)
Lemma startOfMonth_endOfMonth_counterexample :
  (epoch (instant 8640000000000000) = Some 8640000000000000
   /\ (e <- endOfMonth (tz := UTCzone) (instant 8640000000000000) ;;
       startOfMonth (tz := UTCzone) (VDate e)) = Return InvalidDate
   /\ getDate (tz := UTCzone) InvalidDate = Num.NaN
   /\ Num.NaN <> Num.ofZ 1)
  /\ (epoch (instant 787528800000) = Some 787528800000
      /\ getFullYear (tz := KiritimatiZone) (mkDate (Some 787528800000)) = Num.ofZ 1994
      /\ JSDate.getMonth (tz := KiritimatiZone) (mkDate (Some 787528800000)) = Num.ofZ 11
      /\ getDate (tz := KiritimatiZone) (mkDate (Some 787528800000)) = Num.ofZ 15
      /\ (e <- endOfMonth (tz := KiritimatiZone) (instant 787528800000) ;;
          startOfMonth (tz := KiritimatiZone) (VDate e))
         = Return (mkDate (Some 788868000000))
      /\ getFullYear (tz := KiritimatiZone) (mkDate (Some 788868000000)) = Num.ofZ 1995
      /\ JSDate.getMonth (tz := KiritimatiZone) (mkDate (Some 788868000000)) = Num.ofZ 0
      /\ Num.ofZ 1995 <> Num.ofZ 1994
      /\ Num.ofZ 0 <> Num.ofZ 11)
  /\ (epoch (instant 1508079600000) = Some 1508079600000
      /\ getFullYear (tz := AsuncionZone) (mkDate (Some 1508079600000)) = Num.ofZ 2017
      /\ JSDate.getMonth (tz := AsuncionZone) (mkDate (Some 1508079600000)) = Num.ofZ 9
      /\ getDate (tz := AsuncionZone) (mkDate (Some 1508079600000)) = Num.ofZ 15
      /\ (e <- endOfMonth (tz := AsuncionZone) (instant 1508079600000) ;;
          startOfMonth (tz := AsuncionZone) (VDate e))
         = Return (mkDate (Some 1506830400000))
      /\ JSDate.getMonth (tz := AsuncionZone) (mkDate (Some 1506830400000)) = Num.ofZ 9
      /\ getDate (tz := AsuncionZone) (mkDate (Some 1506830400000)) = Num.ofZ 1
      /\ getHours (tz := AsuncionZone) (mkDate (Some 1506830400000)) = Num.ofZ 1
      /\ Num.ofZ 1 <> Num.ofZ 0).
Proof. vm_compute. repeat split; discriminate. Qed.

(** C8, witnesses: in central Europe, 1 March 2019 at 02:30, a time of day
    that the start of summer time skips on the last day of the month; and
    11 February 2014, 11:30:30 UTC. *)
Lemma startOfMonth_endOfMonth_witness :
  (epoch (instant 1551403800000) = Some 1551403800000
   /\ getDate (tz := CETzone) (mkDate (Some 1551403800000)) = Num.ofZ 1
   /\ getHours (tz := CETzone) (mkDate (Some 1551403800000)) = Num.ofZ 2
   /\ getMinutes (tz := CETzone) (mkDate (Some 1551403800000)) = Num.ofZ 30
   /\ ~ representable (tz := CETzone)
          (wallClock 2019 2 31 (TimeWithinDay (LocalTime (tz := CETzone) 1551403800000)))
   /\ exists r : Date,
       (e <- endOfMonth (tz := CETzone) (instant 1551403800000) ;;
        startOfMonth (tz := CETzone) (VDate e)) = Return r
       /\ getFullYear (tz := CETzone) r = Num.ofZ 2019
       /\ JSDate.getMonth (tz := CETzone) r = Num.ofZ 2
       /\ getDate (tz := CETzone) r = Num.ofZ 1
       /\ getHours (tz := CETzone) r = Num.ofZ 0
       /\ getMinutes (tz := CETzone) r = Num.ofZ 0
       /\ getSeconds (tz := CETzone) r = Num.ofZ 0
       /\ getMilliseconds (tz := CETzone) r = Num.ofZ 0)
  /\ (epoch (instant 1392118230000) = Some 1392118230000
      /\ exists r : Date,
          (e <- endOfMonth (tz := UTCzone) (instant 1392118230000) ;;
           startOfMonth (tz := UTCzone) (VDate e)) = Return r
          /\ getFullYear (tz := UTCzone) r = Num.ofZ 2014
          /\ JSDate.getMonth (tz := UTCzone) r = Num.ofZ 1
          /\ getDate (tz := UTCzone) r = Num.ofZ 1
          /\ getHours (tz := UTCzone) r = Num.ofZ 0
          /\ getMinutes (tz := UTCzone) r = Num.ofZ 0
          /\ getSeconds (tz := UTCzone) r = Num.ofZ 0
          /\ getMilliseconds (tz := UTCzone) r = Num.ofZ 0).
Proof.
  assert (G : epoch (instant 1551403800000) = Some 1551403800000)
    by (vm_compute; reflexivity).
  assert (H : epoch (instant 1392118230000) = Some 1392118230000)
    by (vm_compute; reflexivity).
  split.
  - split; [exact G | ].
    do 3 (split; [vm_compute; reflexivity | ]).
    split; [vm_compute; intros [_ K]; discriminate K | ].
    apply (startOfMonth_endOfMonth (tz := CETzone) (instant 1551403800000) 1551403800000 G);
      vm_compute; split; congruence.
  - split; [exact H | ].
    apply (startOfMonth_endOfMonth (tz := UTCzone) (instant 1392118230000) 1392118230000 H);
      vm_compute; split; congruence.
Defined.

(** C9, counterexample -- in central Europe, 31 January 2019 at 02:30 plus
    two months is 31 March 2019 at 02:30, a local time the start of summer
    time skips: the instant returned reads 03:30. *)
Lemma addMonths_keeps_time_counterexample :
  epoch (instant 1548898200000) = Some 1548898200000
  /\ getDate (tz := CETzone) (mkDate (Some 1548898200000)) = Num.ofZ 31
  /\ getHours (tz := CETzone) (mkDate (Some 1548898200000)) = Num.ofZ 2
  /\ DaysInMonth (targetYear 2019 0 2) (targetMonth 0 2) = 31
  /\ exists r : Date,
      addMonths (tz := CETzone) (instant 1548898200000) (NNumber (Num.ofZ 2)) = Return r
      /\ getDate (tz := CETzone) r = Num.ofZ 31
      /\ getHours (tz := CETzone) r = Num.ofZ 3
      /\ Num.ofZ 3 <> Num.ofZ 2.
Proof.
  repeat (split; [vm_compute; reflexivity | ]).
  exists (mkDate (Some 1553995800000)).
  repeat split; vm_compute; congruence.
Qed.

(** C9, witness: 31 January 2015 at 07:00 UTC plus one month. *)
Lemma addMonths_clamp_keeps_time_witness :
  epoch (instant 1422687600000) = Some 1422687600000
  /\ toInteger (NNumber (Num.ofZ 1)) = Num.ofZ 1
  /\ exists r : Date,
      addMonths (tz := UTCzone) (instant 1422687600000) (NNumber (Num.ofZ 1)) = Return r
      /\ getHours (tz := UTCzone) r = Num.ofZ 7
      /\ getMinutes (tz := UTCzone) r = Num.ofZ 0
      /\ getSeconds (tz := UTCzone) r = Num.ofZ 0
      /\ getMilliseconds (tz := UTCzone) r = Num.ofZ 0.
Proof.
  assert (H1 : epoch (instant 1422687600000) = Some 1422687600000)
    by (vm_compute; reflexivity).
  assert (H2 : toInteger (NNumber (Num.ofZ 1)) = Num.ofZ 1) by (vm_compute; reflexivity).
  repeat (split; [assumption | ]).
  apply (addMonths_clamp_keeps_time (tz := UTCzone)
           (instant 1422687600000) (NNumber (Num.ofZ 1)) 1422687600000 1 H1 H2).
  - discriminate.
  - vm_compute. congruence.
  - vm_compute. split; congruence.
Defined.

(** C10, witness: a string tested against the first ten milliseconds. *)
Lemma isWithinInterval_invalid_date_witness :
  epoch (VString "soon") = None
  /\ isWithinInterval (VString "soon") (Some (mkInterval (instant 0) (instant 10)))
     = Return false.
Proof.
  split; [reflexivity | ].
  apply (isWithinInterval_invalid_date (VString "soon")
           (mkInterval (instant 0) (instant 10)) 0 10);
    vm_compute; congruence.
Defined.

End Examples.

(* ================================================================== *)
(** ** The further properties at concrete inputs *)
(* ================================================================== *)

Module Instances.

Import JSDate DateFns DateFacts Notions Zones Laws.

Ltac settle := vm_compute; first [reflexivity | congruence | split; congruence].

(** X2, witness: the timestamp of 11 February 2014, 11:30:30. *)
Lemma toDate_timestamp_witness :
  Z.abs 1392098430000 < 2 ^ 53
  /\ toDate (VNumber (Num.ofZ 1392098430000)) = Return (mkDate (Some 1392098430000))
  /\ (d <- toDate (VNumber (Num.ofZ 1392098430000)) ;; Return (getTime d))
     = Return (Num.ofZ 1392098430000).
Proof.
  assert (H : Z.abs 1392098430000 < 2 ^ 53) by reflexivity.
  destruct (toDate_timestamp 1392098430000 H) as [E1 E2].
  split; [exact H | split; [exact E1 | apply E2; settle]].
Defined.

(** X4, witness: 11 February 1987 is before 10 July 1989, and not the
    other way round. *)
Lemma isBefore_strict_order_witness :
  isBefore (instant 540000000000) (instant 616032000000) = Return true
  /\ isBefore (instant 616032000000) (instant 540000000000) = Return false.
Proof.
  assert (H : isBefore (instant 540000000000) (instant 616032000000) = Return true)
    by settle.
  destruct (isBefore_strict_order (instant 540000000000) (instant 616032000000)
              (instant 0)) as (_ & Hasym & _).
  split; [exact H | exact (Hasym H)].
Defined.

(** X5, witness: 2 July 2014, 12:30:21.700 and 12:30:20.600. *)
Lemma differenceInMilliseconds_nearest_witness :
  epoch (instant 1404304221700) = Some 1404304221700
  /\ epoch (instant 1404304220600) = Some 1404304220600
  /\ exists r : number,
      differenceInMilliseconds (instant 1404304221700) (instant 1404304220600) = Return r
      /\ r = Num.ofZ 1100
      /\ Num.toZ r = Some 1100.
Proof.
  assert (H1 : epoch (instant 1404304221700) = Some 1404304221700) by settle.
  assert (H2 : epoch (instant 1404304220600) = Some 1404304220600) by settle.
  destruct (differenceInMilliseconds_nearest _ _ _ _ H1 H2) as (r & E & Er & Ez).
  split; [exact H1 | split; [exact H2 | ]].
  exists r. split; [exact E | split; [exact Er | exact (Ez eq_refl)]].
Defined.

(** X7, witness: an interval whose start is undefined. *)
Lemma isWithinInterval_rejects_witness :
  epoch (start (mkInterval VOther (instant 10))) = None
  /\ isWithinInterval (instant 0) (Some (mkInterval VOther (instant 10)))
     = Throw (RangeError "Invalid interval").
Proof.
  assert (H : epoch (start (mkInterval VOther (instant 10))) = None) by reflexivity.
  split; [exact H | ].
  exact (proj2 (isWithinInterval_rejects (instant 0) (mkInterval VOther (instant 10)))
           (or_introl H)).
Defined.

(** X8, witness: 3 January 2014 within 1 to 7 January 2014. *)
Lemma isWithinInterval_isBefore_witness :
  epoch (instant 1388707200000) = Some 1388707200000
  /\ 1388534400000 <= 1389052800000
  /\ isWithinInterval (instant 1388707200000)
       (Some (mkInterval (instant 1388534400000) (instant 1389052800000)))
     = (before <- isBefore (instant 1388707200000) (instant 1388534400000) ;;
        after <- isBefore (instant 1389052800000) (instant 1388707200000) ;;
        Return (negb before && negb after)).
Proof.
  assert (H1 : epoch (instant 1388707200000) = Some 1388707200000) by settle.
  assert (H2 : epoch (instant 1388534400000) = Some 1388534400000) by settle.
  assert (H3 : epoch (instant 1389052800000) = Some 1389052800000) by settle.
  assert (H4 : 1388534400000 <= 1389052800000) by settle.
  split; [exact H1 | split; [exact H4 | ]].
  exact (isWithinInterval_isBefore (instant 1388707200000)
           (mkInterval (instant 1388534400000) (instant 1389052800000))
           _ _ _ H1 H2 H3 H4).
Defined.

(** X9, witness: 1 to 10 January 2014, split at 7 January. *)
Lemma isWithinInterval_split_witness :
  1388534400000 <= 1389052800000 <= 1389312000000
  /\ exists w1 w2 : bool,
      isWithinInterval (instant 1388707200000)
        (Some (mkInterval (instant 1388534400000) (instant 1389052800000))) = Return w1
      /\ isWithinInterval (instant 1388707200000)
           (Some (mkInterval (instant 1389052800000) (instant 1389312000000))) = Return w2
      /\ isWithinInterval (instant 1388707200000)
           (Some (mkInterval (instant 1388534400000) (instant 1389312000000)))
         = Return (w1 || w2).
Proof.
  assert (H1 : epoch (instant 1388534400000) = Some 1388534400000) by settle.
  assert (H2 : epoch (instant 1389052800000) = Some 1389052800000) by settle.
  assert (H3 : epoch (instant 1389312000000) = Some 1389312000000) by settle.
  assert (H4 : 1388534400000 <= 1389052800000 <= 1389312000000) by settle.
  split; [exact H4 | ].
  exact (isWithinInterval_split (instant 1388707200000) _ _ _ _ _ _ H1 H2 H3 H4).
Defined.



(** X12, witness: 29 February 2012. *)
Lemma getMonth_getDay_range_witness :
  epoch (instant 1330473600000) = Some 1330473600000
  /\ exists m w : Z,
      DateFns.getMonth (tz := UTCzone) (instant 1330473600000) = Return (Num.ofZ m)
      /\ 0 <= m <= 11
      /\ DateFns.getDay (tz := UTCzone) (instant 1330473600000) = Return (Num.ofZ w)
      /\ 0 <= w <= 6.
Proof.
  assert (H : epoch (instant 1330473600000) = Some 1330473600000) by settle.
  split; [exact H | ].
  exact (getMonth_getDay_range (tz := UTCzone) _ _ H).
Defined.

(** X13, witness: 29 February 2012, a Wednesday, and the day after. *)
Lemma getDay_advances_witness :
  LocalTime (tz := UTCzone) 1330560000000
  = LocalTime (tz := UTCzone) 1330473600000 + 1 * msPerDay
  /\ exists w : Z,
      DateFns.getDay (tz := UTCzone) (instant 1330473600000) = Return (Num.ofZ w)
      /\ 0 <= w <= 6
      /\ DateFns.getDay (tz := UTCzone) (instant 1330560000000)
         = Return (Num.ofZ ((w + 1) mod 7)).
Proof.
  assert (H1 : epoch (instant 1330473600000) = Some 1330473600000) by settle.
  assert (H2 : epoch (instant 1330560000000) = Some 1330560000000) by settle.
  assert (H3 : LocalTime (tz := UTCzone) 1330560000000
               = LocalTime (tz := UTCzone) 1330473600000 + 1 * msPerDay) by reflexivity.
  split; [exact H3 | ].
  exact (getDay_advances (tz := UTCzone) _ _ _ _ 1 H1 H2 H3).
Defined.

(** X14, witness: February 2000 has 29 days. *)
Lemma getDaysInMonth_calendar_witness :
  epoch (instant 949363200000) = Some 949363200000
  /\ exists n : Z,
      getDaysInMonth (tz := UTCzone) (instant 949363200000) = Return (Num.ofZ n)
      /\ n = 29.
Proof.
  assert (H : epoch (instant 949363200000) = Some 949363200000) by settle.
  split; [exact H | ].
  destruct (getDaysInMonth_calendar (tz := UTCzone) (instant 949363200000) 949363200000 H)
    as (n & E & _ & Hfeb & _); [settle | settle | ].
  exists n. split; [exact E | exact (Hfeb eq_refl)].
Defined.

(** X15, witness: the start of the month of 2 September 2014, 11:55:00. *)
Lemma startOfMonth_fields_witness :
  epoch (instant 1409658900000) = Some 1409658900000
  /\ exists r : Date,
      startOfMonth (tz := UTCzone) (instant 1409658900000) = Return r
      /\ getFullYear (tz := UTCzone) r = Num.ofZ 2014
      /\ JSDate.getMonth (tz := UTCzone) r = Num.ofZ 8
      /\ getDate (tz := UTCzone) r = Num.ofZ 1
      /\ getHours (tz := UTCzone) r = Num.ofZ 0
      /\ getMinutes (tz := UTCzone) r = Num.ofZ 0
      /\ getSeconds (tz := UTCzone) r = Num.ofZ 0
      /\ getMilliseconds (tz := UTCzone) r = Num.ofZ 0.
Proof.
  assert (H : epoch (instant 1409658900000) = Some 1409658900000) by settle.
  split; [exact H | ].
  apply (startOfMonth_fields (tz := UTCzone) (instant 1409658900000) 1409658900000 H);
    settle.
Defined.

(** X16, witness: the end of the month of 2 September 2014, 11:55:00. *)
Lemma endOfMonth_fields_witness :
  epoch (instant 1409658900000) = Some 1409658900000
  /\ exists r : Date,
      endOfMonth (tz := UTCzone) (instant 1409658900000) = Return r
      /\ getFullYear (tz := UTCzone) r = Num.ofZ 2014
      /\ JSDate.getMonth (tz := UTCzone) r = Num.ofZ 8
      /\ getDate (tz := UTCzone) r = Num.ofZ 30
      /\ getHours (tz := UTCzone) r = Num.ofZ 23
      /\ getMinutes (tz := UTCzone) r = Num.ofZ 59
      /\ getSeconds (tz := UTCzone) r = Num.ofZ 59
      /\ getMilliseconds (tz := UTCzone) r = Num.ofZ 999.
Proof.
  assert (H : epoch (instant 1409658900000) = Some 1409658900000) by settle.
  split; [exact H | ].
  apply (endOfMonth_fields (tz := UTCzone) (instant 1409658900000) 1409658900000 H);
    settle.
Defined.

(** X17, witness: 2 September 2014, 11:55:00. *)
Lemma month_boundaries_idempotent_witness :
  epoch (instant 1409658900000) = Some 1409658900000
  /\ (s <- startOfMonth (tz := UTCzone) (instant 1409658900000) ;;
      startOfMonth (tz := UTCzone) (VDate s))
     = startOfMonth (tz := UTCzone) (instant 1409658900000)
  /\ (e <- endOfMonth (tz := UTCzone) (instant 1409658900000) ;;
      endOfMonth (tz := UTCzone) (VDate e))
     = endOfMonth (tz := UTCzone) (instant 1409658900000).
Proof.
  assert (H : epoch (instant 1409658900000) = Some 1409658900000) by settle.
  destruct (month_boundaries_idempotent (tz := UTCzone)
              (instant 1409658900000) 1409658900000 H) as [Hs He].
  split; [exact H | split; [apply Hs | apply He]]; settle.
Defined.

(** X18, witness: 2 September 2014, 11:55:00. *)
Lemma month_boundaries_absorb_witness :
  epoch (instant 1409658900000) = Some 1409658900000
  /\ (s <- startOfMonth (tz := UTCzone) (instant 1409658900000) ;;
      endOfMonth (tz := UTCzone) (VDate s))
     = endOfMonth (tz := UTCzone) (instant 1409658900000)
  /\ (e <- endOfMonth (tz := UTCzone) (instant 1409658900000) ;;
      startOfMonth (tz := UTCzone) (VDate e))
     = startOfMonth (tz := UTCzone) (instant 1409658900000).
Proof.
  assert (H : epoch (instant 1409658900000) = Some 1409658900000) by settle.
  split; [exact H | ].
  apply (month_boundaries_absorb (tz := UTCzone) (instant 1409658900000) 1409658900000 H);
    settle.
Defined.

(** X19, witness: February 2000. *)
Lemma getDaysInMonth_endOfMonth_witness :
  epoch (instant 949363200000) = Some 949363200000
  /\ (e <- endOfMonth (tz := UTCzone) (instant 949363200000) ;;
      Return (getDate (tz := UTCzone) e))
     = getDaysInMonth (tz := UTCzone) (instant 949363200000).
Proof.
  assert (H : epoch (instant 949363200000) = Some 949363200000) by settle.
  split; [exact H | ].
  apply (getDaysInMonth_endOfMonth (tz := UTCzone) (instant 949363200000) 949363200000 H);
    settle.
Defined.

(** X20, witness: two and a half. *)
Lemma toInteger_idempotent_witness :
  valid_binary Num.prec Num.emax (Num.div (Num.ofZ 5) (Num.ofZ 2)) = true
  /\ toInteger (NNumber (toInteger (NNumber (Num.div (Num.ofZ 5) (Num.ofZ 2)))))
     = toInteger (NNumber (Num.div (Num.ofZ 5) (Num.ofZ 2))).
Proof.
  assert (H : valid_binary Num.prec Num.emax (Num.div (Num.ofZ 5) (Num.ofZ 2)) = true)
    by settle.
  split; [exact H | ].
  exact (toInteger_idempotent (NNumber (Num.div (Num.ofZ 5) (Num.ofZ 2))) H).
Defined.

(** X21, witness: five and a half months from 1 September 2014. *)
Lemma addMonths_ignores_fraction_witness :
  valid_binary Num.prec Num.emax (Num.div (Num.ofZ 11) (Num.ofZ 2)) = true
  /\ addMonths (tz := UTCzone) (instant 1409529600000)
       (NNumber (Num.div (Num.ofZ 11) (Num.ofZ 2)))
     = addMonths (tz := UTCzone) (instant 1409529600000)
         (NNumber (Num.trunc (Num.div (Num.ofZ 11) (Num.ofZ 2)))).
Proof.
  assert (H : valid_binary Num.prec Num.emax (Num.div (Num.ofZ 11) (Num.ofZ 2)) = true)
    by settle.
  split; [exact H | ].
  exact (addMonths_ignores_fraction (tz := UTCzone) (instant 1409529600000) _ H).
Defined.

(** X24, witness: 1 September 2014 plus five months is 1 February 2015. *)
Lemma addMonths_keeps_day_witness :
  epoch (instant 1409529600000) = Some 1409529600000
  /\ toInteger (NNumber (Num.ofZ 5)) = Num.ofZ 5
  /\ exists r : Date,
      addMonths (tz := UTCzone) (instant 1409529600000) (NNumber (Num.ofZ 5)) = Return r
      /\ getFullYear (tz := UTCzone) r = Num.ofZ 2015
      /\ JSDate.getMonth (tz := UTCzone) r = Num.ofZ 1
      /\ getDate (tz := UTCzone) r = Num.ofZ 1
      /\ getHours (tz := UTCzone) r = Num.ofZ 0
      /\ getMinutes (tz := UTCzone) r = Num.ofZ 0
      /\ getSeconds (tz := UTCzone) r = Num.ofZ 0
      /\ getMilliseconds (tz := UTCzone) r = Num.ofZ 0.
Proof.
  assert (H1 : epoch (instant 1409529600000) = Some 1409529600000) by settle.
  assert (H2 : toInteger (NNumber (Num.ofZ 5)) = Num.ofZ 5) by settle.
  split; [exact H1 | split; [exact H2 | ]].
  apply (addMonths_keeps_day (tz := UTCzone)
           (instant 1409529600000) (NNumber (Num.ofZ 5)) 1409529600000 5 H1 H2);
    settle.
Defined.

(** X25, witness: 15 January 2015, 10:00, one month on and one month back. *)
Lemma addMonths_round_trip_witness :
  epoch (instant 1421316000000) = Some 1421316000000
  /\ DateFromTime (LocalTime (tz := UTCzone) 1421316000000) <= 28
  /\ (r <- addMonths (tz := UTCzone) (instant 1421316000000) (NNumber (Num.ofZ 1)) ;;
      addMonths (tz := UTCzone) (VDate r) (NNumber (Num.ofZ (- 1))))
     = Return (mkDate (Some 1421316000000)).
Proof.
  assert (H1 : epoch (instant 1421316000000) = Some 1421316000000) by settle.
  assert (H2 : DateFromTime (LocalTime (tz := UTCzone) 1421316000000) <= 28) by settle.
  split; [exact H1 | split; [exact H2 | ]].
  apply (addMonths_round_trip (tz := UTCzone) (instant 1421316000000) 1421316000000 1 H1);
    settle.
Defined.

(** X26, witness: 29 February 2012 plus twelve months is 28 February 2013. *)
Lemma addMonths_whole_years_witness :
  epoch (instant 1330502400000) = Some 1330502400000
  /\ exists r : Date,
      addMonths (tz := UTCzone) (instant 1330502400000) (NNumber (Num.ofZ (12 * 1)))
      = Return r
      /\ getFullYear (tz := UTCzone) r = Num.ofZ 2013
      /\ JSDate.getMonth (tz := UTCzone) r = Num.ofZ 1
      /\ getDate (tz := UTCzone) r = Num.ofZ 28.
Proof.
  assert (H : epoch (instant 1330502400000) = Some 1330502400000) by settle.
  split; [exact H | ].
  destruct (addMonths_whole_years (tz := UTCzone) (instant 1330502400000) 1330502400000 1 H)
    as (r & E & HY & HM & HD & _); [settle | settle | settle | ].
  exists r. repeat split; assumption.
Defined.

(** X27, witness: 15 January 2015, one month and then two, or three at once. *)
Lemma addMonths_composes_witness :
  epoch (instant 1421316000000) = Some 1421316000000
  /\ (r <- addMonths (tz := UTCzone) (instant 1421316000000) (NNumber (Num.ofZ 1)) ;;
      addMonths (tz := UTCzone) (VDate r) (NNumber (Num.ofZ 2)))
     = addMonths (tz := UTCzone) (instant 1421316000000) (NNumber (Num.ofZ (1 + 2))).
Proof.
  assert (H : epoch (instant 1421316000000) = Some 1421316000000) by settle.
  split; [exact H | ].
  apply (addMonths_composes (tz := UTCzone) (instant 1421316000000) 1421316000000 1 2 H);
    settle.
Defined.

(** X28, witness: 2 September 2014, 11:55 UTC, three hours east of
    Greenwich. *)
Lemma month_contains_date_witness :
  epoch (instant 1409658900000) = Some 1409658900000
  /\ exists s e : Date,
      startOfMonth (tz := fixedZone 10800000 eq_refl) (instant 1409658900000) = Return s
      /\ endOfMonth (tz := fixedZone 10800000 eq_refl) (instant 1409658900000) = Return e
      /\ isWithinInterval (instant 1409658900000) (Some (mkInterval (VDate s) (VDate e)))
         = Return true.
Proof.
  assert (H : epoch (instant 1409658900000) = Some 1409658900000) by settle.
  split; [exact H | ].
  apply (month_contains_date 10800000 eq_refl (instant 1409658900000) 1409658900000 H);
    settle.
Defined.

(** X29, witness: September and October 2014, three hours east of
    Greenwich. *)
Lemma months_tile_witness :
  epoch (instant 1409658900000) = Some 1409658900000
  /\ exists e s : Date,
      endOfMonth (tz := fixedZone 10800000 eq_refl) (instant 1409658900000) = Return e
      /\ (next <- addMonths (tz := fixedZone 10800000 eq_refl) (instant 1409658900000)
                    (NNumber (Num.ofZ 1)) ;;
          startOfMonth (tz := fixedZone 10800000 eq_refl) (VDate next)) = Return s
      /\ differenceInMilliseconds (VDate s) (VDate e) = Return (Num.ofZ 1).
Proof.
  assert (H : epoch (instant 1409658900000) = Some 1409658900000) by settle.
  split; [exact H | ].
  apply (months_tile 10800000 eq_refl (instant 1409658900000) 1409658900000 H);
    settle.
Defined.

End Instances.
